(** * PepeBot technical signal engine: a shallow embedding of the Python sources

    The development follows the layout of the repository:
    - [Py]       the fragment of the Python runtime the sources rely on
                 (exceptions, float division, [round], list indexing, slicing);
    - [Float64]  the same float operations on binary64 numbers, with
                 [Utils64] and [Layers64] for the code that is read on them;
    - [Pandas]   the pandas/numpy column operations used by [utils.py];
    - [Utils]    [src/utils.py]   (ATR, ADX, ranging predicate, position sizing);
    - [Layers]   [src/layers.py]  (swing points, clustering, strength, matching);
    - [Text]     the string operations used by [grok.py];
    - [Grok]     [src/grok.py]    (parsing of the technical oracle's reply);
    - [Clock]    the date part of [datetime.utcnow()];
    - [Main]     [src/main.py]    (rate-limit gate and the per-candle pipeline,
                 with the collaborators of [websocket.py] and [alerts.py]);
    - [Sentiment] [src/grok.py]   (parsing of the sentiment oracle's reply);
    - [Backtest] [backtest.py]    (the outcome of a simulated trade);
    - [Trace], [Scenario], [Cycles] and the vocabulary of the statements;
    - the properties, module by module.

    Text.  A reply of an oracle is a string of ASCII characters.

    Numbers.  Two models of Python's [float] are used.  In [Utils], [Layers]
    and the modules built on them a finite float is an exact rational ([Q]):
    rounding error, overflow and signed zeros are outside that model, Python's
    [==] is [Qeq] ([==]), and a NaN (which occurs only as the missing-value
    marker of pandas columns) is [None].  Where the value computed matters to
    the last bit, the position sizer and the clustering of swing points are
    embedded a second time on IEEE 754 binary64 numbers ([Float64], [Utils64],
    [Layers64]), with the rounding, the infinities and the NaN of the
    hardware.

    Exceptions.  A function that can raise returns a [Py.result]; the bot's
    methods run in a state monad over its attributes and the trace of the
    calls it makes, and an exception leaves both as they were set. *)

From Stdlib Require Import String Ascii ZArith QArith Qabs Qround Lia Lqa Bool List.
From Stdlib Require Import Sorted Permutation.
From Stdlib Require Floats.
Import ListNotations.

Set Warnings "-inexact-float".

Open Scope Q_scope.

(* ================================================================= *)
(** ** Python runtime fragment *)

Module Py.

(** The built-in exceptions the modelled code can raise. *)
Inductive exn : Type :=
| ZeroDivisionError
| IndexError
| ValueError.

(** A computation either returns a value or raises. *)
Inductive result (A : Type) : Type :=
| Ok (a : A)
| Raise (e : exn).
Arguments Ok {A} a.
Arguments Raise {A} e.

Definition bind {A B : Type} (c : result A) (k : A -> result B) : result B :=
  match c with
  | Ok a => k a
  | Raise e => Raise e
  end.

(** Float comparisons [x < y], [x <= y] and [x == y]. *)
Definition ltb (x y : Q) : bool := negb (Qle_bool y x).
Definition leb (x y : Q) : bool := Qle_bool x y.
Definition eqb (x y : Q) : bool := Qeq_bool x y.

(** [x / y] on floats: raises [ZeroDivisionError] when [y == 0]. *)
Definition truediv (x y : Q) : result Q :=
  if eqb y 0 then Raise ZeroDivisionError else Ok (x / y).

(** Rounding of a rational to the nearest integer, ties to even. *)
Definition round_half_even (x : Q) : Z :=
  let f := Qfloor x in
  let r := x - inject_Z f in
  match Qcompare r (1 # 2) with
  | Lt => f
  | Gt => (f + 1)%Z
  | Eq => if Z.even f then f else (f + 1)%Z
  end.

(** [round(x, ndigits)] for [ndigits >= 0]. *)
Definition round (x : Q) (ndigits : nat) : Q :=
  let scale := inject_Z (10 ^ Z.of_nat ndigits) in
  inject_Z (round_half_even (x * scale)) / scale.

(** [xs[-1]]: the last element, [IndexError] on the empty list. *)
Definition last_item {A : Type} (xs : list A) : result A :=
  match rev xs with
  | [] => Raise IndexError
  | x :: _ => Ok x
  end.

(** [xs[:k]] with Python's treatment of a negative bound. *)
Definition slice_to {A : Type} (xs : list A) (k : Z) : list A :=
  if (k <? 0)%Z
  then firstn (Z.to_nat (Z.of_nat (length xs) + k)) xs
  else firstn (Z.to_nat k) xs.

(** [len(xs)] as a Python integer. *)
Definition len {A : Type} (xs : list A) : Z := Z.of_nat (length xs).

(** Observation of a float-valued outcome up to numeric equality. *)
Definition returns (c : result Q) (v : Q) : Prop :=
  match c with
  | Ok x => x == v
  | Raise _ => False
  end.

Definition raises {A : Type} (c : result A) (e : exn) : Prop :=
  match c with
  | Ok _ => False
  | Raise e' => e' = e
  end.

End Py.

Import Py.

Declare Scope py_scope.
Delimit Scope py_scope with py.
Notation "x <- c ;; k" := (Py.bind c (fun x => k))
  (at level 61, c at next level, right associativity) : py_scope.
Open Scope py_scope.

(* ================================================================= *)
(** ** Python floats as IEEE 754 binary64 numbers

    The primitive floats of the standard library are binary64 numbers whose
    operations round to nearest, ties to even, as CPython's do on the
    platforms it supports. *)

Module Float64.
Import PrimFloat SpecFloat FloatOps.
Local Open Scope float_scope.

(** [x / y]: raises [ZeroDivisionError] when [y == 0], of either sign. *)
Definition truediv (x y : float) : result float :=
  if y =? 0 then Raise ZeroDivisionError else Ok (x / y).

(** [float(n)] for an integer below 2^63 in magnitude. *)
Definition of_int (n : Z) : float :=
  if (n <? 0)%Z then - of_uint63 (Uint63.of_Z (- n))
  else of_uint63 (Uint63.of_Z n).

(** [x / n] for an integer [n]: [n] is converted, and [float(n) == 0] exactly
    when [n == 0]. *)
Definition truediv_int (x : float) (n : Z) : result float :=
  if (n =? 0)%Z then Raise ZeroDivisionError else Ok (x / of_int n).


(** The rational a finite float stands for. *)
Definition to_Q (x : float) : Q :=
  match Prim2SF x with
  | S754_finite s m e =>
      (inject_Z (if s then Z.neg m else Z.pos m) * Qpower 2 e)%Q
  | _ => 0%Q
  end.

(** [round(x, 2)].  CPython rounds the exact value of [x] to two decimals,
    ties to even, and returns the float nearest to that decimal.  Below 2^46
    in magnitude the decimal is [k / 100] with [|k| < 2^53], so the division
    of the floats [k] and [100] is that nearest float; from 2^46 on, floats
    are more than 0.01 apart and the result is [x] itself, as it is for an
    infinity and for NaN.  The sign of [x] is kept, also on a zero result. *)
Definition round2 (x : float) : float :=
  if abs x <? 70368744177664 then
    let k := Py.round_half_even (to_Q x * 100)%Q in
    let r := of_uint63 (Uint63.of_Z (Z.abs k)) / 100 in
    if get_sign x then - r else r
  else x.

End Float64.

(* ================================================================= *)
(** ** pandas and numpy column operations used by utils.py

    Modelled from the pandas documentation and the reference implementation of
    exponentially weighted means ([adjust=True], [ignore_na=False]).  A column
    is a list of cells, [None] standing for NaN.  Division of columns does not
    raise: a zero divisor gives a non-finite cell, which this model also
    writes [None]; in [calculate_adx] every such cell yields a NaN [dx]
    whatever its sign, so the identification is harmless there. *)

Module Pandas.

Definition cell : Type := option Q.
Definition column : Type := list cell.

Definition of_list (xs : list Q) : column := map Some xs.

(** [pd.DataFrame({'high': highs, 'low': lows, 'close': closes})]:
    the three arrays must have one length. *)
Definition data_frame (highs lows closes : list Q)
  : result (column * column * column) :=
  if ((length highs =? length lows)%nat && (length lows =? length closes)%nat)%bool
  then Ok (of_list highs, of_list lows, of_list closes)
  else Raise ValueError.

Fixpoint map2 {A B C : Type} (f : A -> B -> C) (xs : list A) (ys : list B)
  : list C :=
  match xs, ys with
  | x :: xs', y :: ys' => f x y :: map2 f xs' ys'
  | _, _ => []
  end.

Definition lift2 (f : Q -> Q -> Q) (a b : cell) : cell :=
  match a, b with
  | Some x, Some y => Some (f x y)
  | _, _ => None
  end.

Definition add : column -> column -> column := map2 (lift2 Qplus).
Definition sub : column -> column -> column := map2 (lift2 Qminus).
Definition neg : column -> column := map (option_map Qopp).
Definition abs : column -> column := map (option_map Qabs).
Definition scale (k : Q) : column -> column := map (option_map (Qmult k)).

(** Elementwise [/]: never raises, a zero divisor gives a non-finite cell. *)
Definition div_cell (a b : cell) : cell :=
  match a, b with
  | Some x, Some y => if eqb y 0 then None else Some (x / y)
  | _, _ => None
  end.
Definition div : column -> column -> column := map2 div_cell.

(** [s.shift(1)] and [s.diff()]. *)
Definition shift1 (s : column) : column :=
  match s with
  | [] => []
  | _ :: _ => None :: removelast s
  end.
Definition diff (s : column) : column := sub s (shift1 s).

(** [s.replace(0, 1)]. *)
Definition replace_zero_one : column -> column :=
  map (fun c => match c with
                | Some x => if eqb x 0 then Some 1 else Some x
                | None => None
                end).

(** [a > b] on columns: a comparison with NaN is false. *)
Definition gt_cell (a b : cell) : bool :=
  match a, b with
  | Some x, Some y => ltb y x
  | _, _ => false
  end.
Definition gt : column -> column -> list bool := map2 gt_cell.
Definition gt_const (s : column) (k : Q) : list bool :=
  map (fun c => gt_cell c (Some k)) s.
Definition band : list bool -> list bool -> list bool := map2 andb.

(** [np.where(cond, s, k)]. *)
Definition where_ (cond : list bool) (s : column) (k : Q) : column :=
  map2 (fun (b : bool) c => if b then c else Some k) cond s.

(** [df[[a, b, c]].max(axis=1)]: row-wise maximum, NaN skipped. *)
Definition max_cell (a b : cell) : cell :=
  match a, b with
  | Some x, Some y => Some (if ltb x y then y else x)
  | Some x, None => Some x
  | None, _ => b
  end.
Definition max_axis1 (a b c : column) : column :=
  map2 max_cell (map2 max_cell a b) c.

(** State of the exponentially weighted mean after a row. *)
Record ewm_state : Type :=
  { weighted : cell; old_wt : Q; nobs : Z }.

Definition is_observation (c : cell) : Z :=
  match c with Some _ => 1%Z | None => 0%Z end.

Definition ewm_step (alpha : Q) (st : ewm_state) (cur : cell) : ewm_state :=
  match weighted st, cur with
  | Some w, Some x =>
      let ow := old_wt st * (1 - alpha) in
      {| weighted := Some ((ow * w + 1 * x) / (ow + 1));
         old_wt := ow + 1;
         nobs := (nobs st + 1)%Z |}
  | Some w, None =>
      {| weighted := Some w;
         old_wt := old_wt st * (1 - alpha);
         nobs := nobs st |}
  | None, _ =>
      {| weighted := cur;
         old_wt := old_wt st;
         nobs := (nobs st + is_observation cur)%Z |}
  end.

Definition ewm_emit (minp : Z) (st : ewm_state) : cell :=
  if (minp <=? nobs st)%Z then weighted st else None.

Fixpoint ewm_rows (alpha : Q) (minp : Z) (st : ewm_state) (s : column)
  : column :=
  match s with
  | [] => []
  | cur :: rest =>
      let st' := ewm_step alpha st cur in
      ewm_emit minp st' :: ewm_rows alpha minp st' rest
  end.

(** [s.ewm(alpha=alpha, min_periods=min_periods).mean()]. *)
Definition ewm_mean (alpha : Q) (min_periods : Z) (s : column)
  : result column :=
  if (leb alpha 0 || ltb 1 alpha)%bool then Raise ValueError
  else
    let minp := Z.max min_periods 1 in
    match s with
    | [] => Ok []
    | x0 :: rest =>
        let st0 := {| weighted := x0; old_wt := 1; nobs := is_observation x0 |} in
        Ok (ewm_emit minp st0 :: ewm_rows alpha minp st0 rest)
    end.

(** [s.iloc[-1]]. *)
Definition iloc_last (s : column) : result cell := last_item s.

End Pandas.

(* ================================================================= *)
(** ** utils.py *)

Module Utils.
Import Pandas.

(** The [tr] column shared by [calculate_atr] and [calculate_adx]. *)
Definition true_range (high low close : column) : column :=
  let tr1 := sub high low in
  let tr2 := abs (sub high (shift1 close)) in
  let tr3 := abs (sub low (shift1 close)) in
  max_axis1 tr1 tr2 tr3.

(** [calculate_atr(highs, lows, closes, period=14)]; the result is the
    float made of the last cell of the smoothed column. *)
Definition calculate_atr (highs lows closes : list Q) (period : Z)
  : result cell :=
  if (len highs <? period + 1)%Z then Ok (Some 0)
  else
    df <- data_frame highs lows closes ;;
    let '(high, low, close) := df in
    let tr := true_range high low close in
    alpha <- truediv 1 (inject_Z period) ;;
    atr <- ewm_mean alpha period tr ;;
    iloc_last atr.

(** [calculate_adx(highs, lows, closes, period=14)]. *)
Definition calculate_adx (highs lows closes : list Q) (period : Z)
  : result cell :=
  if (len highs <? period * 2)%Z then Ok (Some 0)
  else
    df <- data_frame highs lows closes ;;
    let '(high, low, close) := df in
    let up_move := diff high in
    let down_move := neg (diff low) in
    let plus_dm :=
      where_ (band (gt up_move down_move) (gt_const up_move 0)) up_move 0 in
    let minus_dm :=
      where_ (band (gt down_move up_move) (gt_const down_move 0)) down_move 0 in
    let tr := true_range high low close in
    alpha <- truediv 1 (inject_Z period) ;;
    atr <- ewm_mean alpha period tr ;;
    plus_s <- ewm_mean alpha period plus_dm ;;
    let plus_di := div (scale 100 plus_s) atr in
    minus_s <- ewm_mean alpha period minus_dm ;;
    let minus_di := div (scale 100 minus_s) atr in
    let dx :=
      div (scale 100 (abs (sub plus_di minus_di)))
          (replace_zero_one (add plus_di minus_di)) in
    adx <- ewm_mean alpha period dx ;;
    iloc_last adx.

(** [is_ranging(adx_value, threshold=25.0)]: [adx_value < threshold],
    false on NaN. *)
Definition is_ranging (adx_value : cell) (threshold : Q) : bool :=
  match adx_value with
  | Some a => ltb a threshold
  | None => false
  end.

(** [calculate_position_size(account_balance, risk_percent, entry,
    stop_loss, leverage=10)]. *)
Definition calculate_position_size
           (account_balance risk_percent entry stop_loss : Q) (leverage : Z)
  : result Q :=
  let risk_amount := account_balance * (risk_percent / 100) in
  d <- truediv (Qabs (entry - stop_loss)) entry ;;
  let price_diff_percent := d * 100 in
  if eqb price_diff_percent 0 then Ok 0
  else
    position_size <- truediv risk_amount (price_diff_percent / 100) ;;
    Ok (round position_size 2).

End Utils.

(* ================================================================= *)
(** ** utils.py: the position sizer on binary64 numbers *)

Module Utils64.
Import PrimFloat Float64.
Local Open Scope float_scope.

(** [calculate_position_size(account_balance, risk_percent, entry,
    stop_loss, leverage=10)]. *)
Definition calculate_position_size
           (account_balance risk_percent entry stop_loss : float) (leverage : Z)
  : result float :=
  let risk_amount := account_balance * (risk_percent / 100) in
  d <- truediv (abs (entry - stop_loss)) entry ;;
  let price_diff_percent := d * 100 in
  if price_diff_percent =? 0 then Ok 0
  else
    position_size <- truediv risk_amount (price_diff_percent / 100) ;;
    Ok (round2 position_size).

End Utils64.

(* ================================================================= *)
(** ** layers.py *)

Module Layers.

(** [Layer.layer_type] is one of the strings ['support'], ['resistance']. *)
Inductive side : Type := Support | Resistance.

(** The [Layer] dataclass. *)
Record Layer : Type :=
  { price : Q;
    layer_type : side;
    touches : Z;
    strength : Z;
    distance_pct : Q }.

(** A cluster dictionary with keys ['price'], ['touches'], ['indices']. *)
Record Cluster : Type :=
  { cl_price : Q;
    cl_touches : Z;
    cl_indices : list nat }.

(** [xs[i]] for an index the loops below keep inside the list. *)
Definition item (xs : list Q) (i : nat) : Q := nth i xs 0.

(** The inner [for j in range(1, lookback + 1)] test of a swing high. *)
Definition is_swing_high (highs : list Q) (lookback i : nat) : bool :=
  forallb (fun j => negb (leb (item highs i) (item highs (i - j))
                          || leb (item highs i) (item highs (i + j))))
          (seq 1 lookback).

Definition is_swing_low (lows : list Q) (lookback i : nat) : bool :=
  forallb (fun j => negb (leb (item lows (i - j)) (item lows i)
                          || leb (item lows (i + j)) (item lows i)))
          (seq 1 lookback).

(** [range(lookback, len(xs) - lookback)]. *)
Definition swing_range (xs : list Q) (lookback : nat) : list nat :=
  seq lookback (length xs - lookback - lookback).

(** [detect_swing_highs(highs, lookback=2)]. *)
Definition detect_swing_highs (highs : list Q) (lookback : nat)
  : list (nat * Q) :=
  map (fun i => (i, item highs i))
      (filter (is_swing_high highs lookback) (swing_range highs lookback)).

(** [detect_swing_lows(lows, lookback=2)]. *)
Definition detect_swing_lows (lows : list Q) (lookback : nat)
  : list (nat * Q) :=
  map (fun i => (i, item lows i))
      (filter (is_swing_low lows lookback) (swing_range lows lookback)).

(** The test [abs(cluster['price'] - price) / price * 100 < threshold_pct]. *)
Definition near (cluster : Cluster) (price threshold_pct : Q) : result bool :=
  d <- truediv (Qabs (cl_price cluster - price)) price ;;
  Ok (ltb (d * 100) threshold_pct).

(** The update of a matching cluster (weighted average, one more touch). *)
Definition merge (cluster : Cluster) (idx : nat) (price : Q) : result Cluster :=
  let total_touches := (cl_touches cluster + 1)%Z in
  p <- truediv (cl_price cluster * inject_Z (cl_touches cluster) + price)
               (inject_Z total_touches) ;;
  Ok {| cl_price := p;
        cl_touches := total_touches;
        cl_indices := cl_indices cluster ++ [idx] |}.

(** The inner loop [for cluster in clusters]: [Some] of the updated list
    when a cluster matched ([found = True]), [None] otherwise. *)
Fixpoint absorb (clusters : list Cluster) (idx : nat) (price threshold_pct : Q)
  : result (option (list Cluster)) :=
  match clusters with
  | [] => Ok None
  | cluster :: rest =>
      hit <- near cluster price threshold_pct ;;
      if hit : bool then
        merged <- merge cluster idx price ;;
        Ok (Some (merged :: rest))
      else
        r <- absorb rest idx price threshold_pct ;;
        Ok (option_map (cons cluster) r)
  end.

(** One iteration of [for idx, price in levels]. *)
Definition cluster_step (threshold_pct : Q) (clusters : list Cluster)
           (level : nat * Q) : result (list Cluster) :=
  let '(idx, price) := level in
  found <- absorb clusters idx price threshold_pct ;;
  match found with
  | Some clusters' => Ok clusters'
  | None =>
      Ok (clusters ++ [{| cl_price := price; cl_touches := 1; cl_indices := [idx] |}])
  end.

Fixpoint cluster_loop (threshold_pct : Q) (levels : list (nat * Q))
         (clusters : list Cluster) : result (list Cluster) :=
  match levels with
  | [] => Ok clusters
  | level :: rest =>
      clusters' <- cluster_step threshold_pct clusters level ;;
      cluster_loop threshold_pct rest clusters'
  end.

(** [cluster_levels(levels, threshold_pct=0.1)]. *)
Definition cluster_levels (levels : list (nat * Q)) (threshold_pct : Q)
  : result (list Cluster) :=
  match levels with
  | [] => Ok []
  | _ :: _ => cluster_loop threshold_pct levels []
  end.

(** [sum(xs)] and [sum(xs) / len(xs)] for a non-empty [xs]. *)
Definition sum (xs : list Q) : Q := fold_left Qplus xs 0.
Definition mean (xs : list Q) : Q := sum xs / inject_Z (len xs).

(** [[volumes[i] for i in indices if i < len(volumes)]]. *)
Definition touch_volumes (volumes : list Q) (indices : list nat) : list Q :=
  map (item volumes) (filter (fun i => (i <? length volumes)%nat) indices).

(** Factor 3 of [calculate_layer_strength]; [volumes=None] is [None]. *)
Definition volume_factor (cluster : Cluster) (volumes : option (list Q)) : bool :=
  match volumes, cl_indices cluster with
  | Some ((_ :: _) as vs), _ :: _ =>
      let avg_volume := mean vs in
      match touch_volumes vs (cl_indices cluster) with
      | [] => false
      | (_ :: _) as tv => ltb (avg_volume * 1.2) (mean tv)
      end
  | _, _ => false
  end.

(** [calculate_layer_strength(cluster, total_bars, volumes=None)]. *)
Definition calculate_layer_strength (cluster : Cluster) (total_bars : Z)
           (volumes : option (list Q)) : Z :=
  let strength := 0%Z in
  let strength :=
    if (2 <=? cl_touches cluster)%Z then (strength + 1)%Z else strength in
  let recent_threshold := (total_bars - 20)%Z in
  let has_recent :=
    existsb (fun idx => (recent_threshold <=? Z.of_nat idx)%Z) (cl_indices cluster) in
  let strength := if has_recent then (strength + 1)%Z else strength in
  let strength :=
    if volume_factor cluster volumes then (strength + 1)%Z else strength in
  Z.max 1 (Z.min 3 strength).

(** The loop building [resistance_layers]. *)
Fixpoint resistance_of (clusters : list Cluster) (current_price : Q)
         (total_bars : Z) (volumes : option (list Q)) : result (list Layer) :=
  match clusters with
  | [] => Ok []
  | cluster :: rest =>
      if ltb current_price (cl_price cluster) then
        let strength := calculate_layer_strength cluster total_bars volumes in
        d <- truediv (cl_price cluster - current_price) current_price ;;
        tail <- resistance_of rest current_price total_bars volumes ;;
        Ok ({| price := cl_price cluster;
               layer_type := Resistance;
               touches := cl_touches cluster;
               strength := strength;
               distance_pct := d * 100 |} :: tail)
      else resistance_of rest current_price total_bars volumes
  end.

(** The loop building [support_layers]. *)
Fixpoint support_of (clusters : list Cluster) (current_price : Q)
         (total_bars : Z) (volumes : option (list Q)) : result (list Layer) :=
  match clusters with
  | [] => Ok []
  | cluster :: rest =>
      if ltb (cl_price cluster) current_price then
        let strength := calculate_layer_strength cluster total_bars volumes in
        d <- truediv (current_price - cl_price cluster) current_price ;;
        tail <- support_of rest current_price total_bars volumes ;;
        Ok ({| price := cl_price cluster;
               layer_type := Support;
               touches := cl_touches cluster;
               strength := strength;
               distance_pct := d * 100 |} :: tail)
      else support_of rest current_price total_bars volumes
  end.

(** Order of the sort keys [(-x.touches, x.distance_pct)]. *)
Definition key_le (a b : Layer) : bool :=
  ((- touches a <? - touches b)%Z
   || ((- touches a =? - touches b)%Z && leb (distance_pct a) (distance_pct b)))%bool.

Fixpoint insert_layer (x : Layer) (sorted : list Layer) : list Layer :=
  match sorted with
  | [] => [x]
  | y :: rest => if key_le x y then x :: sorted else y :: insert_layer x rest
  end.

(** [layers.sort(key=...)]: the stable sort by key. *)
Definition sort_layers (layers : list Layer) : list Layer :=
  fold_right insert_layer [] layers.

(** [find_layers(highs, lows, closes, volumes=None, cluster_threshold=0.1,
    max_layers=4)]. *)
Definition find_layers (highs lows closes : list Q) (volumes : option (list Q))
           (cluster_threshold : Q) (max_layers : Z)
  : result (list Layer * list Layer) :=
  if (len highs <? 10)%Z then Ok ([], [])
  else
    current_price <- last_item closes ;;
    let total_bars := len closes in
    let swing_highs := detect_swing_highs highs 2 in
    let swing_lows := detect_swing_lows lows 2 in
    resistance_clusters <- cluster_levels swing_highs cluster_threshold ;;
    support_clusters <- cluster_levels swing_lows cluster_threshold ;;
    resistance_layers <-
      resistance_of resistance_clusters current_price total_bars volumes ;;
    support_layers <-
      support_of support_clusters current_price total_bars volumes ;;
    let resistance_layers := sort_layers resistance_layers in
    let support_layers := sort_layers support_layers in
    let half_max := (max_layers / 2)%Z in
    Ok (slice_to resistance_layers half_max, slice_to support_layers half_max).

(** [layer.distance_pct < min_distance], [None] being [float('inf')]. *)
Definition below (d : Q) (min_distance : option Q) : bool :=
  match min_distance with
  | None => true
  | Some m => ltb d m
  end.

(** The loop [for layer in all_layers] of [find_nearest_layer]. *)
Fixpoint scan (layers : list Layer) (threshold_pct : Q)
         (nearest : option Layer) (min_distance : option Q) : option Layer :=
  match layers with
  | [] => nearest
  | layer :: rest =>
      if (below (distance_pct layer) min_distance
          && leb (distance_pct layer) threshold_pct)%bool
      then scan rest threshold_pct (Some layer) (Some (distance_pct layer))
      else scan rest threshold_pct nearest min_distance
  end.

(** [find_nearest_layer(current_price, resistance_layers, support_layers,
    threshold_pct=0.1)]. *)
Definition find_nearest_layer (current_price : Q)
           (resistance_layers support_layers : list Layer) (threshold_pct : Q)
  : option Layer :=
  let all_layers := resistance_layers ++ support_layers in
  scan all_layers threshold_pct None None.

End Layers.

(* ================================================================= *)
(** ** layers.py: clustering on binary64 numbers *)

Module Layers64.
Import PrimFloat Float64.
Local Open Scope float_scope.

(** The dict built by [cluster_levels]. *)
Record Cluster : Type :=
  { cl_price : float;
    cl_touches : Z;
    cl_indices : list nat }.

(** The test [abs(cluster['price'] - price) / price * 100 < threshold_pct]. *)
Definition near (cluster : Cluster) (price threshold_pct : float) : result bool :=
  d <- truediv (abs (cl_price cluster - price)) price ;;
  Ok (d * 100 <? threshold_pct).

(** The update of a matching cluster: the touches are an [int], converted
    where they meet a float. *)
Definition merge (cluster : Cluster) (idx : nat) (price : float) : result Cluster :=
  let total_touches := (cl_touches cluster + 1)%Z in
  p <- truediv_int (cl_price cluster * of_int (cl_touches cluster) + price)
                   total_touches ;;
  Ok {| cl_price := p;
        cl_touches := total_touches;
        cl_indices := cl_indices cluster ++ [idx] |}.

(** The inner loop [for cluster in clusters]. *)
Fixpoint absorb (clusters : list Cluster) (idx : nat) (price threshold_pct : float)
  : result (option (list Cluster)) :=
  match clusters with
  | [] => Ok None
  | cluster :: rest =>
      hit <- near cluster price threshold_pct ;;
      if hit : bool then
        merged <- merge cluster idx price ;;
        Ok (Some (merged :: rest))
      else
        r <- absorb rest idx price threshold_pct ;;
        Ok (option_map (cons cluster) r)
  end.

(** One iteration of [for idx, price in levels]. *)
Definition cluster_step (threshold_pct : float) (clusters : list Cluster)
           (level : nat * float) : result (list Cluster) :=
  let '(idx, price) := level in
  found <- absorb clusters idx price threshold_pct ;;
  match found with
  | Some clusters' => Ok clusters'
  | None =>
      Ok (clusters ++ [{| cl_price := price; cl_touches := 1; cl_indices := [idx] |}])
  end.

Fixpoint cluster_loop (threshold_pct : float) (levels : list (nat * float))
         (clusters : list Cluster) : result (list Cluster) :=
  match levels with
  | [] => Ok clusters
  | level :: rest =>
      clusters' <- cluster_step threshold_pct clusters level ;;
      cluster_loop threshold_pct rest clusters'
  end.

(** [cluster_levels(levels, threshold_pct=0.1)]. *)
Definition cluster_levels (levels : list (nat * float)) (threshold_pct : float)
  : result (list Cluster) :=
  match levels with
  | [] => Ok []
  | _ :: _ => cluster_loop threshold_pct levels []
  end.

End Layers64.

(* ================================================================= *)
(** ** Python string operations used by grok.py (ASCII text) *)

Module Text.

Definition chars : Type := list ascii.

Definition code (c : ascii) : nat := nat_of_ascii c.

(** [c.isspace()]. *)
Definition is_space (c : ascii) : bool :=
  ((9 <=? code c) && (code c <=? 13) || (28 <=? code c) && (code c <=? 32))%nat%bool.

(** The class [\d]. *)
Definition is_digit (c : ascii) : bool :=
  ((48 <=? code c) && (code c <=? 57))%nat%bool.

(** The class [[\d.]]. *)
Definition is_digit_or_dot (c : ascii) : bool :=
  (is_digit c || Ascii.eqb c ".")%bool.

Fixpoint lstrip (s : chars) : chars :=
  match s with
  | [] => []
  | c :: rest => if is_space c then lstrip rest else s
  end.

(** [s.strip()]. *)
Definition strip (s : chars) : chars := rev (lstrip (rev (lstrip s))).

(** [s.upper()]. *)
Definition upper_char (c : ascii) : ascii :=
  if ((97 <=? code c) && (code c <=? 122))%nat%bool
  then ascii_of_nat (code c - 32) else c.
Definition upper (s : chars) : chars := map upper_char s.

(** [s.startswith(prefix)]. *)
Fixpoint startswith (s prefix : chars) : bool :=
  match prefix, s with
  | [], _ => true
  | p :: prefix', c :: s' => (Ascii.eqb p c && startswith s' prefix')%bool
  | _ :: _, [] => false
  end.

Fixpoint split_acc (sep : ascii) (s : chars) (cur : chars) : list chars :=
  match s with
  | [] => [rev cur]
  | c :: rest =>
      if Ascii.eqb c sep then rev cur :: split_acc sep rest []
      else split_acc sep rest (c :: cur)
  end.

(** [s.split(sep)] for a one-character separator. *)
Definition split (sep : ascii) (s : chars) : list chars := split_acc sep s [].

(** [s.split(sep, 1)[1]]: what follows the first separator. *)
Fixpoint after_first (sep : ascii) (s : chars) : result chars :=
  match s with
  | [] => Raise IndexError
  | c :: rest => if Ascii.eqb c sep then Ok rest else after_first sep rest
  end.

(** [xs[1]]. *)
Definition item1 (xs : list chars) : result chars :=
  match xs with
  | _ :: x :: _ => Ok x
  | _ => Raise IndexError
  end.

Fixpoint take_while (p : ascii -> bool) (s : chars) : chars :=
  match s with
  | [] => []
  | c :: rest => if p c then c :: take_while p rest else []
  end.

(** [re.search(r'[class]+', s)]: the first maximal run, if any. *)
Fixpoint search (p : ascii -> bool) (s : chars) : option chars :=
  match s with
  | [] => None
  | c :: rest => if p c then Some (take_while p s) else search p rest
  end.

Definition digit_value (c : ascii) : Z := Z.of_nat (code c - 48).

(** [int(s)] for a run of digits. *)
Definition int_of_digits (s : chars) : Z :=
  fold_left (fun acc c => (10 * acc + digit_value c)%Z) s 0%Z.

(** [float(s)] for a run of digits and dots: [ValueError] unless there is
    at most one dot and at least one digit. *)
Definition float_of_run (s : chars) : result Q :=
  match split "." s with
  | [whole] =>
      match whole with
      | [] => Raise ValueError
      | _ :: _ => Ok (inject_Z (int_of_digits whole))
      end
  | [whole; frac] =>
      match whole ++ frac with
      | [] => Raise ValueError
      | _ :: _ =>
          Ok (inject_Z (int_of_digits (whole ++ frac))
              / inject_Z (10 ^ Z.of_nat (length frac)))
      end
  | _ => Raise ValueError
  end.

Definition eqb (a b : chars) : bool :=
  String.eqb (string_of_list_ascii a) (string_of_list_ascii b).

Definition lit (s : string) : chars := list_ascii_of_string s.

End Text.

(* ================================================================= *)
(** ** grok.py *)

Module Grok.
Import Text.

Inductive signal : Type := LONG | SHORT | SKIP.

(** The dictionary returned by [analyze_technical]. *)
Record technical : Type :=
  { direction : signal;
    confidence : Z;
    tp : Q;
    sl : Q;
    reason : string }.

Definition set_direction (r : technical) (d : signal) : technical :=
  {| direction := d; confidence := confidence r; tp := tp r; sl := sl r;
     reason := reason r |}.
Definition set_confidence (r : technical) (c : Z) : technical :=
  {| direction := direction r; confidence := c; tp := tp r; sl := sl r;
     reason := reason r |}.
Definition set_tp (r : technical) (v : Q) : technical :=
  {| direction := direction r; confidence := confidence r; tp := v; sl := sl r;
     reason := reason r |}.
Definition set_sl (r : technical) (v : Q) : technical :=
  {| direction := direction r; confidence := confidence r; tp := tp r; sl := v;
     reason := reason r |}.
Definition set_reason (r : technical) (s : string) : technical :=
  {| direction := direction r; confidence := confidence r; tp := tp r; sl := sl r;
     reason := s |}.

(** [direction in ['LONG', 'SHORT', 'SKIP']]. *)
Definition signal_of (s : chars) : option signal :=
  if eqb s (lit "LONG") then Some LONG
  else if eqb s (lit "SHORT") then Some SHORT
  else if eqb s (lit "SKIP") then Some SKIP
  else None.

(** The body of [for line in lines]. *)
Definition parse_line (result : technical) (line : chars) : Py.result technical :=
  let line := strip line in
  if startswith line (lit "DIRECTION:") then
    field <- item1 (split ":" line) ;;
    match signal_of (upper (strip field)) with
    | Some d => Ok (set_direction result d)
    | None => Ok result
    end
  else if startswith line (lit "CONFIDENCE:") then
    field <- item1 (split ":" line) ;;
    match search is_digit (strip field) with
    | Some conf_match => Ok (set_confidence result (int_of_digits conf_match))
    | None => Ok result
    end
  else if startswith line (lit "TP:") then
    field <- item1 (split ":" line) ;;
    match search is_digit_or_dot (strip field) with
    | Some tp_match => v <- float_of_run tp_match ;; Ok (set_tp result v)
    | None => Ok result
    end
  else if startswith line (lit "SL:") then
    field <- item1 (split ":" line) ;;
    match search is_digit_or_dot (strip field) with
    | Some sl_match => v <- float_of_run sl_match ;; Ok (set_sl result v)
    | None => Ok result
    end
  else if startswith line (lit "REASON:") then
    rest <- after_first ":" line ;;
    Ok (set_reason result (string_of_list_ascii (strip rest)))
  else Ok result.

(** The loop over the lines.  The dictionary is updated in place, so an
    exception leaves it as the lines before the failing one made it. *)
Fixpoint parse_lines (lines : list chars) (result : technical)
  : technical * option exn :=
  match lines with
  | [] => (result, None)
  | line :: rest =>
      match parse_line result line with
      | Ok result' => parse_lines rest result'
      | Raise e => (result, Some e)
      end
  end.

(** The block "Set default TP/SL based on ATR if not parsed". *)
Definition default_bracket (result : technical) (price atr : Q) : technical :=
  if (Py.eqb (tp result) 0
      && negb match direction result with SKIP => true | _ => false end)%bool
  then
    match direction result with
    | LONG => set_sl (set_tp result (price + atr)) (price - atr)
    | _ => set_sl (set_tp result (price - atr)) (price + atr)
    end
  else result.

Definition initial_result : technical :=
  {| direction := SKIP; confidence := 0; tp := 0; sl := 0;
     reason := "Failed to parse response" |}.

(** [GrokClient._parse_technical_response(response, price, atr)]. *)
Definition _parse_technical_response (response : string) (price atr : Q)
  : technical :=
  let lines := split "010" (strip (lit response)) in
  match parse_lines lines initial_result with
  | (result, None) => default_bracket result price atr
  | (result, Some _) => result
  end.

(** [GrokClient.analyze_technical]: the completion is the text of the
    oracle's reply, or the message of the exception the call raised. *)
Definition analyze_technical (completion : string + string) (price atr : Q)
  : technical :=
  match completion with
  | inl content => _parse_technical_response content price atr
  | inr message =>
      {| direction := SKIP; confidence := 0; tp := 0; sl := 0;
         reason := "API error: " ++ message |}
  end.

End Grok.

(* ================================================================= *)
(** ** The clock: the date part of [datetime.utcnow()] *)

Module Clock.

Record datetime : Type := { year : Z; month : Z; day : Z }.

Definition is_leap (y : Z) : bool :=
  (((y mod 4 =? 0) && negb (y mod 100 =? 0)) || (y mod 400 =? 0))%Z%bool.

Definition days_in_month (y m : Z) : Z :=
  if (m =? 2)%Z then (if is_leap y then 29 else 28)%Z
  else if ((m =? 4) || (m =? 6) || (m =? 9) || (m =? 11))%Z%bool then 30%Z
  else 31%Z.

Definition valid (d : datetime) : Prop :=
  (1 <= month d <= 12 /\ 1 <= day d <= days_in_month (year d) (month d))%Z.

Definition same_date (a b : datetime) : Prop :=
  year a = year b /\ month a = month b /\ day a = day b.

(** The calendar day after [d]. *)
Definition tomorrow (d : datetime) : datetime :=
  if (day d <? days_in_month (year d) (month d))%Z
  then {| year := year d; month := month d; day := (day d + 1)%Z |}
  else if (month d <? 12)%Z
       then {| year := year d; month := (month d + 1)%Z; day := 1%Z |}
       else {| year := (year d + 1)%Z; month := 1%Z; day := 1%Z |}.

End Clock.

(* ================================================================= *)
(** ** main.py (with the collaborators of websocket.py and alerts.py) *)

Module Main.
Import Pandas Layers Clock.

(** Configuration constants. *)
Definition LEVERAGE : Z := 10.
Definition MAX_RISK_PERCENT : Q := 0.2.
Definition ACCOUNT_BALANCE : Q := 1000.
Definition COOLDOWN_SECONDS : Q := 60.
Definition MAX_CALLS_PER_DAY : Z := 500.
Definition MAX_X_SEARCHES_PER_DAY : Z := 100.
Definition MIN_CONFIDENCE : Z := 60.
Definition HIGH_CONFIDENCE : Z := 80.
Definition LAYER_THRESHOLD_PCT : Q := 0.1.

(** A candle dictionary of [BinanceWebSocket.candles]. *)
Record Candle : Type :=
  { timestamp : Z; open : Q; high : Q; low : Q; close : Q; volume : Q }.

(** The mutable attributes of [PepeScalpingBot]. *)
Record PepeScalpingBot : Type :=
  { last_api_call : Q;
    daily_calls : Z;
    daily_x_searches : Z;
    last_reset_day : Z;
    _update_count : Z }.

Inductive status : Type := RANGE | TREND.

(** The keyword arguments of [GrokClient.analyze_technical]; the text of
    [ohlcv_summary] is represented by the candles and changes it prints. *)
Record technical_request : Type :=
  { rq_price : Q;
    rq_layer_type : side;
    rq_layer_price : Q;
    rq_layer_distance : Q;
    rq_layer_strength : Z;
    rq_layer_touches : Z;
    rq_ohlcv_summary : list (Candle * Q);
    rq_atr_value : cell;
    rq_adx_value : cell;
    rq_market_status : status;
    rq_volume_ratio : Q }.

(** The keyword arguments of [GrokClient.analyze_with_sentiment]. *)
Record sentiment_request : Type :=
  { sq_direction : Grok.signal;
    sq_confidence : Z;
    sq_price : Q;
    sq_tp : Q;
    sq_sl : Q }.

(** The dictionary returned by [GrokClient.analyze_with_sentiment]. *)
Record sentiment_reply : Type :=
  { take_trade : bool;
    sentiment : string;
    buzz_score : Z;
    btc_status : string;
    whale_alert : bool;
    x_reason : string }.

(** What one candle update reads from outside the bot: the candle window,
    the clock, and the replies the two oracles give when asked. *)
Record cycle : Type :=
  { candles : list Candle;
    utcnow : datetime;
    time_at_gate : Q;
    time_at_call : Q;
    technical_oracle : technical_request -> Grok.technical;
    sentiment_oracle : sentiment_request -> sentiment_reply }.

(** The trace of a run: the calls the pipeline makes to its collaborators,
    in order.  [DailyCountersReset] and [PositionSizeComputed] are ghost
    events marking the reset branch of [can_call_api] and the call of
    [calculate_position_size]. *)
Inductive event : Type :=
| DailyCountersReset
| ApiUsageLogged (call_type : string) (cost : Q) (calls searches : Z)
| TechnicalOracleCalled (request : technical_request)
| PositionSizeComputed (entry stop_loss size : Q)
| SentimentOracleCalled (request : sentiment_request)
| TradeSignalLogged (direction : Grok.signal) (entry tp sl : Q) (confidence : Z)
| HighConfidenceAlert (direction : Grok.signal) (entry tp sl size : Q)
                      (confidence : Z)
| BorderlineAlert (direction : Grok.signal) (entry tp sl size : Q)
                  (confidence : Z) (reply : sentiment_reply).

Record world : Type := { bot : PepeScalpingBot; trace : list event }.

(** Stateful, fallible computations of the bot: an exception leaves the
    attributes as they were set before it. *)
Definition M (A : Type) : Type := world -> result A * world.

Definition ret {A : Type} (a : A) : M A := fun w => (Ok a, w).

Definition bindM {A B : Type} (c : M A) (k : A -> M B) : M B :=
  fun w =>
    match c w with
    | (Ok a, w') => k a w'
    | (Raise e, w') => (Raise e, w')
    end.

Definition lift {A : Type} (c : result A) : M A := fun w => (c, w).

Definition emit (e : event) : M unit :=
  fun w => (Ok tt, {| bot := bot w; trace := trace w ++ [e] |}).

Definition get : M PepeScalpingBot := fun w => (Ok (bot w), w).

(** An attribute assignment [self.attr = ...]. *)
Definition modify (f : PepeScalpingBot -> PepeScalpingBot) : M unit :=
  fun w => (Ok tt, {| bot := f (bot w); trace := trace w |}).

Definition set_last_api_call (v : Q) (self : PepeScalpingBot) : PepeScalpingBot :=
  {| last_api_call := v;
     daily_calls := daily_calls self;
     daily_x_searches := daily_x_searches self;
     last_reset_day := last_reset_day self;
     _update_count := _update_count self |}.
Definition set_daily_calls (v : Z) (self : PepeScalpingBot) : PepeScalpingBot :=
  {| last_api_call := last_api_call self;
     daily_calls := v;
     daily_x_searches := daily_x_searches self;
     last_reset_day := last_reset_day self;
     _update_count := _update_count self |}.
Definition set_daily_x_searches (v : Z) (self : PepeScalpingBot)
  : PepeScalpingBot :=
  {| last_api_call := last_api_call self;
     daily_calls := daily_calls self;
     daily_x_searches := v;
     last_reset_day := last_reset_day self;
     _update_count := _update_count self |}.
Definition set_last_reset_day (v : Z) (self : PepeScalpingBot) : PepeScalpingBot :=
  {| last_api_call := last_api_call self;
     daily_calls := daily_calls self;
     daily_x_searches := daily_x_searches self;
     last_reset_day := v;
     _update_count := _update_count self |}.
Definition set_update_count (v : Z) (self : PepeScalpingBot) : PepeScalpingBot :=
  {| last_api_call := last_api_call self;
     daily_calls := daily_calls self;
     daily_x_searches := daily_x_searches self;
     last_reset_day := last_reset_day self;
     _update_count := v |}.

Declare Scope bot_scope.
Notation "x <- c ;; k" := (bindM c (fun x => k))
  (at level 61, c at next level, right associativity) : bot_scope.
Notation "c ;;; k" := (bindM c (fun _ => k))
  (at level 61, right associativity) : bot_scope.
Local Open Scope bot_scope.

(** [PepeScalpingBot.can_call_api]. *)
Definition can_call_api (now : datetime) (time_now : Q) : M bool :=
  self <- get ;;
  let current_day := day now in
  (if negb (current_day =? last_reset_day self)%Z
   then
     modify (set_daily_calls 0) ;;;
     modify (set_daily_x_searches 0) ;;;
     modify (set_last_reset_day current_day) ;;;
     emit DailyCountersReset
   else ret tt) ;;;
  self <- get ;;
  if (MAX_CALLS_PER_DAY <=? daily_calls self)%Z then ret false
  else
    let elapsed := time_now - last_api_call self in
    ret (leb COOLDOWN_SECONDS elapsed).

(** [PepeScalpingBot.log_api_call(call_type, cost)]. *)
Definition log_api_call (call_type : string) (cost : Q) : M unit :=
  self <- get ;;
  emit (ApiUsageLogged call_type cost (daily_calls self) (daily_x_searches self)).

(** [PepeScalpingBot.log_trade_signal]. *)
Definition log_trade_signal (direction : Grok.signal) (entry tp sl : Q)
           (confidence : Z) : M unit :=
  emit (TradeSignalLogged direction entry tp sl confidence).

(** [BinanceWebSocket.get_ohlcv_lists]. *)
Definition get_ohlcv_lists (cs : list Candle)
  : list Q * list Q * list Q * list Q * list Q :=
  (map open cs, map high cs, map low cs, map close cs, map volume cs).

(** [xs[-10:]]. *)
Definition last10 {A : Type} (xs : list A) : list A :=
  skipn (length xs - 10) xs.

(** [BinanceWebSocket.get_candles_summary]: one line per recent candle,
    with [change = ((close - open) / open) * 100]. *)
Fixpoint summary_lines (recent : list Candle) : result (list (Candle * Q)) :=
  match recent with
  | [] => Ok []
  | c :: rest =>
      (d <- truediv (close c - open c) (open c) ;;
       tail <- summary_lines rest ;;
       Ok ((c, d * 100) :: tail))%py
  end.
Definition get_candles_summary (cs : list Candle) : result (list (Candle * Q)) :=
  summary_lines (last10 cs).

(** The percentages printed by both alerts of [TelegramAlert]. *)
Definition alert_percentages (entry tp sl : Q) : result (Q * Q) :=
  (a <- truediv (Qabs (tp - entry)) entry ;;
   b <- truediv (Qabs (sl - entry)) entry ;;
   Ok (a * 100, b * 100))%py.

(** [TelegramAlert.send_high_confidence_alert]. *)
Definition send_high_confidence_alert (direction : Grok.signal)
           (entry tp sl size : Q) (confidence : Z) : M unit :=
  _ <- lift (alert_percentages entry tp sl) ;;
  emit (HighConfidenceAlert direction entry tp sl size confidence).

(** [TelegramAlert.send_borderline_alert]. *)
Definition send_borderline_alert (direction : Grok.signal)
           (entry tp sl size : Q) (technical_confidence : Z)
           (reply : sentiment_reply) : M unit :=
  _ <- lift (alert_percentages entry tp sl) ;;
  emit (BorderlineAlert direction entry tp sl size technical_confidence reply).

(** [volumes[-1] / (sum(volumes) / len(volumes)) if volumes else 1.0]. *)
Definition volume_ratio_of (volumes : list Q) : result Q :=
  match volumes with
  | [] => Ok 1
  | _ :: _ =>
      (v <- last_item volumes ;;
       truediv v (Layers.sum volumes / inject_Z (len volumes)))%py
  end.

(** The block "DECISION LOGIC" of [on_candle]. *)
Definition decide (c : cycle) (current_price : Q) (result : Grok.technical)
  : M unit :=
  let direction := Grok.direction result in
  let confidence := Grok.confidence result in
  let tp := Grok.tp result in
  let sl := Grok.sl result in
  if (confidence <? MIN_CONFIDENCE)%Z then ret tt
  else
    position_size <-
      lift (Utils.calculate_position_size ACCOUNT_BALANCE MAX_RISK_PERCENT
                                          current_price sl LEVERAGE) ;;
    emit (PositionSizeComputed current_price sl position_size) ;;;
    if (HIGH_CONFIDENCE <=? confidence)%Z then
      log_trade_signal direction current_price tp sl confidence ;;;
      send_high_confidence_alert direction current_price tp sl position_size
                                 confidence
    else
      self <- get ;;
      if (MAX_X_SEARCHES_PER_DAY <=? daily_x_searches self)%Z then ret tt
      else
        modify (fun self => set_daily_x_searches (daily_x_searches self + 1) self) ;;;
        log_api_call "x_search" 0.005 ;;;
        let request :=
          {| sq_direction := direction; sq_confidence := confidence;
             sq_price := current_price; sq_tp := tp; sq_sl := sl |} in
        emit (SentimentOracleCalled request) ;;;
        let x_result := sentiment_oracle c request in
        if take_trade x_result then
          log_trade_signal direction current_price tp sl confidence ;;;
          send_borderline_alert direction current_price tp sl position_size
                                confidence x_result
        else ret tt.

(** The part of [on_candle] behind the rate-limit gate: the call is
    charged, then the technical oracle is asked. *)
Definition analyse (c : cycle) (current_price : Q) (near_layer : Layer)
           (atr adx : cell) (market_status : status) (volume_ratio : Q)
  : M unit :=
  modify (set_last_api_call (time_at_call c)) ;;;
  modify (fun self => set_daily_calls (daily_calls self + 1) self) ;;;
  log_api_call "technical" 0.00028 ;;;
  ohlcv_summary <- lift (get_candles_summary (candles c)) ;;
  let request :=
    {| rq_price := current_price;
       rq_layer_type := layer_type near_layer;
       rq_layer_price := price near_layer;
       rq_layer_distance := distance_pct near_layer;
       rq_layer_strength := strength near_layer;
       rq_layer_touches := touches near_layer;
       rq_ohlcv_summary := ohlcv_summary;
       rq_atr_value := atr;
       rq_adx_value := adx;
       rq_market_status := market_status;
       rq_volume_ratio := volume_ratio |} in
  emit (TechnicalOracleCalled request) ;;;
  decide c current_price (technical_oracle c request).

(** The indicator and layer stage of [on_candle].  It reads the window only:
    [self.ws.get_ohlcv_lists()] returns the columns of [self.ws.candles],
    the list the callback was called with. *)
Definition survey (cs : list Candle)
  : result (Q * cell * cell * status * Q * option Layer) :=
  (let '(opens, highs, lows, closes, volumes) := get_ohlcv_lists cs in
   current_price <- last_item closes ;;
   atr <- Utils.calculate_atr highs lows closes 14 ;;
   adx <- Utils.calculate_adx highs lows closes 14 ;;
   let market_status := if Utils.is_ranging adx 25 then RANGE else TREND in
   volume_ratio <- volume_ratio_of volumes ;;
   layers <- find_layers highs lows closes (Some volumes) 0.1 4 ;;
   let '(resistance_layers, support_layers) := layers in
   Ok (current_price, atr, adx, market_status, volume_ratio,
       find_nearest_layer current_price resistance_layers support_layers
                          LAYER_THRESHOLD_PCT))%py.

(** [PepeScalpingBot.on_candle(candles)]. *)
Definition on_candle (c : cycle) : M unit :=
  if (len (candles c) <? 20)%Z then ret tt
  else
    modify (fun self => set_update_count (_update_count self + 1) self) ;;;
    found <- lift (survey (candles c)) ;;
    let '(current_price, atr, adx, market_status, volume_ratio, near) := found in
    match near with
    | None => ret tt
    | Some near_layer =>
        allowed <- can_call_api (utcnow c) (time_at_gate c) ;;
        if negb allowed then ret tt
        else analyse c current_price near_layer atr adx market_status
                     volume_ratio
    end.

(** The loop of [BinanceWebSocket.stream_candles] over successive updates:
    the callback runs on a non-empty window, and an exception it raises is
    caught and the stream goes on. *)
Fixpoint stream_candles (updates : list cycle) (w : world) : world :=
  match updates with
  | [] => w
  | c :: rest =>
      match candles c with
      | [] => stream_candles rest w
      | _ :: _ => stream_candles rest (snd (on_candle c w))
      end
  end.

(** [PepeScalpingBot.__init__]: the rate-limit attributes. *)
Definition init (now : datetime) : PepeScalpingBot :=
  {| last_api_call := 0;
     daily_calls := 0;
     daily_x_searches := 0;
     last_reset_day := day now;
     _update_count := 0 |}.

End Main.

(* ================================================================= *)
(** ** grok.py: the sentiment reply *)

Module Sentiment.
Import Text Main.

(** [needle in s]. *)
Fixpoint contains (s needle : chars) : bool :=
  match s with
  | [] => match needle with [] => true | _ :: _ => false end
  | _ :: rest => (startswith s needle || contains rest needle)%bool
  end.

(** [s.split()[0]]: the first run of non-blank characters. *)
Definition first_word (s : chars) : result chars :=
  match lstrip s with
  | [] => Raise IndexError
  | (_ :: _) as t => Ok (take_while (fun c => negb (is_space c)) t)
  end.

(** [sentiment in ['BULLISH', 'BEARISH', 'NEUTRAL']]. *)
Definition known_sentiment (s : chars) : bool :=
  (eqb s (lit "BULLISH") || eqb s (lit "BEARISH") || eqb s (lit "NEUTRAL"))%bool.

Definition set_take_trade (r : sentiment_reply) (v : bool) : sentiment_reply :=
  {| take_trade := v; sentiment := sentiment r; buzz_score := buzz_score r;
     btc_status := btc_status r; whale_alert := whale_alert r;
     x_reason := x_reason r |}.
Definition set_sentiment (r : sentiment_reply) (v : string) : sentiment_reply :=
  {| take_trade := take_trade r; sentiment := v; buzz_score := buzz_score r;
     btc_status := btc_status r; whale_alert := whale_alert r;
     x_reason := x_reason r |}.
Definition set_buzz_score (r : sentiment_reply) (v : Z) : sentiment_reply :=
  {| take_trade := take_trade r; sentiment := sentiment r; buzz_score := v;
     btc_status := btc_status r; whale_alert := whale_alert r;
     x_reason := x_reason r |}.
Definition set_btc_status (r : sentiment_reply) (v : string) : sentiment_reply :=
  {| take_trade := take_trade r; sentiment := sentiment r;
     buzz_score := buzz_score r; btc_status := v;
     whale_alert := whale_alert r; x_reason := x_reason r |}.
Definition set_whale_alert (r : sentiment_reply) (v : bool) : sentiment_reply :=
  {| take_trade := take_trade r; sentiment := sentiment r;
     buzz_score := buzz_score r; btc_status := btc_status r;
     whale_alert := v; x_reason := x_reason r |}.
Definition set_reason (r : sentiment_reply) (v : string) : sentiment_reply :=
  {| take_trade := take_trade r; sentiment := sentiment r;
     buzz_score := buzz_score r; btc_status := btc_status r;
     whale_alert := whale_alert r; x_reason := v |}.

(** The body of [for line in lines] of [_parse_sentiment_response]. *)
Definition parse_line (result : sentiment_reply) (line : chars)
  : Py.result sentiment_reply :=
  (let line := strip line in
   if startswith line (lit "TAKE_TRADE:") then
     Ok (set_take_trade result (contains (upper line) (lit "YES")))
   else if startswith line (lit "SENTIMENT:") then
     field <- item1 (split ":" line) ;;
     let sentiment := upper (strip field) in
     if known_sentiment sentiment
     then Ok (set_sentiment result (string_of_list_ascii sentiment))
     else Ok result
   else if startswith line (lit "BUZZ_SCORE:") then
     match search is_digit line with
     | Some buzz_match => Ok (set_buzz_score result (int_of_digits buzz_match))
     | None => Ok result
     end
   else if startswith line (lit "BTC_STATUS:") then
     field <- item1 (split ":" line) ;;
     let btc := upper (strip field) in
     if (contains btc (lit "UP") || contains btc (lit "DOWN")
         || contains btc (lit "FLAT"))%bool
     then word <- first_word btc ;;
          Ok (set_btc_status result (string_of_list_ascii word))
     else Ok result
   else if startswith line (lit "WHALE_ALERT:") then
     Ok (set_whale_alert result (contains (upper line) (lit "YES")))
   else if startswith line (lit "REASON:") then
     rest <- after_first ":" line ;;
     Ok (set_reason result (string_of_list_ascii (strip rest)))
   else Ok result)%py.

(** The loop over the lines; the dictionary is updated in place, so an
    exception would leave it as the lines before made it. *)
Fixpoint parse_lines (lines : list chars) (result : sentiment_reply)
  : sentiment_reply * option exn :=
  match lines with
  | [] => (result, None)
  | line :: rest =>
      match parse_line result line with
      | Ok result' => parse_lines rest result'
      | Raise e => (result, Some e)
      end
  end.

Definition initial_result : sentiment_reply :=
  {| take_trade := false; sentiment := "NEUTRAL"; buzz_score := 0;
     btc_status := "FLAT"; whale_alert := false;
     x_reason := "Failed to parse response" |}.

(** The lines of a reply: [response.strip().split('\n')]. *)
Definition lines_of (response : string) : list chars :=
  split "010" (strip (lit response)).

(** [GrokClient._parse_sentiment_response(response)]. *)
Definition _parse_sentiment_response (response : string) : sentiment_reply :=
  fst (parse_lines (lines_of response) initial_result).

(** [GrokClient.analyze_with_sentiment]: the completion is the text of the
    oracle's reply, or the message of the exception the call raised. *)
Definition analyze_with_sentiment (completion : string + string)
  : sentiment_reply :=
  match completion with
  | inl content => _parse_sentiment_response content
  | inr message =>
      {| take_trade := false; sentiment := "NEUTRAL"; buzz_score := 0;
         btc_status := "FLAT"; whale_alert := false;
         x_reason := "API error: " ++ message |}
  end.

End Sentiment.

(* ================================================================= *)
(** ** Reading a trace *)

Module Trace.
Import Main Clock.

Definition is_reset (e : event) : bool :=
  match e with DailyCountersReset => true | _ => false end.

Definition is_technical_call (e : event) : bool :=
  match e with TechnicalOracleCalled _ => true | _ => false end.

Definition is_sentiment_call (e : event) : bool :=
  match e with SentimentOracleCalled _ => true | _ => false end.

Definition is_position_size (e : event) : bool :=
  match e with PositionSizeComputed _ _ _ => true | _ => false end.

Definition is_alert (e : event) : bool :=
  match e with
  | HighConfidenceAlert _ _ _ _ _ _ => true
  | BorderlineAlert _ _ _ _ _ _ _ => true
  | _ => false
  end.

Definition count (p : event -> bool) (evs : list event) : nat :=
  length (filter p evs).

(** [confined p m]: whatever the state, [m] appends to the trace only events
    satisfying [p] and leaves [last_reset_day] alone. *)
Definition confined (p : event -> bool) {A : Type} (m : M A) : Prop :=
  forall w,
    exists evs,
      trace (snd (m w)) = trace w ++ evs
      /\ forallb p evs = true
      /\ last_reset_day (bot (snd (m w))) = last_reset_day (bot w).

(** Events of the decision stage: neither a reset nor a technical call. *)
Definition calm (e : event) : bool :=
  negb (is_reset e || is_technical_call e).

Definition no_reset (e : event) : bool := negb (is_reset e).

(** The events and the outcome of one candle update started with an empty
    trace. *)
Definition events_of (c : cycle) (self : PepeScalpingBot) : list event :=
  trace (snd (on_candle c {| bot := self; trace := [] |})).

(** The candle update gets as far as the rate-limit gate: the window is long
    enough, the indicator stage does not raise and a layer is near. *)
Definition reaches_gate (c : cycle) : bool :=
  (negb (len (candles c) <? 20)%Z
   && match survey (candles c) with
      | Ok (_, Some _) => true
      | _ => false
      end)%bool.

(** The clock readings of the successive gate checks of a stream. *)
Definition gate_dates (updates : list cycle) : list datetime :=
  map utcnow (filter reaches_gate updates).

Definition date_eqb (a b : datetime) : bool :=
  ((year a =? year b) && (month a =? month b) && (day a =? day b))%Z%bool.

(** The gate is consulted on every day: each check falls on the date of the
    previous one or on the next date. *)
Fixpoint daily (previous : datetime) (checks : list datetime) : Prop :=
  match checks with
  | [] => True
  | d :: rest =>
      valid previous /\ (d = previous \/ d = tomorrow previous) /\ daily d rest
  end.

(** The number of checks whose day of the month is not the stored one. *)
Fixpoint day_changes (stored : Z) (checks : list datetime) : nat :=
  match checks with
  | [] => 0
  | d :: rest =>
      ((if (day d =? stored)%Z then 0 else 1) + day_changes (day d) rest)%nat
  end.

(** The number of checks whose date is not the date of the previous one:
    along a [daily] sequence, the number of day rollovers it crosses. *)
Fixpoint rollovers (previous : datetime) (checks : list datetime) : nat :=
  match checks with
  | [] => 0
  | d :: rest =>
      ((if date_eqb d previous then 0 else 1) + rollovers d rest)%nat
  end.

End Trace.

(* ================================================================= *)
(** ** A worked scenario: twenty one-minute candles below a resistance *)

Module Scenario.
Import Main Clock.

Definition highs : list Q :=
  [100; 100.5; 101; 100.5; 100.2; 100.1; 100.3; 100.6; 101.02; 100.6;
   100.3; 100.1; 100; 100.2; 100.4; 100.6; 100.8; 100.9; 100.95; 100.97].

Definition window : list Candle :=
  map (fun h => {| timestamp := 0; open := h - 0.2; high := h; low := h - 0.3;
                   close := h - 0.02; volume := 10 |}) highs.

Definition nl : string := String "010" EmptyString.

(** A borderline reply of the technical oracle. *)
Definition borderline_reply : string :=
  "DIRECTION: LONG" ++ nl ++ "CONFIDENCE: 65" ++ nl ++ "TP: 101.5" ++ nl
  ++ "SL: 100.5" ++ nl ++ "REASON: bounce off resistance".

(** A reply that gives a take-profit and a zero stop-loss. *)
Definition stopless_reply : string :=
  "DIRECTION: LONG" ++ nl ++ "CONFIDENCE: 85" ++ nl ++ "TP: 1.5" ++ nl
  ++ "SL: 0" ++ nl ++ "REASON: bounce off support".

(** The reply of the confidence-gate scenario: no bracket at all. *)
Definition bracketless_reply : string :=
  "DIRECTION: LONG" ++ nl ++ "CONFIDENCE: 85" ++ nl ++ "TP: 0" ++ nl
  ++ "SL: 0" ++ nl ++ "REASON: bounce off support".

Definition rejection : sentiment_reply :=
  {| take_trade := false; sentiment := "BEARISH"; buzz_score := 10;
     btc_status := "DOWN"; whale_alert := false; x_reason := "weak sentiment" |}.

Definition float_of_cell (c : Pandas.cell) : Q :=
  match c with Some x => x | None => 0 end.

(** A candle update at the given date, with the oracles answering as above. *)
Definition update (now : datetime) (seconds : Q) : cycle :=
  {| candles := window;
     utcnow := now;
     time_at_gate := seconds;
     time_at_call := seconds;
     technical_oracle := fun request =>
       Grok.analyze_technical (inl borderline_reply) (rq_price request)
                              (float_of_cell (rq_atr_value request));
     sentiment_oracle := fun _ => rejection |}.

Definition jan5 : datetime := {| year := 2026; month := 1; day := 5 |}.
Definition jan6 : datetime := {| year := 2026; month := 1; day := 6 |}.
Definition jan7 : datetime := {| year := 2026; month := 1; day := 7 |}.
Definition feb5 : datetime := {| year := 2026; month := 2; day := 5 |}.

(** A window of negative prices (ten bars, one swing high at -1). *)
Definition negative_highs : list Q := [-5; -4; -1; -4; -5; -6; -8; -6; -5; -3].
Definition negative_lows : list Q := map (fun h => h - 1) negative_highs.
Definition negative_closes : list Q := map (fun h => h - 0.5) negative_highs.

End Scenario.

(* ================================================================= *)
(** ** Further candle updates on the same window *)

Module Cycles.
Import Main Clock Scenario.

(** A reply of the technical oracle below the confidence floor. *)
Definition hesitant_reply : string :=
  "DIRECTION: SKIP" ++ nl ++ "CONFIDENCE: 40" ++ nl ++ "REASON: no edge".

Definition approval : sentiment_reply :=
  {| take_trade := true; sentiment := "BULLISH"; buzz_score := 80;
     btc_status := "UP"; whale_alert := false; x_reason := "strong buzz" |}.

(** A candle update on [window] whose oracles answer [reply] and [answer]. *)
Definition cycle_with (reply : string) (answer : sentiment_reply)
           (now : datetime) (seconds : Q) : cycle :=
  {| candles := window;
     utcnow := now;
     time_at_gate := seconds;
     time_at_call := seconds;
     technical_oracle := fun request =>
       Grok.analyze_technical (inl reply) (rq_price request)
                              (float_of_cell (rq_atr_value request));
     sentiment_oracle := fun _ => answer |}.

(** A bot that has used up the sentiment searches of the day. *)
Definition searched_out (now : datetime) : PepeScalpingBot :=
  set_daily_x_searches 100 (set_daily_calls 100 (init now)).

(** A bot that has used up the technical calls of the day. *)
Definition spent (now : datetime) : PepeScalpingBot :=
  set_daily_calls 500 (init now).

End Cycles.

(* ================================================================= *)
(** ** backtest.py: the outcome of a simulated trade *)

Module Backtest.
Import Main.

(** Configuration constants of the backtest. *)
Definition ACCOUNT_BALANCE : Q := 1000.
Definition MAX_RISK_PERCENT : Q := 0.2.
Definition LEVERAGE : Z := 10.

(** The strings ['WIN'], ['LOSS'] and ['OPEN'] of [BacktestTrade.result]. *)
Inductive outcome : Type := WIN | LOSS | OPEN.

(** The attributes of [BacktestTrade].  [check_trade_outcome] treats every
    direction but ['LONG'] as a short. *)
Record BacktestTrade : Type :=
  { entry_idx : nat;
    entry_price : Q;
    direction : Grok.signal;
    tp : Q;
    sl : Q;
    confidence : Z;
    reason : string;
    exit_idx : option nat;
    exit_price : option Q;
    result : option outcome;
    pnl_percent : Q;
    pnl_usd : Q }.

(** [BacktestTrade.__init__]. *)
Definition new_trade (entry_idx : nat) (entry_price : Q)
           (direction : Grok.signal) (tp sl : Q) (confidence : Z)
           (reason : string) : BacktestTrade :=
  {| entry_idx := entry_idx; entry_price := entry_price;
     direction := direction; tp := tp; sl := sl; confidence := confidence;
     reason := reason; exit_idx := None; exit_price := None; result := None;
     pnl_percent := 0; pnl_usd := 0 |}.

(** The assignments [trade.exit_idx = i], [trade.exit_price = ...] and
    [trade.result = ...] of a hit. *)
Definition set_exit (trade : BacktestTrade) (i : nat) (level : Q) (r : outcome)
  : BacktestTrade :=
  {| entry_idx := entry_idx trade; entry_price := entry_price trade;
     direction := direction trade; tp := tp trade; sl := sl trade;
     confidence := confidence trade; reason := reason trade;
     exit_idx := Some i; exit_price := Some level; result := Some r;
     pnl_percent := pnl_percent trade; pnl_usd := pnl_usd trade |}.

Definition set_result (trade : BacktestTrade) (r : outcome) : BacktestTrade :=
  {| entry_idx := entry_idx trade; entry_price := entry_price trade;
     direction := direction trade; tp := tp trade; sl := sl trade;
     confidence := confidence trade; reason := reason trade;
     exit_idx := exit_idx trade; exit_price := exit_price trade;
     result := Some r;
     pnl_percent := pnl_percent trade; pnl_usd := pnl_usd trade |}.

Definition set_pnl_percent (trade : BacktestTrade) (v : Q) : BacktestTrade :=
  {| entry_idx := entry_idx trade; entry_price := entry_price trade;
     direction := direction trade; tp := tp trade; sl := sl trade;
     confidence := confidence trade; reason := reason trade;
     exit_idx := exit_idx trade; exit_price := exit_price trade;
     result := result trade;
     pnl_percent := v; pnl_usd := pnl_usd trade |}.

Definition set_pnl_usd (trade : BacktestTrade) (v : Q) : BacktestTrade :=
  {| entry_idx := entry_idx trade; entry_price := entry_price trade;
     direction := direction trade; tp := tp trade; sl := sl trade;
     confidence := confidence trade; reason := reason trade;
     exit_idx := exit_idx trade; exit_price := exit_price trade;
     result := result trade;
     pnl_percent := pnl_percent trade; pnl_usd := v |}.

(** The body of a hit branch: the exit is recorded, then the percentage
    [(gain / entry_price) * 100] is computed, and the loop is left.  The
    trade object is updated in place, so an exception leaves it as the
    assignments before made it. *)
Definition hit (trade : BacktestTrade) (i : nat) (level : Q) (r : outcome)
           (gain : Q) : BacktestTrade * option exn :=
  let trade := set_exit trade i level r in
  match truediv gain (entry_price trade) with
  | Ok d => (set_pnl_percent trade (d * 100), None)
  | Raise e => (trade, Some e)
  end.

(** The loop [for i in range(trade.entry_idx + 1, len(candles))] from bar
    [i] on, [bars] being the candles from that bar. *)
Fixpoint scan_bars (trade : BacktestTrade) (i : nat) (bars : list Candle)
  : BacktestTrade * option exn :=
  match bars with
  | [] => (trade, None)
  | bar :: rest =>
      match direction trade with
      | Grok.LONG =>
          if leb (tp trade) (high bar) then
            hit trade i (tp trade) WIN (tp trade - entry_price trade)
          else if leb (low bar) (sl trade) then
            hit trade i (sl trade) LOSS (sl trade - entry_price trade)
          else scan_bars trade (S i) rest
      | _ =>
          if leb (low bar) (tp trade) then
            hit trade i (tp trade) WIN (entry_price trade - tp trade)
          else if leb (sl trade) (high bar) then
            hit trade i (sl trade) LOSS (entry_price trade - sl trade)
          else scan_bars trade (S i) rest
      end
  end.

(** [Backtester.check_trade_outcome(trade, candles)]. *)
Definition check_trade_outcome (trade : BacktestTrade) (candles : list Candle)
  : BacktestTrade * option exn :=
  match scan_bars trade (S (entry_idx trade))
                  (skipn (S (entry_idx trade)) candles) with
  | (trade, Some e) => (trade, Some e)
  | (trade, None) =>
      let trade :=
        match result trade with
        | None => set_result trade OPEN
        | Some _ => trade
        end in
      match result trade with
      | Some OPEN => (trade, None)
      | _ =>
          match Utils.calculate_position_size ACCOUNT_BALANCE MAX_RISK_PERCENT
                                              (entry_price trade) (sl trade)
                                              LEVERAGE with
          | Ok position_size =>
              (set_pnl_usd trade
                 (position_size * (pnl_percent trade / 100) * inject_Z LEVERAGE),
               None)
          | Raise e => (trade, Some e)
          end
      end
  end.

End Backtest.

(* ================================================================= *)
(** ** Vocabulary of the statements *)

(** [best_in all r]: [r] is the outcome the scan of [all] must give. *)
Definition best_in (threshold_pct : Q) (all : list Layers.Layer)
           (r : option Layers.Layer) : Prop :=
  match r with
  | None => forall l, In l all -> ~ Layers.distance_pct l <= threshold_pct
  | Some best =>
      exists pre post,
        all = pre ++ best :: post
        /\ Layers.distance_pct best <= threshold_pct
        /\ (forall l, In l pre -> Layers.distance_pct l <= threshold_pct ->
                      Layers.distance_pct best < Layers.distance_pct l)
        /\ (forall l, In l post -> Layers.distance_pct l <= threshold_pct ->
                      Layers.distance_pct best <= Layers.distance_pct l)
  end.

(** The relative distance, in percent, of a new price to a cluster. *)
Definition rel_distance (cluster : Layers.Cluster) (price : Q) : Q :=
  Qabs (Layers.cl_price cluster - price) / price * 100.

(** The cluster after it absorbed the point [(idx, price)]. *)
Definition merged (cluster : Layers.Cluster) (idx : nat) (price : Q)
  : Layers.Cluster :=
  {| Layers.cl_price :=
       (Layers.cl_price cluster * inject_Z (Layers.cl_touches cluster) + price)
       / inject_Z (Layers.cl_touches cluster + 1);
     Layers.cl_touches := (Layers.cl_touches cluster + 1)%Z;
     Layers.cl_indices := Layers.cl_indices cluster ++ [idx] |}.

(** The cluster a point opens. *)
Definition fresh (idx : nat) (price : Q) : Layers.Cluster :=
  {| Layers.cl_price := price;
     Layers.cl_touches := 1;
     Layers.cl_indices := [idx] |}.

(** Every cluster the loop builds has been touched at least once. *)
Definition touched (cluster : Layers.Cluster) : Prop :=
  (1 <= Layers.cl_touches cluster)%Z.

(** The same on binary64 numbers. *)
Definition merged64 (cluster : Layers64.Cluster) (idx : nat)
           (price : PrimFloat.float) : Layers64.Cluster :=
  {| Layers64.cl_price :=
       PrimFloat.div
         (PrimFloat.add
            (PrimFloat.mul (Layers64.cl_price cluster)
                           (Float64.of_int (Layers64.cl_touches cluster)))
            price)
         (Float64.of_int (Layers64.cl_touches cluster + 1));
     Layers64.cl_touches := (Layers64.cl_touches cluster + 1)%Z;
     Layers64.cl_indices := Layers64.cl_indices cluster ++ [idx] |}.

Definition touched64 (cluster : Layers64.Cluster) : Prop :=
  (1 <= Layers64.cl_touches cluster)%Z.

(** What holds of a layer at the moment it is built. *)
Definition well_built (current_price : Q) (l : Layers.Layer) : Prop :=
  (1 <= Layers.strength l <= 3)%Z
  /\ ~ current_price == 0
  /\ match Layers.layer_type l with
     | Layers.Resistance =>
         current_price < Layers.price l
         /\ Layers.distance_pct l
            = (Layers.price l - current_price) / current_price * 100
     | Layers.Support =>
         Layers.price l < current_price
         /\ Layers.distance_pct l
            = (current_price - Layers.price l) / current_price * 100
     end.

(** The attributes after the day test of [can_call_api], and the event it
    leaves. *)
Definition after_day_test (now : Clock.datetime) (self : Main.PepeScalpingBot)
  : Main.PepeScalpingBot :=
  if (Clock.day now =? Main.last_reset_day self)%Z then self
  else Main.set_last_reset_day (Clock.day now)
         (Main.set_daily_x_searches 0 (Main.set_daily_calls 0 self)).

Definition reset_events (now : Clock.datetime) (self : Main.PepeScalpingBot)
  : list Main.event :=
  if (Clock.day now =? Main.last_reset_day self)%Z then []
  else [Main.DailyCountersReset].

(** The request the decision stage sends to the sentiment oracle. *)
Definition sentiment_request_of (current_price : Q) (result : Grok.technical)
  : Main.sentiment_request :=
  {| Main.sq_direction := Grok.direction result;
     Main.sq_confidence := Grok.confidence result;
     Main.sq_price := current_price;
     Main.sq_tp := Grok.tp result;
     Main.sq_sl := Grok.sl result |}.

(** What a cluster list accounts for: each cluster counts its indices, has at
    least one, and together the clusters hold the indices of the levels. *)
Definition accounts (f : nat -> Q) (clusters : list Layers.Cluster)
           (indices : list nat) : Prop :=
  Forall (fun c => Layers.cl_touches c = Z.of_nat (length (Layers.cl_indices c))
                   /\ Layers.cl_indices c <> []
                   /\ Layers.cl_price c * inject_Z (Layers.cl_touches c)
                      == Layers.sum (map f (Layers.cl_indices c))) clusters
  /\ Permutation (concat (map Layers.cl_indices clusters)) indices.

(** [ranked a b]: layer [a] sorts no later than layer [b] under the key
    [(-touches, distance_pct)]. *)
Definition ranked (a b : Layers.Layer) : Prop :=
  (Layers.touches b < Layers.touches a)%Z
  \/ (Layers.touches a = Layers.touches b
      /\ Layers.distance_pct a <= Layers.distance_pct b).

(** The layer [find_layers] builds from a cluster on the given side. *)
Definition layer_of (side : Layers.side) (current_price : Q) (total_bars : Z)
           (volumes : option (list Q)) (cluster : Layers.Cluster) : Layers.Layer :=
  {| Layers.price := Layers.cl_price cluster;
     Layers.layer_type := side;
     Layers.touches := Layers.cl_touches cluster;
     Layers.strength :=
       Layers.calculate_layer_strength cluster total_bars volumes;
     Layers.distance_pct :=
       match side with
       | Layers.Resistance =>
           (Layers.cl_price cluster - current_price) / current_price * 100
       | Layers.Support =>
           (current_price - Layers.cl_price cluster) / current_price * 100
       end |}.

(** [kept layers k l]: the candidate [l] is among the [k] layers kept, or the
    [k] places are taken by layers that all sort no later than [l]. *)
Definition kept (layers : list Layers.Layer) (k : Z) (l : Layers.Layer) : Prop :=
  In l layers
  \/ (len layers = k /\ forall r, In r layers -> ranked r l).

(** A cell that is NaN or satisfies [P], and a cell that is a number
    satisfying [P]. *)
Definition holds (P : Q -> Prop) (c : Pandas.cell) : Prop :=
  match c with
  | Some x => P x
  | None => True
  end.

Definition number (P : Q -> Prop) (c : Pandas.cell) : Prop :=
  exists x, c = Some x /\ P x.

(** The rate-limit counters are within the daily limits, and no more
    sentiment searches than technical calls were charged. *)
Definition within_budget (self : Main.PepeScalpingBot) : Prop :=
  (0 <= Main.daily_x_searches self <= Main.MAX_X_SEARCHES_PER_DAY)%Z
  /\ (Main.daily_x_searches self <= Main.daily_calls self
      <= Main.MAX_CALLS_PER_DAY)%Z.

(** The attributes once a candle update has passed the gate and charged the
    technical call. *)
Definition charged (c : Main.cycle) (self : Main.PepeScalpingBot)
  : Main.PepeScalpingBot :=
  let counted := Main.set_update_count (Main._update_count self + 1) self in
  let gated := after_day_test (Main.utcnow c) counted in
  Main.set_daily_calls (Main.daily_calls gated + 1)
                       (Main.set_last_api_call (Main.time_at_call c) gated).

(** The request the stage behind the gate sends to the technical oracle. *)
Definition technical_request_of (current_price : Q) (near_layer : Layers.Layer)
           (atr adx : Pandas.cell) (market_status : Main.status)
           (volume_ratio : Q) (ohlcv_summary : list (Main.Candle * Q))
  : Main.technical_request :=
  {| Main.rq_price := current_price;
     Main.rq_layer_type := Layers.layer_type near_layer;
     Main.rq_layer_price := Layers.price near_layer;
     Main.rq_layer_distance := Layers.distance_pct near_layer;
     Main.rq_layer_strength := Layers.strength near_layer;
     Main.rq_layer_touches := Layers.touches near_layer;
     Main.rq_ohlcv_summary := ohlcv_summary;
     Main.rq_atr_value := atr;
     Main.rq_adx_value := adx;
     Main.rq_market_status := market_status;
     Main.rq_volume_ratio := volume_ratio |}.

(** The bar reaches the take-profit, resp. the stop-loss, of the trade. *)
Definition reaches_tp (trade : Backtest.BacktestTrade) (bar : Main.Candle)
  : Prop :=
  match Backtest.direction trade with
  | Grok.LONG => Backtest.tp trade <= Main.high bar
  | _ => Main.low bar <= Backtest.tp trade
  end.

Definition reaches_sl (trade : Backtest.BacktestTrade) (bar : Main.Candle)
  : Prop :=
  match Backtest.direction trade with
  | Grok.LONG => Main.low bar <= Backtest.sl trade
  | _ => Backtest.sl trade <= Main.high bar
  end.

(** No bar strictly between the entry and bar [i] reaches either level. *)
Definition untouched_until (trade : Backtest.BacktestTrade)
           (candles : list Main.Candle) (i : nat) : Prop :=
  forall j bar,
    (Backtest.entry_idx trade < j < i)%nat ->
    nth_error candles j = Some bar ->
    ~ reaches_tp trade bar /\ ~ reaches_sl trade bar.

(** The price move a closed trade books, in the trade's favour when
    positive. *)
Definition booked_move (trade : Backtest.BacktestTrade)
           (r : Backtest.outcome) : Q :=
  match Backtest.direction trade, r with
  | _, Backtest.OPEN => 0
  | Grok.LONG, Backtest.WIN => Backtest.tp trade - Backtest.entry_price trade
  | Grok.LONG, Backtest.LOSS => Backtest.sl trade - Backtest.entry_price trade
  | _, Backtest.WIN => Backtest.entry_price trade - Backtest.tp trade
  | _, Backtest.LOSS => Backtest.entry_price trade - Backtest.sl trade
  end.

(** The levels of the trade bracket its entry on the right sides. *)
Definition bracketed (trade : Backtest.BacktestTrade) : Prop :=
  match Backtest.direction trade with
  | Grok.LONG =>
      Backtest.sl trade < Backtest.entry_price trade
      /\ Backtest.entry_price trade < Backtest.tp trade
  | _ =>
      Backtest.tp trade < Backtest.entry_price trade
      /\ Backtest.entry_price trade < Backtest.sl trade
  end.

(** The trade once a hit at bar [i] with outcome [r] is recorded. *)
Definition closed (trade : Backtest.BacktestTrade) (i : nat)
           (r : Backtest.outcome) : Backtest.BacktestTrade :=
  Backtest.set_pnl_percent
    (Backtest.set_exit trade i
       (match r with
        | Backtest.WIN => Backtest.tp trade
        | _ => Backtest.sl trade
        end) r)
    (booked_move trade r / Backtest.entry_price trade * 100).

(* ================================================================= *)
(** * Properties *)

(** ** Facts about the Python runtime fragment *)

Lemma eqb_true_iff (x y : Q) : Py.eqb x y = true <-> x == y.
Proof. unfold Py.eqb. apply Qeq_bool_iff. Qed.

Lemma eqb_false_iff (x y : Q) : Py.eqb x y = false <-> ~ x == y.
Proof.
  rewrite <- eqb_true_iff. destruct (Py.eqb x y); split; intros; congruence.
Qed.

Lemma leb_true_iff (x y : Q) : Py.leb x y = true <-> x <= y.
Proof. unfold Py.leb. apply Qle_bool_iff. Qed.

Lemma leb_false_iff (x y : Q) : Py.leb x y = false <-> y < x.
Proof.
  unfold Py.leb. split; intros H.
  - apply Qnot_le_lt. intros Hle. apply Qle_bool_iff in Hle. congruence.
  - destruct (Qle_bool x y) eqn:E; [|reflexivity].
    apply Qle_bool_iff in E. exfalso. apply (Qlt_not_le _ _ H E).
Qed.

Lemma ltb_true_iff (x y : Q) : Py.ltb x y = true <-> x < y.
Proof.
  unfold Py.ltb. rewrite negb_true_iff. apply (leb_false_iff y x).
Qed.

Lemma ltb_false_iff (x y : Q) : Py.ltb x y = false <-> y <= x.
Proof.
  unfold Py.ltb. rewrite negb_false_iff. apply (leb_true_iff y x).
Qed.

Lemma truediv_ok (x y : Q) : ~ y == 0 -> truediv x y = Ok (x / y).
Proof.
  intros H. unfold truediv. apply eqb_false_iff in H. now rewrite H.
Qed.

Lemma truediv_zero (x y : Q) : y == 0 -> truediv x y = Raise ZeroDivisionError.
Proof.
  intros H. unfold truediv. apply eqb_true_iff in H. now rewrite H.
Qed.

Lemma truediv_inv (x y v : Q) : truediv x y = Ok v -> ~ y == 0 /\ v = x / y.
Proof.
  unfold truediv. destruct (Py.eqb y 0) eqn:E; intros H; inversion H.
  split; [now apply eqb_false_iff | reflexivity].
Qed.

(** ** utils.py: position sizing *)

Section PositionSizing.

Variables account_balance risk_percent entry stop_loss : Q.
Variable leverage : Z.

(** The percentage distance to the stop is zero exactly when the stop is
    the entry. *)
Lemma price_diff_zero_iff :
  ~ entry == 0 ->
  (Qabs (entry - stop_loss) / entry * 100 == 0 <-> entry == stop_loss).
Proof.
  intros He. split; intros H.
  - assert (Ha : Qabs (entry - stop_loss) == 0).
    { setoid_replace (Qabs (entry - stop_loss))
        with (Qabs (entry - stop_loss) / entry * 100 * (entry / 100))
        by (field; exact He).
      rewrite H. ring. }
    pose proof (Qle_Qabs (entry - stop_loss)) as H1.
    pose proof (Qle_Qabs (- (entry - stop_loss))) as H2.
    rewrite Qabs_opp in H2. lra.
  - rewrite H. setoid_replace (stop_loss - stop_loss) with 0 by ring.
    simpl. field. rewrite <- H. exact He.
Qed.

Let size := Utils.calculate_position_size account_balance risk_percent
                                         entry stop_loss.

(** With a non-zero entry and a stop away from it, the sizer reaches its
    last line. *)
Lemma size_away_from_stop :
  ~ entry == 0 -> ~ entry == stop_loss ->
  size leverage
  = Ok (round (account_balance * (risk_percent / 100)
               / (Qabs (entry - stop_loss) / entry * 100 / 100)) 2).
Proof.
  intros He Hs. unfold size, Utils.calculate_position_size.
  rewrite (truediv_ok _ _ He). cbn [Py.bind].
  assert (Hd : ~ Qabs (entry - stop_loss) / entry * 100 == 0)
    by (rewrite (price_diff_zero_iff He); exact Hs).
  apply eqb_false_iff in Hd as Hb. rewrite Hb.
  rewrite truediv_ok; [reflexivity|]. intros H. apply Hd.
  setoid_replace (Qabs (entry - stop_loss) / entry * 100)
    with (Qabs (entry - stop_loss) / entry * 100 / 100 * 100)
    by (field; exact He).
  rewrite H. ring.
Qed.

(** With a non-zero entry and the stop at the entry, the guard returns 0.0. *)
Lemma size_at_stop :
  ~ entry == 0 -> entry == stop_loss -> size leverage = Ok 0.
Proof.
  intros He Hs. unfold size, Utils.calculate_position_size.
  rewrite (truediv_ok _ _ He). cbn [Py.bind].
  apply (price_diff_zero_iff He) in Hs. apply eqb_true_iff in Hs.
  now rewrite Hs.
Qed.

(** The leverage argument is never read. *)
Lemma size_ignores_leverage (leverage' : Z) : size leverage' = size leverage.
Proof. reflexivity. Qed.

End PositionSizing.

(** ** utils.py: position sizing on binary64 numbers *)

Section PositionSizing64.
Import PrimFloat SpecFloat FloatOps Float64.
Local Open Scope float_scope.





Lemma truediv_ok64 (x y : float) : (y =? 0) = false -> truediv x y = Ok (x / y).
Proof. intros H. unfold truediv. now rewrite H. Qed.

Lemma truediv_zero64 (x y : float) :
  (y =? 0) = true -> truediv x y = Raise ZeroDivisionError.
Proof. intros H. unfold truediv. now rewrite H. Qed.







End PositionSizing64.

(** With a non-zero entry the sizer returns. *)
Lemma size_defined (balance risk_pct entry stop_loss : Q) (leverage : Z) :
  ~ entry == 0 ->
  exists size : Q,
    Utils.calculate_position_size balance risk_pct entry stop_loss leverage
    = Ok size.
Proof.
  intros He. destruct (Qeq_dec entry stop_loss) as [Hs | Hs].
  - exists 0. now apply size_at_stop.
  - eexists. now apply size_away_from_stop.
Qed.

(** C6 (amended).  For every input with a NON-ZERO entry the position sizer
    returns a value rather than raising, and when the risk distance is zero
    (entry equals stop-loss) that value is 0.0. *)
Theorem position_size_total :
  forall (balance risk_pct entry stop_loss : Q) (leverage : Z),
    ~ entry == 0 ->
    (exists size : Q,
        Utils.calculate_position_size balance risk_pct entry stop_loss leverage
        = Ok size)
    /\ (entry == stop_loss ->
        Utils.calculate_position_size balance risk_pct entry stop_loss leverage
        = Ok 0).
Proof.
  intros b r e s lev He. split.
  - now apply size_defined.
  - now apply size_at_stop.
Qed.

Lemma position_size_total_witness :
  ~ 1 == 0
  /\ (exists size : Q, Utils.calculate_position_size 1000 0.2 1 1 10 = Ok size)
  /\ (1 == 1 -> Utils.calculate_position_size 1000 0.2 1 1 10 = Ok 0).
Proof.
  assert (H1 : ~ 1 == 0) by (intros H; discriminate H).
  exact (conj H1 (position_size_total 1000 0.2 1 1 10 H1)).
Defined.

(** C6 (counterexample).  An entry of 0.0 makes the sizer raise: it is not
    total. *)
Lemma position_size_raises_on_zero_entry :
  Utils.calculate_position_size 1000 0.2 0 1 10 = Raise ZeroDivisionError.
Proof. reflexivity. Qed.

(** C10.  The returned size is not capped by the account: with a stop close
    enough to the entry it exceeds balance times leverage. *)
Theorem position_size_uncapped :
  exists (balance risk_pct entry stop_loss : Q) (leverage : Z) (size : Q),
    0 < balance /\ 0 < risk_pct /\ 0 < entry /\ 0 < stop_loss
    /\ (0 < leverage)%Z
    /\ ~ entry == stop_loss
    /\ Utils.calculate_position_size balance risk_pct entry stop_loss leverage
       = Ok size
    /\ balance * inject_Z leverage < size.
Proof.
  exists 1000, 0.2, 1, (8191 # 8192), 10%Z.
  eexists.
  repeat (split; [reflexivity|]).
  split; [intros H; discriminate H|].
  split; [vm_compute; reflexivity | reflexivity].
Qed.

(** ** utils.py: the insufficient-data sentinel *)

(** C3.  A window with fewer than [period + 1] bars makes [calculate_atr]
    return exactly 0.0, and a window with fewer than [2 * period] bars makes
    [calculate_adx] return exactly 0.0 (in particular for the default
    [period = 14]); neither raises, whatever the other two lists are. *)
Theorem indicators_short_window :
  forall (highs lows closes : list Q) (period : Z),
    ((len highs < period + 1)%Z ->
     Utils.calculate_atr highs lows closes period = Ok (Some 0))
    /\ ((len highs < period * 2)%Z ->
        Utils.calculate_adx highs lows closes period = Ok (Some 0)).
Proof.
  intros highs lows closes period. split; intros H.
  - unfold Utils.calculate_atr.
    apply Z.ltb_lt in H. now rewrite H.
  - unfold Utils.calculate_adx.
    apply Z.ltb_lt in H. now rewrite H.
Qed.

Lemma indicators_short_window_witness :
  Utils.calculate_atr [3; 4; 5] [1; 2; 3] [2; 3; 4] 14 = Ok (Some 0)
  /\ Utils.calculate_adx [3; 4; 5] [1; 2; 3] [2; 3; 4] 14 = Ok (Some 0).
Proof.
  destruct (indicators_short_window [3; 4; 5] [1; 2; 3] [2; 3; 4] 14) as [Ha Hb].
  split; [apply Ha | apply Hb]; reflexivity.
Defined.

(** ** layers.py: the nearest layer *)

Section NearestLayer.
Import Layers.

Variable threshold_pct : Q.

Lemma below_none d : below d None = true.
Proof. reflexivity. Qed.

(** The loop invariant: after the layers of [seen], the pair
    [(nearest, min_distance)] is the best of [seen]. *)
Lemma scan_best (rest : list Layer) :
  forall seen nearest,
    best_in threshold_pct seen nearest ->
    best_in threshold_pct (seen ++ rest)
            (scan rest threshold_pct nearest (option_map distance_pct nearest)).
Proof.
  induction rest as [|x rest IH]; intros seen nearest Hinv; cbn [scan].
  - now rewrite app_nil_r.
  - replace (seen ++ x :: rest) with ((seen ++ [x]) ++ rest)
      by (rewrite <- app_assoc; reflexivity).
    destruct (below (distance_pct x) (option_map distance_pct nearest)
              && Py.leb (distance_pct x) threshold_pct)%bool eqn:Hc.
    + apply andb_true_iff in Hc as [Hb Hq]. apply leb_true_iff in Hq.
      apply (IH (seen ++ [x]) (Some x)). cbn [best_in].
      exists seen, []. split; [reflexivity|]. split; [exact Hq|].
      split; [|intros l []].
      intros l Hl Hlq. destruct nearest as [b|]; cbn in Hb, Hinv.
      * apply ltb_true_iff in Hb.
        destruct Hinv as (p1 & p2 & -> & Hbq & H1 & H2).
        apply in_app_or in Hl as [Hl | [<- | Hl]].
        -- specialize (H1 l Hl Hlq). lra.
        -- exact Hb.
        -- specialize (H2 l Hl Hlq). lra.
      * exfalso. exact (Hinv l Hl Hlq).
    + apply (IH (seen ++ [x]) nearest).
      apply andb_false_iff in Hc.
      destruct nearest as [b|]; cbn in Hc, Hinv |- *.
      * destruct Hinv as (p1 & p2 & -> & Hbq & H1 & H2).
        exists p1, (p2 ++ [x]). split; [now rewrite <- app_assoc|].
        split; [exact Hbq|]. split; [exact H1|].
        intros l Hl Hlq. apply in_app_or in Hl as [Hl | [<- | []]].
        -- exact (H2 l Hl Hlq).
        -- destruct Hc as [Hc | Hc].
           ++ now apply ltb_false_iff in Hc.
           ++ apply leb_false_iff in Hc. lra.
      * intros l Hl Hlq. apply in_app_or in Hl as [Hl | [<- | []]].
        -- exact (Hinv l Hl Hlq).
        -- destruct Hc as [Hc | Hc]; [discriminate|].
           apply leb_false_iff in Hc. lra.
Qed.

Lemma find_nearest_layer_best (current_price : Q) (rs ss : list Layer) :
  best_in threshold_pct (rs ++ ss) (find_nearest_layer current_price rs ss threshold_pct).
Proof.
  unfold find_nearest_layer.
  apply (scan_best (rs ++ ss) [] None). intros l [].
Qed.

Lemma find_nearest_layer_In (current_price : Q) (rs ss : list Layer) (l : Layer) :
  find_nearest_layer current_price rs ss threshold_pct = Some l ->
  In l (rs ++ ss).
Proof.
  intros H. pose proof (find_nearest_layer_best current_price rs ss) as Hb.
  rewrite H in Hb. destruct Hb as (pre & post & -> & _).
  apply in_or_app. right. now left.
Qed.

End NearestLayer.

(** C4.  [find_nearest_layer] returns none exactly when no layer of the scan
    order (resistance layers, then support layers) has [distance_pct] within
    the threshold, in particular when both lists are empty; otherwise it
    returns a layer of the scan within the threshold whose distance is
    strictly smaller than that of every qualifying layer scanned before it and
    at most that of every qualifying layer scanned after it: the minimum,
    equal distances resolved to the first scanned. *)
Theorem find_nearest_layer_spec :
  forall (current_price : Q) (resistance_layers support_layers : list Layers.Layer)
         (threshold_pct : Q),
    Layers.find_nearest_layer current_price [] [] threshold_pct = None
    /\ match Layers.find_nearest_layer current_price resistance_layers
                                      support_layers threshold_pct with
       | None =>
           forall l, In l (resistance_layers ++ support_layers) ->
                     ~ Layers.distance_pct l <= threshold_pct
       | Some best =>
           exists before after,
             resistance_layers ++ support_layers = before ++ best :: after
             /\ Layers.distance_pct best <= threshold_pct
             /\ (forall l, In l before ->
                           Layers.distance_pct l <= threshold_pct ->
                           Layers.distance_pct best < Layers.distance_pct l)
             /\ (forall l, In l after ->
                           Layers.distance_pct l <= threshold_pct ->
                           Layers.distance_pct best <= Layers.distance_pct l)
       end.
Proof.
  intros p rs ss t. split; [reflexivity|].
  exact (find_nearest_layer_best t p rs ss).
Qed.

(** ** layers.py: clustering *)

Section Clustering.
Import Layers.

Variable threshold_pct : Q.

Lemma near_defined (cluster : Cluster) (price : Q) :
  ~ price == 0 ->
  near cluster price threshold_pct
  = Ok (Py.ltb (rel_distance cluster price) threshold_pct).
Proof.
  intros Hp. unfold near. now rewrite (truediv_ok _ _ Hp).
Qed.

Lemma merge_defined (cluster : Cluster) (idx : nat) (price : Q) :
  touched cluster -> merge cluster idx price = Ok (merged cluster idx price).
Proof.
  intros Ht. unfold merge. rewrite truediv_ok; [reflexivity|].
  unfold touched in Ht. unfold Qeq. cbn. lia.
Qed.

(** First fit: the inner loop updates the first cluster within the
    threshold and no other, and reports when there is none. *)
Lemma absorb_first_fit (idx : nat) (price : Q) (clusters : list Cluster) :
  ~ price == 0 ->
  Forall touched clusters ->
  (exists pre c post,
      clusters = pre ++ c :: post
      /\ (forall c', In c' pre -> ~ rel_distance c' price < threshold_pct)
      /\ rel_distance c price < threshold_pct
      /\ absorb clusters idx price threshold_pct
         = Ok (Some (pre ++ merged c idx price :: post)))
  \/ ((forall c', In c' clusters -> ~ rel_distance c' price < threshold_pct)
      /\ absorb clusters idx price threshold_pct = Ok None).
Proof.
  intros Hp. induction clusters as [|c rest IH]; intros Hall.
  - right. split; [intros c' []|reflexivity].
  - inversion Hall as [|? ? Hc Hrest]; subst.
    cbn [absorb]. rewrite (near_defined c price Hp). cbn [Py.bind].
    destruct (Py.ltb (rel_distance c price) threshold_pct) eqn:Hn.
    + left. exists [], c, rest. apply ltb_true_iff in Hn.
      rewrite (merge_defined c idx price Hc). cbn.
      repeat split; try assumption. intros c' [].
    + apply ltb_false_iff in Hn.
      destruct (IH Hrest) as [(pre & c0 & post & -> & Hpre & Hc0 & Habs)
                             | [Hnone Habs]].
      * left. exists (c :: pre), c0, post. rewrite Habs. cbn.
        repeat split; try assumption.
        intros c' [<- | Hin]; [lra | now apply Hpre].
      * right. rewrite Habs. cbn. split; [|reflexivity].
        intros c' [<- | Hin]; [lra | now apply Hnone].
Qed.

Lemma touched_merged c idx price : touched c -> touched (merged c idx price).
Proof. unfold touched. cbn. lia. Qed.

Lemma cluster_step_touched (clusters clusters' : list Cluster) (level : nat * Q) :
  Forall touched clusters ->
  cluster_step threshold_pct clusters level = Ok clusters' ->
  Forall touched clusters'.
Proof.
  destruct level as [idx price]. intros Hall. unfold cluster_step.
  assert (Hfresh : Forall touched [fresh idx price])
    by (constructor; [unfold touched; cbn; lia | constructor]).
  destruct (Qeq_dec price 0) as [Hz | Hp].
  - destruct clusters as [|c rest]; cbn.
    + intros H; inversion H. exact Hfresh.
    + unfold near. rewrite (truediv_zero _ _ Hz). cbn. discriminate.
  - destruct (absorb_first_fit idx price clusters Hp Hall)
      as [(pre & c & post & -> & _ & _ & Habs) | [_ Habs]];
      rewrite Habs; cbn; intros H; inversion H; subst.
    + apply Forall_app in Hall as [Hpre Hpost].
      inversion Hpost; subst.
      apply Forall_app. split; [assumption|].
      constructor; [now apply touched_merged | assumption].
    + apply Forall_app. split; [assumption | exact Hfresh].
Qed.

Lemma cluster_loop_touched (levels : list (nat * Q)) :
  forall clusters clusters',
    Forall touched clusters ->
    cluster_loop threshold_pct levels clusters = Ok clusters' ->
    Forall touched clusters'.
Proof.
  induction levels as [|level rest IH]; intros cs cs' Hall; cbn.
  - intros H; inversion H; now subst.
  - destruct (cluster_step threshold_pct cs level) as [cs1|e] eqn:Es; cbn;
      [|discriminate].
    apply IH. exact (cluster_step_touched cs cs1 level Hall Es).
Qed.

Lemma cluster_loop_snoc (levels : list (nat * Q)) (level : nat * Q) :
  forall clusters,
    cluster_loop threshold_pct (levels ++ [level]) clusters
    = (cs <- cluster_loop threshold_pct levels clusters ;;
       cluster_step threshold_pct cs level).
Proof.
  induction levels as [|l rest IH]; intros cs; cbn.
  - destruct (cluster_step threshold_pct cs level); reflexivity.
  - destruct (cluster_step threshold_pct cs l); cbn; [apply IH | reflexivity].
Qed.

Lemma cluster_levels_loop (levels : list (nat * Q)) :
  cluster_levels levels threshold_pct = cluster_loop threshold_pct levels [].
Proof. destruct levels; reflexivity. Qed.

Lemma cluster_levels_touched (levels : list (nat * Q)) (clusters : list Cluster) :
  cluster_levels levels threshold_pct = Ok clusters -> Forall touched clusters.
Proof.
  rewrite cluster_levels_loop. apply cluster_loop_touched. constructor.
Qed.

End Clustering.

(** ** layers.py: clustering on binary64 numbers *)

Section Clustering64.
Import PrimFloat SpecFloat FloatOps Float64 Layers64.
Local Open Scope float_scope.

Variable threshold_pct : float.

Lemma near_defined64 (cluster : Cluster) (price : float) :
  (price =? 0) = false ->
  near cluster price threshold_pct
  = Ok (abs (cl_price cluster - price) / price * 100 <? threshold_pct).
Proof. intros Hp. unfold near. now rewrite (truediv_ok64 _ _ Hp). Qed.

Lemma merge_defined64 (cluster : Cluster) (idx : nat) (price : float) :
  touched64 cluster -> merge cluster idx price = Ok (merged64 cluster idx price).
Proof.
  intros Ht. unfold merge, truediv_int. unfold touched64 in Ht.
  destruct (Z.eqb_spec (cl_touches cluster + 1) 0) as [H|H]; [lia | reflexivity].
Qed.

(** First fit: the inner loop updates the first cluster that passes the
    distance test and no other, and reports when there is none. *)
Lemma absorb_first_fit64 (idx : nat) (price : float) (clusters : list Cluster) :
  (price =? 0) = false ->
  Forall touched64 clusters ->
  (exists pre c post,
      clusters = pre ++ c :: post
      /\ (forall c', In c' pre ->
            (abs (cl_price c' - price) / price * 100 <? threshold_pct) = false)
      /\ (abs (cl_price c - price) / price * 100 <? threshold_pct) = true
      /\ absorb clusters idx price threshold_pct
         = Ok (Some (pre ++ merged64 c idx price :: post)))
  \/ ((forall c', In c' clusters ->
         (abs (cl_price c' - price) / price * 100 <? threshold_pct) = false)
      /\ absorb clusters idx price threshold_pct = Ok None).
Proof.
  intros Hp. induction clusters as [|c rest IH]; intros Hall.
  - right. split; [intros c' []|reflexivity].
  - inversion Hall as [|? ? Hc Hrest]; subst.
    cbn [absorb]. rewrite (near_defined64 c price Hp). cbn [Py.bind].
    destruct (abs (cl_price c - price) / price * 100 <? threshold_pct) eqn:Hn.
    + left. exists [], c, rest.
      rewrite (merge_defined64 c idx price Hc). cbn.
      repeat split; try assumption. intros c' [].
    + destruct (IH Hrest) as [(pre & c0 & post & -> & Hpre & Hc0 & Habs)
                             | [Hnone Habs]].
      * left. exists (c :: pre), c0, post. rewrite Habs. cbn.
        repeat split; try assumption.
        intros c' [<- | Hin]; [assumption | now apply Hpre].
      * right. rewrite Habs. cbn. split; [|reflexivity].
        intros c' [<- | Hin]; [assumption | now apply Hnone].
Qed.

Lemma touched_merged64 c idx price : touched64 c -> touched64 (merged64 c idx price).
Proof. unfold touched64. cbn. lia. Qed.

Lemma cluster_step_touched64 (clusters clusters' : list Cluster)
      (level : nat * float) :
  Forall touched64 clusters ->
  cluster_step threshold_pct clusters level = Ok clusters' ->
  Forall touched64 clusters'.
Proof.
  destruct level as [idx price]. intros Hall. unfold cluster_step.
  assert (Hfresh : Forall touched64
                     [{| cl_price := price; cl_touches := 1; cl_indices := [idx] |}])
    by (constructor; [unfold touched64; cbn; lia | constructor]).
  destruct (price =? 0) eqn:Hp.
  - destruct clusters as [|c rest]; cbn.
    + intros H; inversion H. exact Hfresh.
    + unfold near. rewrite (truediv_zero64 _ _ Hp). cbn. discriminate.
  - destruct (absorb_first_fit64 idx price clusters Hp Hall)
      as [(pre & c & post & -> & _ & _ & Habs) | [_ Habs]];
      rewrite Habs; cbn; intros H; inversion H; subst.
    + apply Forall_app in Hall as [Hpre Hpost].
      inversion Hpost; subst.
      apply Forall_app. split; [assumption|].
      constructor; [now apply touched_merged64 | assumption].
    + apply Forall_app. split; [assumption | exact Hfresh].
Qed.

Lemma cluster_loop_touched64 (levels : list (nat * float)) :
  forall clusters clusters',
    Forall touched64 clusters ->
    cluster_loop threshold_pct levels clusters = Ok clusters' ->
    Forall touched64 clusters'.
Proof.
  induction levels as [|level rest IH]; intros cs cs' Hall; cbn.
  - intros H; inversion H; now subst.
  - destruct (cluster_step threshold_pct cs level) as [cs1|e] eqn:Es; cbn;
      [|discriminate].
    apply IH. exact (cluster_step_touched64 cs cs1 level Hall Es).
Qed.

Lemma cluster_loop_snoc64 (levels : list (nat * float)) (level : nat * float) :
  forall clusters,
    cluster_loop threshold_pct (levels ++ [level]) clusters
    = (cs <- cluster_loop threshold_pct levels clusters ;;
       cluster_step threshold_pct cs level).
Proof.
  induction levels as [|l rest IH]; intros cs; cbn.
  - destruct (cluster_step threshold_pct cs level); reflexivity.
  - destruct (cluster_step threshold_pct cs l); cbn; [apply IH | reflexivity].
Qed.

Lemma cluster_levels_loop64 (levels : list (nat * float)) :
  cluster_levels levels threshold_pct = cluster_loop threshold_pct levels [].
Proof. destruct levels; reflexivity. Qed.

Lemma cluster_levels_touched64 (levels : list (nat * float))
      (clusters : list Cluster) :
  cluster_levels levels threshold_pct = Ok clusters -> Forall touched64 clusters.
Proof.
  rewrite cluster_levels_loop64. apply cluster_loop_touched64. constructor.
Qed.

End Clustering64.

Section FirstFit.
Import PrimFloat Float64.
Local Open Scope float_scope.

(** C7 (amended).  On binary64 numbers, for every sequence of swing points
    processed in time order and every further point whose price is NOT ZERO,
    clustering merges the point into an existing cluster iff the binary64
    value of [|cluster price - price| / price * 100] for that cluster's
    representative price is strictly less than the threshold, taking the
    first such cluster in creation order and leaving the others untouched;
    the merged cluster has one more touch and the price the floats give for
    [(old_price * old_touches + new_price) / (old_touches + 1)]; otherwise a
    new cluster with [touches = 1] is appended. *)
Theorem cluster_levels_first_fit :
  forall (levels : list (nat * float)) (threshold_pct : float)
         (clusters : list Layers64.Cluster) (idx : nat) (price : float),
    Layers64.cluster_levels levels threshold_pct = Ok clusters ->
    (price =? 0) = false ->
    exists clusters',
      Layers64.cluster_levels (levels ++ [(idx, price)]) threshold_pct
      = Ok clusters'
      /\ ((exists pre c post,
              clusters = pre ++ c :: post
              /\ (forall c', In c' pre ->
                    (abs (Layers64.cl_price c' - price) / price * 100
                     <? threshold_pct) = false)
              /\ (abs (Layers64.cl_price c - price) / price * 100
                  <? threshold_pct) = true
              /\ clusters'
                 = pre
                   ++ {| Layers64.cl_price :=
                           (Layers64.cl_price c * of_int (Layers64.cl_touches c)
                            + price)
                           / of_int (Layers64.cl_touches c + 1);
                         Layers64.cl_touches := (Layers64.cl_touches c + 1)%Z;
                         Layers64.cl_indices := Layers64.cl_indices c ++ [idx] |}
                   :: post)
          \/ ((forall c', In c' clusters ->
                 (abs (Layers64.cl_price c' - price) / price * 100
                  <? threshold_pct) = false)
              /\ clusters'
                 = clusters
                   ++ [{| Layers64.cl_price := price;
                          Layers64.cl_touches := 1;
                          Layers64.cl_indices := [idx] |}])).
Proof.
  intros levels t cs idx price Hcs Hp.
  pose proof (cluster_levels_touched64 t levels cs Hcs) as Hall.
  rewrite cluster_levels_loop64 in *. rewrite cluster_loop_snoc64, Hcs.
  cbn [Py.bind Layers64.cluster_step].
  destruct (absorb_first_fit64 t idx price cs Hp Hall)
    as [(pre & c & post & -> & Hpre & Hc & Habs) | [Hnone Habs]];
    rewrite Habs; cbn [Py.bind]; eexists; (split; [reflexivity|]).
  - left. exists pre, c, post. repeat split; assumption.
  - right. split; [assumption | reflexivity].
Qed.

Lemma cluster_levels_first_fit_witness :
  exists clusters',
    Layers64.cluster_levels ([(2%nat, 100)] ++ [(5%nat, 100.05)]) 0.1
    = Ok clusters'
    /\ ((exists pre c post,
            [{| Layers64.cl_price := 100; Layers64.cl_touches := 1;
                Layers64.cl_indices := [2%nat] |}] = pre ++ c :: post
            /\ (forall c', In c' pre ->
                  (abs (Layers64.cl_price c' - 100.05) / 100.05 * 100 <? 0.1)
                  = false)
            /\ (abs (Layers64.cl_price c - 100.05) / 100.05 * 100 <? 0.1) = true
            /\ clusters'
               = pre
                 ++ {| Layers64.cl_price :=
                         (Layers64.cl_price c * of_int (Layers64.cl_touches c)
                          + 100.05)
                         / of_int (Layers64.cl_touches c + 1);
                       Layers64.cl_touches := (Layers64.cl_touches c + 1)%Z;
                       Layers64.cl_indices := Layers64.cl_indices c ++ [5%nat] |}
                 :: post)
        \/ ((forall c',
                In c' [{| Layers64.cl_price := 100; Layers64.cl_touches := 1;
                          Layers64.cl_indices := [2%nat] |}] ->
                (abs (Layers64.cl_price c' - 100.05) / 100.05 * 100 <? 0.1)
                = false)
            /\ clusters'
               = [{| Layers64.cl_price := 100; Layers64.cl_touches := 1;
                     Layers64.cl_indices := [2%nat] |}]
                 ++ [{| Layers64.cl_price := 100.05;
                        Layers64.cl_touches := 1;
                        Layers64.cl_indices := [5%nat] |}])).
Proof.
  apply (cluster_levels_first_fit [(2%nat, 100)] 0.1
           [{| Layers64.cl_price := 100; Layers64.cl_touches := 1;
               Layers64.cl_indices := [2%nat] |}] 5%nat 100.05).
  - reflexivity.
  - reflexivity.
Defined.

(** The test is the one the floats decide.  For a cluster at 0.01011202192
    and a point at 0.01010192 the exact distance is below 0.1 percent, the
    computed one is the float 0.1 itself, and the point opens a cluster of
    its own. *)
Example cluster_levels_at_the_threshold :
  Layers64.cluster_levels [(2%nat, 0.01011202192); (5%nat, 0.01010192)] 0.1
  = Ok [{| Layers64.cl_price := 0.01011202192; Layers64.cl_touches := 1;
           Layers64.cl_indices := [2%nat] |};
        {| Layers64.cl_price := 0.01010192; Layers64.cl_touches := 1;
           Layers64.cl_indices := [5%nat] |}]
  /\ abs (0.01011202192 - 0.01010192) / 0.01010192 * 100 = 0.1
  /\ (Qabs (to_Q 0.01011202192 - to_Q 0.01010192) / to_Q 0.01010192 * 100
      < to_Q 0.1)%Q.
Proof. repeat split; vm_compute; reflexivity. Qed.

(** C7 (counterexample).  A swing point of price 0.0 that meets an existing
    cluster is neither merged nor given a new cluster: the distance test
    divides by the price and raises, in exact arithmetic and on binary64
    numbers alike. *)
Lemma cluster_levels_zero_price :
  Layers.cluster_levels [(2%nat, 1%Q)] 0.1
  = Ok [{| Layers.cl_price := 1; Layers.cl_touches := 1;
           Layers.cl_indices := [2%nat] |}]
  /\ Layers.cluster_levels ([(2%nat, 1%Q)] ++ [(5%nat, 0%Q)]) 0.1
     = Raise ZeroDivisionError
  /\ Layers64.cluster_levels ([(2%nat, 1)] ++ [(5%nat, 0)]) 0.1
     = Raise ZeroDivisionError.
Proof. repeat split; reflexivity. Qed.

End FirstFit.

(** ** layers.py: the layers built by find_layers *)

Section LayerInvariants.
Import Layers.

Lemma strength_in_range (cluster : Cluster) (total_bars : Z)
      (volumes : option (list Q)) :
  (1 <= calculate_layer_strength cluster total_bars volumes <= 3)%Z.
Proof. unfold calculate_layer_strength. lia. Qed.

(** A single touch, no recent index and no volume confirmation: strength 1. *)
Lemma strength_of_lone_touch (cluster : Cluster) (total_bars : Z)
      (volumes : option (list Q)) :
  cl_touches cluster = 1%Z ->
  (forall idx, In idx (cl_indices cluster) -> (Z.of_nat idx < total_bars - 20)%Z) ->
  volume_factor cluster volumes = false ->
  calculate_layer_strength cluster total_bars volumes = 1%Z.
Proof.
  intros Ht Hold Hv. unfold calculate_layer_strength. rewrite Ht, Hv.
  replace (existsb _ (cl_indices cluster)) with false; [reflexivity|].
  symmetry. apply not_true_is_false. intros H.
  apply existsb_exists in H as (idx & Hin & Hle).
  apply Z.leb_le in Hle. specialize (Hold idx Hin). lia.
Qed.

Lemma quotient_nonneg (a b : Q) : 0 <= a -> 0 < b -> 0 <= a / b * 100.
Proof.
  intros Ha Hb. apply Qmult_le_0_compat; [|discriminate].
  apply Qle_shift_div_l; [assumption|]. lra.
Qed.

Lemma resistance_of_built (clusters : list Cluster) (current_price : Q)
      (total_bars : Z) (volumes : option (list Q)) :
  forall layers,
    resistance_of clusters current_price total_bars volumes = Ok layers ->
    Forall (fun l => layer_type l = Resistance /\ well_built current_price l)
           layers.
Proof.
  induction clusters as [|c rest IH]; cbn [resistance_of]; intros layers H.
  - inversion H. constructor.
  - destruct (Py.ltb current_price (cl_price c)) eqn:Hlt; [|now apply IH].
    destruct (truediv (cl_price c - current_price) current_price)
      as [d|e] eqn:Hd; cbn in H; [|discriminate].
    destruct (resistance_of rest current_price total_bars volumes)
      as [tail|e]; cbn in H; [|discriminate].
    inversion H; subst. apply truediv_inv in Hd as [Hnz ->].
    apply ltb_true_iff in Hlt.
    constructor; [|now apply IH].
    split; [reflexivity|]. unfold well_built; cbn.
    split; [apply strength_in_range|]. split; [assumption|]. now split.
Qed.

Lemma support_of_built (clusters : list Cluster) (current_price : Q)
      (total_bars : Z) (volumes : option (list Q)) :
  forall layers,
    support_of clusters current_price total_bars volumes = Ok layers ->
    Forall (fun l => layer_type l = Support /\ well_built current_price l)
           layers.
Proof.
  induction clusters as [|c rest IH]; cbn [support_of]; intros layers H.
  - inversion H. constructor.
  - destruct (Py.ltb (cl_price c) current_price) eqn:Hlt; [|now apply IH].
    destruct (truediv (current_price - cl_price c) current_price)
      as [d|e] eqn:Hd; cbn in H; [|discriminate].
    destruct (support_of rest current_price total_bars volumes)
      as [tail|e]; cbn in H; [|discriminate].
    inversion H; subst. apply truediv_inv in Hd as [Hnz ->].
    apply ltb_true_iff in Hlt.
    constructor; [|now apply IH].
    split; [reflexivity|]. unfold well_built; cbn.
    split; [apply strength_in_range|]. split; [assumption|]. now split.
Qed.

Lemma In_insert_layer (x l : Layer) (sorted : list Layer) :
  In l (insert_layer x sorted) -> l = x \/ In l sorted.
Proof.
  induction sorted as [|y rest IH]; cbn.
  - intros [<- | []]. now left.
  - destruct (key_le x y); cbn.
    + intros [<- | H]; [now left | now right].
    + intros [<- | H]; [right; now left|].
      destruct (IH H) as [-> | Hin]; [now left | right; now right].
Qed.

Lemma In_sort_layers (l : Layer) (layers : list Layer) :
  In l (sort_layers layers) -> In l layers.
Proof.
  induction layers as [|x rest IH]; cbn; [trivial|].
  intros H. apply In_insert_layer in H as [-> | H]; [now left|].
  right. now apply IH.
Qed.

Lemma In_firstn_inv {A : Type} (n : nat) (x : A) (xs : list A) :
  In x (firstn n xs) -> In x xs.
Proof.
  intros H. rewrite <- (firstn_skipn n xs). apply in_or_app. now left.
Qed.

Lemma In_slice_to {A : Type} (k : Z) (x : A) (xs : list A) :
  In x (slice_to xs k) -> In x xs.
Proof.
  unfold slice_to. destruct (k <? 0)%Z; apply In_firstn_inv.
Qed.

(** The layers returned by [find_layers], split by side. *)
Lemma find_layers_built (highs lows closes : list Q)
      (volumes : option (list Q)) (cluster_threshold : Q) (max_layers : Z)
      (rs ss : list Layer) (current_price : Q) :
  find_layers highs lows closes volumes cluster_threshold max_layers
  = Ok (rs, ss) ->
  last_item closes = Ok current_price ->
  (forall l, In l rs -> layer_type l = Resistance /\ well_built current_price l)
  /\ (forall l, In l ss -> layer_type l = Support /\ well_built current_price l).
Proof.
  unfold find_layers. intros H Hlast.
  destruct (len highs <? 10)%Z.
  { inversion H; subst. split; intros l []. }
  rewrite Hlast in H. cbn [Py.bind] in H.
  destruct (cluster_levels (detect_swing_highs highs 2) cluster_threshold)
    as [rc|e]; cbn [Py.bind] in H; [|discriminate].
  destruct (cluster_levels (detect_swing_lows lows 2) cluster_threshold)
    as [sc|e]; cbn [Py.bind] in H; [|discriminate].
  destruct (resistance_of rc current_price (len closes) volumes)
    as [rl|e] eqn:Hr; cbn [Py.bind] in H; [|discriminate].
  destruct (support_of sc current_price (len closes) volumes)
    as [sl|e] eqn:Hs; cbn [Py.bind] in H; [|discriminate].
  inversion H; subst.
  apply resistance_of_built in Hr. apply support_of_built in Hs.
  rewrite Forall_forall in Hr, Hs.
  split; intros l Hl; apply In_slice_to, In_sort_layers in Hl; auto.
Qed.

End LayerInvariants.

(** C8 (amended).  Every layer returned by [find_layers] has a strength in
    [1,3]; a resistance layer's price is strictly above and a support layer's
    price strictly below the current price (the last close); and its
    [distance_pct] is non-negative WHENEVER THE CURRENT PRICE IS POSITIVE.
    A cluster with one touch, no index in the last 20 bars and no volume
    confirmation scores exactly 1. *)
Theorem find_layers_invariants :
  forall (highs lows closes : list Q) (volumes : option (list Q))
         (cluster_threshold : Q) (max_layers : Z)
         (resistance_layers support_layers : list Layers.Layer)
         (current_price : Q),
    Layers.find_layers highs lows closes volumes cluster_threshold max_layers
    = Ok (resistance_layers, support_layers) ->
    last_item closes = Ok current_price ->
    (forall l, In l resistance_layers ->
               Layers.layer_type l = Layers.Resistance
               /\ (1 <= Layers.strength l <= 3)%Z
               /\ current_price < Layers.price l
               /\ (0 < current_price -> 0 <= Layers.distance_pct l))
    /\ (forall l, In l support_layers ->
                  Layers.layer_type l = Layers.Support
                  /\ (1 <= Layers.strength l <= 3)%Z
                  /\ Layers.price l < current_price
                  /\ (0 < current_price -> 0 <= Layers.distance_pct l))
    /\ (forall (cluster : Layers.Cluster) (total_bars : Z) (vols : option (list Q)),
           Layers.cl_touches cluster = 1%Z ->
           (forall idx, In idx (Layers.cl_indices cluster) ->
                        (Z.of_nat idx < total_bars - 20)%Z) ->
           Layers.volume_factor cluster vols = false ->
           Layers.calculate_layer_strength cluster total_bars vols = 1%Z).
Proof.
  intros highs lows closes volumes t m rs ss cp H Hlast.
  destruct (find_layers_built _ _ _ _ _ _ _ _ _ H Hlast) as [Hr Hs].
  split; [|split].
  - intros l Hl. destruct (Hr l Hl) as (Hside & Hstr & _ & Hrest).
    rewrite Hside in Hrest. destruct Hrest as [Hlt Hd].
    repeat split; try assumption; try apply Hstr.
    intros Hpos. rewrite Hd. apply quotient_nonneg; lra.
  - intros l Hl. destruct (Hs l Hl) as (Hside & Hstr & _ & Hrest).
    rewrite Hside in Hrest. destruct Hrest as [Hlt Hd].
    repeat split; try assumption; try apply Hstr.
    intros Hpos. rewrite Hd. apply quotient_nonneg; lra.
  - apply strength_of_lone_touch.
Qed.

Lemma find_layers_invariants_witness :
  exists resistance_layers support_layers current_price,
    Layers.find_layers (map Main.high Scenario.window)
                       (map Main.low Scenario.window)
                       (map Main.close Scenario.window)
                       (Some (map Main.volume Scenario.window)) 0.1 4
    = Ok (resistance_layers, support_layers)
    /\ last_item (map Main.close Scenario.window) = Ok current_price
    /\ current_price == 100.95
    /\ length resistance_layers = 1%nat
    /\ length support_layers = 2%nat
    /\ (forall l, In l resistance_layers ->
                  Layers.layer_type l = Layers.Resistance
                  /\ (1 <= Layers.strength l <= 3)%Z
                  /\ current_price < Layers.price l
                  /\ (0 < current_price -> 0 <= Layers.distance_pct l))
    /\ (forall l, In l support_layers ->
                  Layers.layer_type l = Layers.Support
                  /\ (1 <= Layers.strength l <= 3)%Z
                  /\ Layers.price l < current_price
                  /\ (0 < current_price -> 0 <= Layers.distance_pct l)).
Proof.
  do 3 eexists.
  assert (Hrun : forall r,
             r = Layers.find_layers (map Main.high Scenario.window)
                                    (map Main.low Scenario.window)
                                    (map Main.close Scenario.window)
                                    (Some (map Main.volume Scenario.window)) 0.1 4 ->
             Layers.find_layers (map Main.high Scenario.window)
                                (map Main.low Scenario.window)
                                (map Main.close Scenario.window)
                                (Some (map Main.volume Scenario.window)) 0.1 4
             = r) by (intros r ->; reflexivity).
  specialize (Hrun _ ltac:(vm_compute; reflexivity)).
  assert (Hlast : forall r,
             r = last_item (map Main.close Scenario.window) ->
             last_item (map Main.close Scenario.window) = r)
    by (intros r ->; reflexivity).
  specialize (Hlast _ ltac:(vm_compute; reflexivity)).
  destruct (find_layers_invariants _ _ _ _ _ _ _ _ _ Hrun Hlast) as (Hr & Hs & _).
  refine (conj Hrun (conj Hlast (conj _ (conj _ (conj _ (conj Hr Hs))))));
    reflexivity.
Defined.

(** C8 (counterexample).  On a window of negative prices [find_layers] builds
    a resistance layer whose [distance_pct] is negative. *)
Lemma find_layers_negative_distance :
  exists resistance_layers support_layers l,
    Layers.find_layers Scenario.negative_highs Scenario.negative_lows
                       Scenario.negative_closes None 0.1 4
    = Ok (resistance_layers, support_layers)
    /\ In l resistance_layers
    /\ Layers.distance_pct l < 0.
Proof.
  do 3 eexists. split; [vm_compute; reflexivity|].
  split; [left; reflexivity | reflexivity].
Qed.

(** ** grok.py: the default bracket *)

(** What the code does by its test [result['tp'] == 0]: a zero take-profit on
    an actionable direction gets the bracket [entry +- ATR]. *)
Lemma default_bracket_on_zero_tp (result : Grok.technical) (price atr : Q) :
  Grok.tp result == 0 ->
  Grok.direction result <> Grok.SKIP ->
  let r := Grok.default_bracket result price atr in
  Grok.direction r = Grok.direction result
  /\ match Grok.direction result with
     | Grok.LONG => Grok.tp r = price + atr /\ Grok.sl r = price - atr
     | _ => Grok.tp r = price - atr /\ Grok.sl r = price + atr
     end.
Proof.
  intros Htp Hdir. unfold Grok.default_bracket.
  apply eqb_true_iff in Htp. rewrite Htp.
  destruct (Grok.direction result) eqn:E; cbn; rewrite ?E; tauto.
Qed.

(** A non-zero take-profit switches the default bracket off, whatever the
    stop-loss is. *)
Lemma default_bracket_skipped (result : Grok.technical) (price atr : Q) :
  ~ Grok.tp result == 0 -> Grok.default_bracket result price atr = result.
Proof.
  intros Htp. unfold Grok.default_bracket.
  apply eqb_false_iff in Htp. now rewrite Htp.
Qed.

(** The confidence-gate scenario of the specification: a LONG reply with
    [tp = 0] and [sl = 0] at entry 1.0 and ATR 0.0002. *)
Example bracket_of_scenario :
  let r := Grok._parse_technical_response Scenario.bracketless_reply 1 0.0002 in
  Grok.direction r = Grok.LONG /\ Grok.confidence r = 85%Z
  /\ Grok.tp r == 1.0002 /\ Grok.sl r == 0.9998.
Proof. vm_compute. repeat split. Qed.

(** C1 (the code at the failing input).  The reply
    [DIRECTION: LONG / CONFIDENCE: 85 / TP: 1.5 / SL: 0] parsed at entry 1.0
    and ATR 0.0002 comes back LONG with the stop-loss still zero: the default
    bracket is applied only when the take-profit is zero. *)
Theorem zero_stop_loss_survives :
  let r := Grok._parse_technical_response Scenario.stopless_reply 1 0.0002 in
  Grok.direction r = Grok.LONG
  /\ Grok.tp r == 1.5
  /\ Grok.sl r == 0
  /\ ~ Grok.sl r == 1 - 0.0002.
Proof. vm_compute. repeat split; discriminate. Qed.

(** A reply whose take-profit is not a number makes [float] raise after the
    direction was stored: the handler returns LONG with both fields zero. *)
Example malformed_take_profit :
  let r := Grok._parse_technical_response
             ("DIRECTION: LONG" ++ Scenario.nl ++ "TP: 1.2.3")%string 1 0.0002 in
  Grok.direction r = Grok.LONG /\ Grok.tp r == 0 /\ Grok.sl r == 0.
Proof. vm_compute. repeat split. Qed.

Import Main Trace Scenario.

(** ** main.py: what the stages of a candle update may emit *)

Section Confinement.

Variable p : event -> bool.

Lemma confined_ret {A : Type} (a : A) : confined p (ret a).
Proof.
  intros w. exists []. cbn. now rewrite app_nil_r.
Qed.

Lemma confined_lift {A : Type} (c : result A) : confined p (lift c).
Proof.
  intros w. exists []. cbn. now rewrite app_nil_r.
Qed.

Lemma confined_get : confined p get.
Proof.
  intros w. exists []. cbn. now rewrite app_nil_r.
Qed.

Lemma confined_emit (e : event) : p e = true -> confined p (emit e).
Proof.
  intros He w. exists [e]. cbn. now rewrite He.
Qed.

Lemma confined_modify (f : PepeScalpingBot -> PepeScalpingBot) :
  (forall self, last_reset_day (f self) = last_reset_day self) ->
  confined p (modify f).
Proof.
  intros Hf w. exists []. cbn. now rewrite app_nil_r.
Qed.

Lemma confined_bind {A B : Type} (m : M A) (k : A -> M B) :
  confined p m -> (forall a, confined p (k a)) -> confined p (bindM m k).
Proof.
  intros Hm Hk w. unfold bindM.
  destruct (Hm w) as (evs1 & Ht1 & Hp1 & Hd1).
  destruct (m w) as [[a|e] w1]; cbn in Ht1, Hd1.
  - destruct (Hk a w1) as (evs2 & Ht2 & Hp2 & Hd2).
    exists (evs1 ++ evs2). rewrite Ht2, Ht1, <- app_assoc, forallb_app, Hp1, Hp2.
    repeat split. congruence.
  - exists evs1. cbn. now repeat split.
Qed.

End Confinement.

Lemma confined_weaken {A : Type} (p q : event -> bool) (m : M A) :
  (forall e, p e = true -> q e = true) -> confined p m -> confined q m.
Proof.
  intros Hpq Hm w. destruct (Hm w) as (evs & Ht & Hp & Hd).
  exists evs. repeat split; try assumption.
  rewrite forallb_forall in *. auto.
Qed.

(** Decomposition of a computation into confined pieces. *)
Ltac confine :=
  repeat first
    [ apply confined_ret
    | apply confined_lift
    | apply confined_get
    | apply confined_emit; reflexivity
    | apply confined_modify; intros; reflexivity
    | apply confined_bind; [|intros ?]
    | match goal with
      | |- confined _ (if ?b then _ else _) => destruct b
      end ].

Lemma decide_calm (c : cycle) (current_price : Q) (result : Grok.technical) :
  confined calm (decide c current_price result).
Proof.
  unfold decide, log_trade_signal, log_api_call, send_high_confidence_alert,
    send_borderline_alert.
  cbv zeta. confine.
Qed.

Lemma analyse_no_reset (c : cycle) (current_price : Q) (near_layer : Layers.Layer)
      (atr adx : Pandas.cell) (market_status : status) (volume_ratio : Q) :
  confined no_reset
           (analyse c current_price near_layer atr adx market_status volume_ratio).
Proof.
  unfold analyse, log_api_call. cbv zeta. confine.
  apply (confined_weaken calm); [|apply decide_calm].
  intros e. unfold calm, no_reset. destruct (is_reset e); [discriminate|reflexivity].
Qed.

(** ** main.py: the indicator and layer stage *)

(** A candle update finds a near layer only at a non-zero price: the layers
    were built by dividing by it. *)
Lemma survey_price_nonzero (cs : list Candle) (current_price : Q)
      (atr adx : Pandas.cell) (market_status : status) (volume_ratio : Q)
      (near_layer : Layers.Layer) :
  survey cs
  = Ok (current_price, atr, adx, market_status, volume_ratio, Some near_layer) ->
  ~ current_price == 0.
Proof.
  unfold survey, get_ohlcv_lists. intros H.
  destruct (last_item (map close cs)) as [cp|e] eqn:Hlast; cbn [Py.bind] in H;
    [|discriminate].
  destruct (Utils.calculate_atr _ _ _ _) as [a|e]; cbn [Py.bind] in H;
    [|discriminate].
  destruct (Utils.calculate_adx _ _ _ _) as [d|e]; cbn [Py.bind] in H;
    [|discriminate].
  destruct (volume_ratio_of _) as [vr|e]; cbn [Py.bind] in H; [|discriminate].
  destruct (Layers.find_layers _ _ _ _ _ _) as [[rs ss]|e] eqn:Hl;
    cbn [Py.bind] in H; [|discriminate].
  inversion H; subst. clear H.
  match goal with
  | Hn : Layers.find_nearest_layer _ _ _ _ = Some _ |- _ =>
      apply find_nearest_layer_In in Hn as Hin
  end.
  destruct (find_layers_built _ _ _ _ _ _ _ _ _ Hl Hlast) as [Hr Hs].
  apply in_app_or in Hin as [Hin | Hin].
  - apply (Hr _ Hin).
  - apply (Hs _ Hin).
Qed.

(** ** main.py: the rate-limit gate, run on a state *)

Lemma can_call_api_run (now : Clock.datetime) (time_now : Q) (w : world) :
  exists allowed,
    can_call_api now time_now w
    = (Ok allowed,
       {| bot := after_day_test now (bot w);
          trace := trace w ++ reset_events now (bot w) |}).
Proof.
  unfold can_call_api, after_day_test, reset_events, bindM, get, modify, emit, ret.
  destruct w as [self tr]. cbn.
  destruct (Clock.day now =? last_reset_day self)%Z; cbn.
  - rewrite app_nil_r.
    destruct (MAX_CALLS_PER_DAY <=? daily_calls self)%Z; eexists; reflexivity.
  - destruct (MAX_CALLS_PER_DAY <=? 0)%Z; eexists; reflexivity.
Qed.

(** ** main.py: the decision stage on a borderline reply *)

Lemma alert_percentages_defined (entry tp sl : Q) :
  ~ entry == 0 -> exists r, alert_percentages entry tp sl = Ok r.
Proof.
  intros He. unfold alert_percentages.
  rewrite !(truediv_ok _ _ He). cbn. eexists. reflexivity.
Qed.

(** One step of symbolic execution of the bot's monad. *)
Ltac step_decide :=
  cbv beta iota zeta
      delta [bindM lift emit get modify log_api_call log_trade_signal
             send_borderline_alert ret bot trace fst snd daily_x_searches
             daily_calls set_daily_x_searches].

Lemma decide_borderline (c : cycle) (current_price : Q) (result : Grok.technical)
      (w : world) :
  ~ current_price == 0 ->
  (MIN_CONFIDENCE <= Grok.confidence result < HIGH_CONFIDENCE)%Z ->
  (daily_x_searches (bot w) < MAX_X_SEARCHES_PER_DAY)%Z ->
  let request := sentiment_request_of current_price result in
  exists size usage self',
    decide c current_price result w
    = (Ok tt,
       {| bot := self';
          trace :=
            trace w
            ++ [PositionSizeComputed current_price (Grok.sl result) size;
                ApiUsageLogged "x_search" 0.005 (fst usage) (snd usage);
                SentimentOracleCalled request]
            ++ (if take_trade (sentiment_oracle c request)
                then [TradeSignalLogged (Grok.direction result) current_price
                                        (Grok.tp result) (Grok.sl result)
                                        (Grok.confidence result);
                      BorderlineAlert (Grok.direction result) current_price
                                      (Grok.tp result) (Grok.sl result) size
                                      (Grok.confidence result)
                                      (sentiment_oracle c request)]
                else []) |}).
Proof.
  intros Hp [Hmin Hhigh] Hx request.
  destruct w as [[lac dc dx lrd uc] tr].
  cbv beta iota delta [bot trace daily_x_searches daily_calls] in *.
  destruct (size_defined ACCOUNT_BALANCE MAX_RISK_PERCENT current_price
                         (Grok.sl result) LEVERAGE Hp) as [size Hsize].
  destruct (alert_percentages_defined current_price (Grok.tp result)
                                      (Grok.sl result) Hp) as [pc Hpc].
  exists size, (dc, (dx + 1)%Z).
  unfold decide.
  apply Z.ltb_ge in Hmin. rewrite Hmin.
  assert (Hh : (HIGH_CONFIDENCE <=? Grok.confidence result)%Z = false)
    by (apply Z.leb_gt; exact Hhigh).
  assert (Hb : (MAX_X_SEARCHES_PER_DAY <=? dx)%Z = false)
    by (apply Z.leb_gt; exact Hx).
  change (sentiment_request_of current_price result) with request.
  unfold bindM at 1, lift at 1. rewrite Hsize. step_decide.
  rewrite Hh. step_decide. rewrite Hb. step_decide.
  change {| sq_direction := Grok.direction result;
            sq_confidence := Grok.confidence result;
            sq_price := current_price;
            sq_tp := Grok.tp result;
            sq_sl := Grok.sl result |} with request.
  destruct (take_trade (sentiment_oracle c request)); step_decide.
  - rewrite Hpc. step_decide. rewrite <- ?app_assoc. step_decide.
    rewrite <- ?app_assoc. eexists. reflexivity.
  - rewrite <- ?app_assoc. eexists. reflexivity.
Qed.

(** ** main.py: a candle update up to the technical oracle *)

(** A candle update either never asks the technical oracle, or it asks it
    exactly once, at a non-zero price, and hands the reply to the decision
    stage; by then only the gate and the usage log have left events. *)
Lemma on_candle_to_oracle (c : cycle) (self : PepeScalpingBot) :
  (forall request, ~ In (TechnicalOracleCalled request) (events_of c self))
  \/ (exists current_price request self1 usage,
         ~ current_price == 0
         /\ daily_x_searches self1
            = daily_x_searches (after_day_test (utcnow c) self)
         /\ on_candle c {| bot := self; trace := [] |}
            = decide c current_price (technical_oracle c request)
                     {| bot := self1;
                        trace := reset_events (utcnow c) self
                                 ++ [ApiUsageLogged "technical" 0.00028
                                                    (fst usage) (snd usage);
                                     TechnicalOracleCalled request] |}).
Proof.
  unfold events_of, on_candle. destruct self as [lac dc dx lrd uc].
  destruct (len (candles c) <? 20)%Z.
  { left. intros request []. }
  cbv beta iota delta [bindM modify lift ret bot trace set_update_count
                       _update_count last_api_call daily_calls
                       daily_x_searches last_reset_day].
  destruct (survey (candles c)) as [found|e] eqn:Hsurvey.
  2:{ left. intros request []. }
  destruct found as [[[[[current_price atr] adx] market_status] volume_ratio] near].
  destruct near as [near_layer|].
  2:{ left. intros request []. }
  apply survey_price_nonzero in Hsurvey.
  match goal with
  | |- context [can_call_api ?now ?t ?w] =>
      destruct (can_call_api_run now t w) as [allowed Hgate]; rewrite Hgate
  end.
  unfold after_day_test, reset_events.
  cbv beta iota delta [bot trace last_reset_day app].
  destruct allowed; cbv beta iota delta [negb].
  2:{ left. intros request.
      destruct (Clock.day (utcnow c) =? lrd)%Z; cbn; intuition discriminate. }
  unfold analyse.
  cbv beta iota zeta delta [bindM modify lift emit get log_api_call bot trace].
  destruct (get_candles_summary (candles c)) as [summary|e].
  2:{ left. intros request.
      destruct (Clock.day (utcnow c) =? lrd)%Z; cbn; intuition discriminate. }
  clear Hgate. rewrite <- app_assoc. cbn [app].
  right. exists current_price. eexists. eexists. eexists (_, _).
  split; [exact Hsurvey|]. split; [|cbn [fst snd]; reflexivity].
  destruct (Clock.day (utcnow c) =? lrd)%Z; reflexivity.
Qed.

(** C2 (amended).  In every candle update whose technical-oracle reply has a
    confidence in the borderline band [60,80) and whose x-search budget is not
    exhausted, the sentiment oracle is invoked exactly once; if its reply has
    [take_trade = false], no alert is emitted.  The budget is the one the
    code tests: the search counter as the day test of the gate leaves it, so
    a counter left at its limit on an earlier day is free again.  The
    position size is computed all the same: once, before the sentiment oracle
    is asked. *)
Theorem borderline_cycle :
  forall (c : cycle) (self : PepeScalpingBot) (request : technical_request),
    In (TechnicalOracleCalled request) (events_of c self) ->
    (MIN_CONFIDENCE <= Grok.confidence (technical_oracle c request)
     < HIGH_CONFIDENCE)%Z ->
    (daily_x_searches (after_day_test (utcnow c) self)
     < MAX_X_SEARCHES_PER_DAY)%Z ->
    exists (asked : sentiment_request) (before after : list event),
      events_of c self = before ++ SentimentOracleCalled asked :: after
      /\ filter is_sentiment_call (events_of c self) = [SentimentOracleCalled asked]
      /\ (take_trade (sentiment_oracle c asked) = false ->
          filter is_alert (events_of c self) = [])
      /\ count is_position_size before = 1%nat
      /\ count is_position_size after = 0%nat.
Proof.
  intros c self request Hin Hconf Hx.
  destruct (on_candle_to_oracle c self)
    as [Hno | (cp & req & self1 & usage & Hp & Hx1 & Hrun)].
  { exfalso. exact (Hno request Hin). }
  unfold events_of in *. rewrite Hrun in *. clear Hrun.
  set (w := {| bot := self1;
               trace := reset_events (utcnow c) self
                        ++ [ApiUsageLogged "technical" 0.00028 (fst usage) (snd usage);
                            TechnicalOracleCalled req] |}) in *.
  assert (Hreq : request = req).
  { destruct (decide_calm c cp (technical_oracle c req) w)
      as (evs & Ht & Hcalm & _).
    rewrite Ht in Hin. unfold w in Hin. cbn [trace] in Hin.
    apply in_app_or in Hin as [Hin | Hin].
    - apply in_app_or in Hin as [Hin | [Hin | [Hin | []]]].
      + unfold reset_events in Hin.
        destruct (Clock.day (utcnow c) =? last_reset_day self)%Z;
          cbn in Hin; intuition discriminate.
      + discriminate.
      + now inversion Hin.
    - rewrite forallb_forall in Hcalm. specialize (Hcalm _ Hin). discriminate. }
  subst request.
  assert (Hbudget : (daily_x_searches (bot w) < MAX_X_SEARCHES_PER_DAY)%Z).
  { unfold w. cbn [bot]. rewrite Hx1. exact Hx. }
  destruct (decide_borderline c cp (technical_oracle c req) w Hp Hconf Hbudget)
    as (size & usage' & self' & Hdec).
  rewrite Hdec. cbn [snd trace]. unfold w. cbn [trace].
  exists (sentiment_request_of cp (technical_oracle c req)).
  exists (reset_events (utcnow c) self
          ++ [ApiUsageLogged "technical" 0.00028 (fst usage) (snd usage);
              TechnicalOracleCalled req;
              PositionSizeComputed cp (Grok.sl (technical_oracle c req)) size;
              ApiUsageLogged "x_search" 0.005 (fst usage') (snd usage')]).
  eexists.
  split; [rewrite <- !app_assoc; cbn [app]; reflexivity|].
  unfold reset_events, count.
  destruct (Clock.day (utcnow c) =? last_reset_day self)%Z;
    destruct (take_trade (sentiment_oracle c _)); cbn;
    repeat split; try reflexivity; intros; discriminate.
Qed.

Lemma borderline_cycle_witness :
  exists (request : technical_request) (asked : sentiment_request)
         (before after : list event),
    In (TechnicalOracleCalled request)
       (events_of (update jan7 1000) (Cycles.searched_out jan6))
    /\ Grok.confidence (technical_oracle (update jan7 1000) request) = 65%Z
    /\ daily_x_searches (Cycles.searched_out jan6) = MAX_X_SEARCHES_PER_DAY
    /\ daily_x_searches
         (after_day_test (utcnow (update jan7 1000)) (Cycles.searched_out jan6))
       = 0%Z
    /\ events_of (update jan7 1000) (Cycles.searched_out jan6)
       = before ++ SentimentOracleCalled asked :: after
    /\ filter is_sentiment_call
              (events_of (update jan7 1000) (Cycles.searched_out jan6))
       = [SentimentOracleCalled asked]
    /\ (take_trade (sentiment_oracle (update jan7 1000) asked) = false ->
        filter is_alert
               (events_of (update jan7 1000) (Cycles.searched_out jan6)) = [])
    /\ count is_position_size before = 1%nat
    /\ count is_position_size after = 0%nat.
Proof.
  assert (Hcall : exists request,
             In (TechnicalOracleCalled request)
                (events_of (update jan7 1000) (Cycles.searched_out jan6))
             /\ Grok.confidence (technical_oracle (update jan7 1000) request)
                = 65%Z).
  { eexists. split.
    - vm_compute. right. right. left. reflexivity.
    - vm_compute. reflexivity. }
  destruct Hcall as (request & Hin & Hconf).
  assert (Hband : (MIN_CONFIDENCE
                   <= Grok.confidence (technical_oracle (update jan7 1000) request)
                   < HIGH_CONFIDENCE)%Z)
    by (rewrite Hconf; split; [discriminate | reflexivity]).
  assert (Hbudget : (daily_x_searches
                       (after_day_test (utcnow (update jan7 1000))
                                       (Cycles.searched_out jan6))
                     < MAX_X_SEARCHES_PER_DAY)%Z)
    by reflexivity.
  destruct (borderline_cycle (update jan7 1000) (Cycles.searched_out jan6)
                             request Hin Hband Hbudget)
    as (asked & before & after & H).
  exists request, asked, before, after.
  exact (conj Hin (conj Hconf (conj eq_refl (conj eq_refl H)))).
Defined.

(** C2 (counterexample).  A candle update with a reply of confidence 65, a
    free x-search budget and a sentiment reply [take_trade = false]: the
    sentiment oracle is asked once and no alert goes out, yet the position
    size has been computed. *)
Lemma rejected_borderline_still_sized :
  (exists request,
      In (TechnicalOracleCalled request) (events_of (update jan7 1000) (init jan5))
      /\ Grok.confidence (technical_oracle (update jan7 1000) request) = 65%Z)
  /\ (daily_x_searches (init jan5) < MAX_X_SEARCHES_PER_DAY)%Z
  /\ take_trade rejection = false
  /\ count is_sentiment_call (events_of (update jan7 1000) (init jan5)) = 1%nat
  /\ count is_alert (events_of (update jan7 1000) (init jan5)) = 0%nat
  /\ count is_position_size (events_of (update jan7 1000) (init jan5)) = 1%nat.
Proof.
  split.
  { eexists. split.
    - vm_compute. right. right. left. reflexivity.
    - vm_compute. reflexivity. }
  repeat split; vm_compute; reflexivity.
Qed.

(** ** main.py: the daily reset along a stream of candle updates *)

Lemma days_in_month_bounds (y m : Z) : (28 <= Clock.days_in_month y m <= 31)%Z.
Proof.
  unfold Clock.days_in_month.
  destruct (m =? 2)%Z; [destruct (Clock.is_leap y); lia|].
  destruct ((m =? 4) || (m =? 6) || (m =? 9) || (m =? 11))%Z%bool; lia.
Qed.

(** The day of the month changes from a date to the next. *)
Lemma tomorrow_day (d : Clock.datetime) :
  Clock.valid d -> Clock.day (Clock.tomorrow d) <> Clock.day d.
Proof.
  intros [_ Hd]. unfold Clock.tomorrow.
  pose proof (days_in_month_bounds (Clock.year d) (Clock.month d)) as Hb.
  destruct (Clock.day d <? Clock.days_in_month (Clock.year d) (Clock.month d))%Z
    eqn:Hlt.
  - cbn. lia.
  - apply Z.ltb_ge in Hlt.
    destruct (Clock.month d <? 12)%Z; cbn; lia.
Qed.

Lemma after_day_test_day (now : Clock.datetime) (self : PepeScalpingBot) :
  last_reset_day (after_day_test now self) = Clock.day now.
Proof.
  unfold after_day_test.
  destruct (Clock.day now =? last_reset_day self)%Z eqn:E; [|reflexivity].
  apply Z.eqb_eq in E. now symmetry.
Qed.

Lemma filter_none {A : Type} (p : A -> bool) (xs : list A) :
  forallb (fun x => negb (p x)) xs = true -> filter p xs = [].
Proof.
  induction xs as [|x xs IH]; cbn; [reflexivity|].
  intros H. apply andb_true_iff in H as [Hx Hxs].
  apply negb_true_iff in Hx. rewrite Hx. now apply IH.
Qed.

(** The resets of one candle update: those of the gate, when it is reached. *)
Lemma on_candle_resets (c : cycle) (w : world) :
  exists evs,
    trace (snd (on_candle c w)) = trace w ++ evs
    /\ filter is_reset evs
       = (if reaches_gate c then reset_events (utcnow c) (bot w) else [])
    /\ last_reset_day (bot (snd (on_candle c w)))
       = (if reaches_gate c then Clock.day (utcnow c)
          else last_reset_day (bot w)).
Proof.
  unfold on_candle, reaches_gate. destruct w as [[lac dc dx lrd uc] tr].
  destruct (len (candles c) <? 20)%Z.
  { exists []. cbn. now rewrite app_nil_r. }
  cbv beta iota delta [bindM modify lift ret negb andb].
  cbn [bot trace set_update_count _update_count last_api_call daily_calls
       daily_x_searches last_reset_day].
  destruct (survey (candles c)) as [found|e].
  2:{ exists []. cbn. now rewrite app_nil_r. }
  destruct found as [[[[[current_price atr] adx] market_status] volume_ratio] near].
  destruct near as [near_layer|].
  2:{ exists []. cbn. now rewrite app_nil_r. }
  match goal with
  | |- context [can_call_api ?now ?t ?w] =>
      destruct (can_call_api_run now t w) as [allowed Hgate]; rewrite Hgate
  end.
  clear Hgate. cbn [bot trace].
  destruct allowed; cbv beta iota delta [negb].
  - match goal with
    | |- context [analyse ?c ?p ?l ?a ?d ?m ?v ?w] =>
        destruct (analyse_no_reset c p l a d m v w) as (evs & Ht & Hp & Hd)
    end.
    cbn [bot trace] in Ht, Hd.
    eexists. rewrite Ht, <- app_assoc. split; [reflexivity|].
    rewrite Hd, after_day_test_day. split; [|reflexivity].
    rewrite filter_app, (filter_none is_reset evs Hp), app_nil_r.
    unfold reset_events. cbn [last_reset_day set_update_count].
    destruct (Clock.day (utcnow c) =? lrd)%Z; reflexivity.
  - eexists. cbn [snd bot trace]. split; [reflexivity|].
    rewrite after_day_test_day. split; [|reflexivity].
    unfold reset_events. cbn [last_reset_day set_update_count].
    destruct (Clock.day (utcnow c) =? lrd)%Z; reflexivity.
Qed.

Lemma empty_window_stops (c : cycle) : candles c = [] -> reaches_gate c = false.
Proof. intros H. unfold reaches_gate. now rewrite H. Qed.

(** Along a stream, the counters are reset once for each gate check whose day
    of the month differs from the stored one. *)
Lemma stream_resets (updates : list cycle) :
  forall w,
    count is_reset (trace (stream_candles updates w))
    = (count is_reset (trace w)
       + day_changes (last_reset_day (bot w)) (gate_dates updates))%nat.
Proof.
  induction updates as [|c rest IH]; intros w; cbn [stream_candles].
  - cbn. lia.
  - unfold gate_dates. cbn [filter].
    destruct (candles c) as [|k ks] eqn:Hc.
    + rewrite (empty_window_stops c Hc). apply IH.
    + rewrite IH.
      destruct (on_candle_resets c w) as (evs & Ht & Hf & Hd).
      rewrite Ht, Hd. unfold count at 1. rewrite filter_app, length_app, Hf.
      fold (count is_reset (trace w)).
      destruct (reaches_gate c); cbn [map day_changes length].
      * unfold reset_events.
        destruct (Clock.day (utcnow c) =? last_reset_day (bot w))%Z;
          cbn [length]; unfold gate_dates; lia.
      * unfold gate_dates; lia.
Qed.

(** When the gate is consulted on every day, a change of the day of the month
    is a change of date. *)
Lemma daily_day_changes (checks : list Clock.datetime) :
  forall previous,
    daily previous checks ->
    day_changes (Clock.day previous) checks = rollovers previous checks.
Proof.
  induction checks as [|d rest IH]; intros previous; cbn; [reflexivity|].
  intros (Hvalid & Hstep & Hrest). rewrite (IH d Hrest). f_equal.
  destruct Hstep as [-> | ->].
  - unfold date_eqb. now rewrite !Z.eqb_refl.
  - pose proof (tomorrow_day previous Hvalid) as Hne.
    apply Z.eqb_neq in Hne. unfold date_eqb. rewrite Hne.
    now rewrite andb_false_r.
Qed.

(** What the gate does guarantee: a candle update resets the counters at
    most once, and never when its UTC date is the date of the check (or of
    the start) that stored [last_reset_day]; and when the gate is consulted
    on every UTC day (each check falls on the date of the previous one or on
    the next date) the counters are reset once per change of date between
    checks. *)
Theorem daily_counters_reset :
  forall (start : Clock.datetime) (updates : list cycle),
    (forall (c : cycle) (self : PepeScalpingBot),
        (count is_reset (events_of c self) <= 1)%nat
        /\ (forall previous : Clock.datetime,
               last_reset_day self = Clock.day previous ->
               utcnow c = previous ->
               count is_reset (events_of c self) = 0%nat))
    /\ (daily start (gate_dates updates) ->
        count is_reset
              (trace (stream_candles updates {| bot := init start; trace := [] |}))
        = rollovers start (gate_dates updates)).
Proof.
  intros start updates. split.
  - intros c self. unfold events_of, count.
    destruct (on_candle_resets c {| bot := self; trace := [] |})
      as (evs & Ht & Hf & _).
    rewrite Ht. cbn [trace app bot] in *. rewrite Hf.
    unfold reset_events.
    destruct (reaches_gate c); [|cbn; split; [lia | reflexivity]].
    destruct (Clock.day (utcnow c) =? last_reset_day self)%Z eqn:E; cbn.
    + split; [lia | reflexivity].
    + apply Z.eqb_neq in E. split; [lia|].
      intros previous Hstored Hnow. subst previous. congruence.
  - intros Hdaily. rewrite stream_resets. cbn [trace bot init last_reset_day].
    now rewrite (daily_day_changes _ _ Hdaily).
Qed.

Lemma daily_counters_reset_witness :
  daily jan5 (gate_dates [update jan5 1000; update jan5 2000; update jan6 3000])
  /\ rollovers jan5
               (gate_dates [update jan5 1000; update jan5 2000; update jan6 3000])
     = 1%nat
  /\ count is_reset
           (trace (stream_candles
                     [update jan5 1000; update jan5 2000; update jan6 3000]
                     {| bot := init jan5; trace := [] |}))
     = 1%nat.
Proof.
  assert (Hd : daily jan5 (gate_dates [update jan5 1000; update jan5 2000;
                                       update jan6 3000])).
  { vm_compute. repeat split; try discriminate; auto. }
  destruct (daily_counters_reset jan5 [update jan5 1000; update jan5 2000;
                                       update jan6 3000]) as [_ Hrun].
  assert (Hr : rollovers jan5 (gate_dates [update jan5 1000; update jan5 2000;
                                           update jan6 3000]) = 1%nat)
    by (vm_compute; reflexivity).
  refine (conj Hd (conj Hr _)). rewrite (Hrun Hd). exact Hr.
Defined.

(** The reset is made at the next gate check: a bot started on 5 January
    whose next gate check falls on 7 January resets its counters once. *)
Lemma two_rollovers_one_reset :
  utcnow (update jan7 1000) = Clock.tomorrow (Clock.tomorrow jan5)
  /\ reaches_gate (update jan7 1000) = true
  /\ count is_reset
           (trace (stream_candles [update jan7 1000]
                                  {| bot := init jan5; trace := [] |}))
     = 1%nat.
Proof. repeat split; vm_compute; reflexivity. Qed.

(** C9 (code bug).  The gate compares [datetime.utcnow().day], the day of
    the month, with the stored one: a gate check on another UTC calendar day
    with the same day number resets nothing.  A bot that used up its daily
    calls on 5 January is reset and asks the oracle again on 6 January, and
    on 5 February it is still refused, its counter still at the limit. *)
Theorem month_apart_no_reset :
  (forall (c : cycle) (self : PepeScalpingBot),
      Clock.day (utcnow c) = last_reset_day self ->
      count is_reset (events_of c self) = 0%nat)
  /\ date_eqb feb5 jan5 = false
  /\ reaches_gate (update feb5 1000) = true
  /\ count is_reset (events_of (update feb5 1000) (Cycles.spent jan5)) = 0%nat
  /\ count is_technical_call
           (events_of (update feb5 1000) (Cycles.spent jan5)) = 0%nat
  /\ daily_calls
       (bot (snd (on_candle (update feb5 1000)
                            {| bot := Cycles.spent jan5; trace := [] |})))
     = MAX_CALLS_PER_DAY
  /\ count is_reset (events_of (update jan6 1000) (Cycles.spent jan5)) = 1%nat
  /\ count is_technical_call
           (events_of (update jan6 1000) (Cycles.spent jan5)) = 1%nat.
Proof.
  split.
  - intros c self Hday. unfold events_of, count.
    destruct (on_candle_resets c {| bot := self; trace := [] |})
      as (evs & Ht & Hf & _).
    rewrite Ht. cbn [trace app bot] in *. rewrite Hf.
    unfold reset_events.
    destruct (reaches_gate c); [|reflexivity].
    apply Z.eqb_eq in Hday. now rewrite Hday.
  - repeat split; vm_compute; reflexivity.
Qed.

(* ================================================================= *)
(** * Further properties of the code *)

(** ** layers.py: swing points *)

Section Swings.
Import Layers.

Variable lookback : nat.

Lemma in_swing_range (xs : list Q) (i : nat) :
  In i (swing_range xs lookback)
  <-> (lookback <= i /\ i + lookback < length xs)%nat.
Proof.
  unfold swing_range. rewrite in_seq. lia.
Qed.

Lemma is_swing_high_iff (highs : list Q) (i : nat) :
  is_swing_high highs lookback i = true
  <-> forall j, (1 <= j <= lookback)%nat ->
                item highs (i - j) < item highs i
                /\ item highs (i + j) < item highs i.
Proof.
  unfold is_swing_high. rewrite forallb_forall. split; intros H j Hj.
  - assert (Hin : In j (seq 1 lookback)) by (apply in_seq; lia).
    specialize (H j Hin). apply negb_true_iff, orb_false_iff in H as [H1 H2].
    apply leb_false_iff in H1, H2. now split.
  - apply in_seq in Hj. destruct (H j) as [H1 H2]; [lia|].
    apply negb_true_iff, orb_false_iff. split; now apply leb_false_iff.
Qed.

Lemma is_swing_low_iff (lows : list Q) (i : nat) :
  is_swing_low lows lookback i = true
  <-> forall j, (1 <= j <= lookback)%nat ->
                item lows i < item lows (i - j)
                /\ item lows i < item lows (i + j).
Proof.
  unfold is_swing_low. rewrite forallb_forall. split; intros H j Hj.
  - assert (Hin : In j (seq 1 lookback)) by (apply in_seq; lia).
    specialize (H j Hin). apply negb_true_iff, orb_false_iff in H as [H1 H2].
    apply leb_false_iff in H1, H2. now split.
  - apply in_seq in Hj. destruct (H j) as [H1 H2]; [lia|].
    apply negb_true_iff, orb_false_iff. split; now apply leb_false_iff.
Qed.

(** The indices kept by a filter of a range come in increasing order. *)
Lemma filter_seq_sorted (keep : nat -> bool) (len start : nat) :
  StronglySorted lt (filter keep (seq start len)).
Proof.
  revert start. induction len as [|len IH]; intros start; cbn; [constructor|].
  assert (Hrest : Forall (lt start) (filter keep (seq (S start) len))).
  { apply Forall_forall. intros k Hk. apply filter_In in Hk as [Hk _].
    apply in_seq in Hk. lia. }
  destruct (keep start); [constructor|]; auto.
Qed.

Lemma swing_indices (f : nat -> Q) (keep : nat -> bool) (range : list nat) :
  map fst (map (fun i => (i, f i)) (filter keep range)) = filter keep range.
Proof.
  rewrite map_map. cbn. apply map_id.
Qed.

End Swings.

Lemma in_detect_swing_highs (highs : list Q) (lookback i : nat) (p : Q) :
  In (i, p) (Layers.detect_swing_highs highs lookback)
  <-> (lookback <= i /\ i + lookback < length highs)%nat
      /\ p = Layers.item highs i
      /\ (forall j, (1 <= j <= lookback)%nat ->
                    Layers.item highs (i - j) < Layers.item highs i
                    /\ Layers.item highs (i + j) < Layers.item highs i).
Proof.
  unfold Layers.detect_swing_highs. rewrite in_map_iff. split.
  - intros (k & Hk & Hin). inversion Hk; subst.
    apply filter_In in Hin as [Hr Hs].
    apply in_swing_range in Hr.
    pose proof (proj1 (is_swing_high_iff lookback highs i) Hs) as Hall. auto.
  - intros (Hr & -> & Hs). exists i. split; [reflexivity|].
    apply filter_In. split.
    + now apply in_swing_range.
    + exact (proj2 (is_swing_high_iff lookback highs i) Hs).
Qed.

Lemma in_detect_swing_lows (lows : list Q) (lookback i : nat) (p : Q) :
  In (i, p) (Layers.detect_swing_lows lows lookback)
  <-> (lookback <= i /\ i + lookback < length lows)%nat
      /\ p = Layers.item lows i
      /\ (forall j, (1 <= j <= lookback)%nat ->
                    Layers.item lows i < Layers.item lows (i - j)
                    /\ Layers.item lows i < Layers.item lows (i + j)).
Proof.
  unfold Layers.detect_swing_lows. rewrite in_map_iff. split.
  - intros (k & Hk & Hin). inversion Hk; subst.
    apply filter_In in Hin as [Hr Hs].
    apply in_swing_range in Hr.
    pose proof (proj1 (is_swing_low_iff lookback lows i) Hs) as Hall. auto.
  - intros (Hr & -> & Hs). exists i. split; [reflexivity|].
    apply filter_In. split.
    + now apply in_swing_range.
    + exact (proj2 (is_swing_low_iff lookback lows i) Hs).
Qed.

(** X1.  [detect_swing_highs] reports exactly the bars that have [lookback]
    neighbours on both sides and whose high is strictly above the high of
    every one of them, each with its own high, in increasing order of index. *)
Theorem detect_swing_highs_exact :
  forall (highs : list Q) (lookback : nat),
    (forall (i : nat) (p : Q),
        In (i, p) (Layers.detect_swing_highs highs lookback)
        <-> (lookback <= i /\ i + lookback < length highs)%nat
            /\ p = Layers.item highs i
            /\ (forall j, (1 <= j <= lookback)%nat ->
                          Layers.item highs (i - j) < Layers.item highs i
                          /\ Layers.item highs (i + j) < Layers.item highs i))
    /\ StronglySorted lt (map fst (Layers.detect_swing_highs highs lookback)).
Proof.
  intros highs lookback. split.
  - intros i p. apply in_detect_swing_highs.
  - unfold Layers.detect_swing_highs. rewrite swing_indices.
    apply filter_seq_sorted.
Qed.

(** X2.  [detect_swing_lows] reports exactly the bars that have [lookback]
    neighbours on both sides and whose low is strictly below the low of every
    one of them, each with its own low, in increasing order of index. *)
Theorem detect_swing_lows_exact :
  forall (lows : list Q) (lookback : nat),
    (forall (i : nat) (p : Q),
        In (i, p) (Layers.detect_swing_lows lows lookback)
        <-> (lookback <= i /\ i + lookback < length lows)%nat
            /\ p = Layers.item lows i
            /\ (forall j, (1 <= j <= lookback)%nat ->
                          Layers.item lows i < Layers.item lows (i - j)
                          /\ Layers.item lows i < Layers.item lows (i + j)))
    /\ StronglySorted lt (map fst (Layers.detect_swing_lows lows lookback)).
Proof.
  intros lows lookback. split.
  - intros i p. apply in_detect_swing_lows.
  - unfold Layers.detect_swing_lows. rewrite swing_indices.
    apply filter_seq_sorted.
Qed.

(** X3.  Two swing highs are never within [lookback] bars of each other, and
    neither are two swing lows: each is the strict extreme of its
    neighbourhood, so the later one lies more than [lookback] bars after the
    earlier one. *)
Theorem swings_are_separated :
  forall (xs : list Q) (lookback i i' : nat) (p p' : Q),
    (i < i')%nat ->
    (In (i, p) (Layers.detect_swing_highs xs lookback) ->
     In (i', p') (Layers.detect_swing_highs xs lookback) ->
     (i + lookback < i')%nat)
    /\ (In (i, p) (Layers.detect_swing_lows xs lookback) ->
        In (i', p') (Layers.detect_swing_lows xs lookback) ->
        (i + lookback < i')%nat).
Proof.
  intros xs lookback i i' p p' Hlt. split; intros H H'.
  - apply in_detect_swing_highs in H as (_ & _ & Hs).
    apply in_detect_swing_highs in H' as (_ & _ & Hs').
    destruct (Nat.lt_ge_cases (i + lookback) i') as [|Hnear]; [assumption|].
    exfalso. destruct (Hs (i' - i)%nat) as [_ H1]; [lia|].
    destruct (Hs' (i' - i)%nat) as [H2 _]; [lia|].
    replace (i + (i' - i))%nat with i' in H1 by lia.
    replace (i' - (i' - i))%nat with i in H2 by lia. lra.
  - apply in_detect_swing_lows in H as (_ & _ & Hs).
    apply in_detect_swing_lows in H' as (_ & _ & Hs').
    destruct (Nat.lt_ge_cases (i + lookback) i') as [|Hnear]; [assumption|].
    exfalso. destruct (Hs (i' - i)%nat) as [_ H1]; [lia|].
    destruct (Hs' (i' - i)%nat) as [H2 _]; [lia|].
    replace (i + (i' - i))%nat with i' in H1 by lia.
    replace (i' - (i' - i))%nat with i in H2 by lia. lra.
Qed.

Lemma swings_are_separated_witness :
  (2 < 8)%nat
  /\ In (2%nat, 101) (Layers.detect_swing_highs Scenario.highs 2)
  /\ In (8%nat, 101.02) (Layers.detect_swing_highs Scenario.highs 2)
  /\ (2 + 2 < 8)%nat.
Proof.
  assert (Hlt : (2 < 8)%nat) by lia.
  assert (H : In (2%nat, 101) (Layers.detect_swing_highs Scenario.highs 2))
    by (vm_compute; left; reflexivity).
  assert (H' : In (8%nat, 101.02) (Layers.detect_swing_highs Scenario.highs 2))
    by (vm_compute; right; left; reflexivity).
  destruct (swings_are_separated Scenario.highs 2 2 8 101 101.02 Hlt) as [Hh _].
  exact (conj Hlt (conj H (conj H' (Hh H H')))).
Defined.

(** ** layers.py: what clustering conserves *)

Section ClusterAccounting.
Import Layers.

Variable threshold_pct : Q.

(** The shape of a successful pass of the inner loop: one cluster changed,
    by one touch, one index and the weighted average. *)
Lemma absorb_shape (idx : nat) (price : Q) (clusters clusters' : list Cluster) :
  absorb clusters idx price threshold_pct = Ok (Some clusters') ->
  exists pre c post c',
    clusters = pre ++ c :: post
    /\ clusters' = pre ++ c' :: post
    /\ cl_touches c' = (cl_touches c + 1)%Z
    /\ cl_indices c' = cl_indices c ++ [idx]
    /\ ~ inject_Z (cl_touches c + 1) == 0
    /\ cl_price c'
       = (cl_price c * inject_Z (cl_touches c) + price)
         / inject_Z (cl_touches c + 1).
Proof.
  revert clusters'. induction clusters as [|c rest IH]; intros clusters' H.
  - discriminate.
  - cbn [absorb] in H.
    destruct (near c price threshold_pct) as [hit|e]; cbn [Py.bind] in H;
      [|discriminate].
    destruct hit.
    + unfold merge in H.
      destruct (truediv _ _) as [p|e] eqn:Hd; cbn [Py.bind] in H; [|discriminate].
      apply truediv_inv in Hd as [Hnz ->]. inversion H; subst.
      exists [], c, rest. eexists. repeat split; try reflexivity. exact Hnz.
    + destruct (absorb rest idx price threshold_pct) as [[r|]|e];
        cbn in H; try discriminate.
      inversion H; subst.
      destruct (IH r eq_refl) as (pre & c0 & post & c' & -> & -> & Hrest).
      exists (c :: pre), c0, post, c'. repeat split; apply Hrest.
Qed.

Lemma absorb_raises_zero_division (idx : nat) (price : Q) (clusters : list Cluster)
      (e : exn) :
  absorb clusters idx price threshold_pct = Raise e -> e = ZeroDivisionError.
Proof.
  induction clusters as [|c rest IH]; cbn [absorb]; [discriminate|].
  unfold near, merge, truediv.
  destruct (Py.eqb price 0); cbn; [intros H; now inversion H|].
  destruct (Py.ltb _ _); cbn.
  - destruct (Py.eqb _ 0); cbn; intros H; now inversion H.
  - destruct (absorb rest idx price threshold_pct) as [r|e']; cbn.
    + discriminate.
    + intros H; inversion H; subst. now apply IH.
Qed.

Lemma sum_snoc (xs : list Q) (x : Q) : sum (xs ++ [x]) = sum xs + x.
Proof. unfold sum. now rewrite fold_left_app. Qed.

Lemma concat_middle (pre post : list (list nat)) (mid : list nat) (i : nat) :
  Permutation (concat (pre ++ (mid ++ [i]) :: post))
              (concat (pre ++ mid :: post) ++ [i]).
Proof.
  rewrite !concat_app. cbn [concat]. rewrite <- !app_assoc.
  apply Permutation_app_head. apply Permutation_app_head.
  apply Permutation_app_comm.
Qed.

Lemma cluster_step_accounts (f : nat -> Q) (clusters clusters' : list Cluster)
      (seen : list nat) (idx : nat) :
  accounts f clusters seen ->
  cluster_step threshold_pct clusters (idx, f idx) = Ok clusters' ->
  accounts f clusters' (seen ++ [idx]).
Proof.
  intros [Hall Hperm]. unfold cluster_step.
  destruct (absorb clusters idx (f idx) threshold_pct) as [[r|]|e] eqn:Ha;
    cbn [Py.bind]; intros H; inversion H; subst; clear H.
  - destruct (absorb_shape _ _ _ _ Ha)
      as (pre & c & post & c' & -> & -> & Ht & Hi & Hnz & Hp).
    apply Forall_app in Hall as [Hpre Hpost].
    inversion Hpost as [|? ? (Hc1 & Hc2 & Hc3) Hpost']; subst.
    split.
    + apply Forall_app. split; [assumption|]. constructor; [|assumption].
      rewrite Ht, Hi, Hp. repeat split.
      * rewrite length_app. cbn. lia.
      * intros Hnil. now apply app_eq_nil in Hnil as [_ Hnil].
      * rewrite map_app. cbn [map]. rewrite sum_snoc, <- Hc3. now field.
    + rewrite map_app in *. cbn [map] in *. rewrite Hi.
      rewrite concat_middle. now apply Permutation_app_tail.
  - split.
    + apply Forall_app. split; [assumption|]. constructor; [|constructor].
      cbn. repeat split; [discriminate | unfold sum; cbn; ring].
    + rewrite map_app, concat_app. cbn.
      now apply Permutation_app_tail.
Qed.

Lemma cluster_loop_accounts (f : nat -> Q) (rest : list nat) :
  forall clusters clusters' seen,
    accounts f clusters seen ->
    cluster_loop threshold_pct (map (fun i => (i, f i)) rest) clusters
    = Ok clusters' ->
    accounts f clusters' (seen ++ rest).
Proof.
  induction rest as [|i rest IH]; intros cs cs' seen Hacc;
    cbn [map cluster_loop].
  - intros H; inversion H; subst. now rewrite app_nil_r.
  - destruct (cluster_step threshold_pct cs (i, f i)) as [cs1|e] eqn:Hs;
      cbn [Py.bind]; [|discriminate].
    intros H. replace (seen ++ i :: rest) with ((seen ++ [i]) ++ rest)
      by (now rewrite <- app_assoc).
    apply (IH cs1 cs' (seen ++ [i])); [|assumption].
    now apply (cluster_step_accounts f cs cs1 seen i).
Qed.

Lemma cluster_levels_accounts (f : nat -> Q) (indices : list nat)
      (clusters : list Cluster) :
  cluster_levels (map (fun i => (i, f i)) indices) threshold_pct = Ok clusters ->
  accounts f clusters indices.
Proof.
  rewrite cluster_levels_loop. intros H.
  apply (cluster_loop_accounts f indices [] clusters []); [|assumption].
  split; [constructor | constructor].
Qed.

Lemma touches_add_up (clusters : list Cluster) :
  Forall (fun c => cl_touches c = Z.of_nat (length (cl_indices c))) clusters ->
  fold_right Z.add 0%Z (map cl_touches clusters)
  = Z.of_nat (length (concat (map cl_indices clusters))).
Proof.
  induction 1 as [|c rest Hc _ IH]; cbn; [reflexivity|].
  rewrite length_app, IH, Hc. lia.
Qed.

End ClusterAccounting.

(** X4.  Clustering loses and invents nothing: when [cluster_levels] returns,
    every cluster's touch count is the number of its indices (at least one),
    the indices of all clusters together are the indices of the levels up to
    order, and the touch counts add up to the number of levels. *)
Theorem cluster_levels_conserves :
  forall (levels : list (nat * Q)) (threshold_pct : Q)
         (clusters : list Layers.Cluster),
    Layers.cluster_levels levels threshold_pct = Ok clusters ->
    Forall (fun c => Layers.cl_touches c
                     = Z.of_nat (length (Layers.cl_indices c))
                     /\ (1 <= Layers.cl_touches c)%Z) clusters
    /\ Permutation (concat (map Layers.cl_indices clusters)) (map fst levels)
    /\ fold_right Z.add 0%Z (map Layers.cl_touches clusters) = len levels.
Proof.
  intros levels t cs H.
  assert (Hgen : forall (ls : list (nat * Q)) cs0 cs1,
             Layers.cluster_loop t ls cs0 = Ok cs1 ->
             Forall (fun c => Layers.cl_touches c
                              = Z.of_nat (length (Layers.cl_indices c))
                              /\ (1 <= Layers.cl_touches c)%Z) cs0 ->
             forall seen,
               Permutation (concat (map Layers.cl_indices cs0)) seen ->
               Forall (fun c => Layers.cl_touches c
                                = Z.of_nat (length (Layers.cl_indices c))
                                /\ (1 <= Layers.cl_touches c)%Z) cs1
               /\ Permutation (concat (map Layers.cl_indices cs1))
                              (seen ++ map fst ls)).
  { clear. induction ls as [|[idx price] rest IH]; intros cs0 cs1 Hrun Hall seen Hperm.
    - cbn in Hrun. inversion Hrun; subst. cbn. now rewrite app_nil_r.
    - cbn [Layers.cluster_loop] in Hrun.
      destruct (Layers.cluster_step t cs0 (idx, price)) as [cs2|e] eqn:Hs;
        cbn [Py.bind] in Hrun; [|discriminate].
      replace (seen ++ map fst ((idx, price) :: rest))
        with ((seen ++ [idx]) ++ map fst rest)
        by (cbn; now rewrite <- app_assoc).
      apply (IH cs2 cs1 Hrun).
      + unfold Layers.cluster_step in Hs.
        destruct (Layers.absorb cs0 idx price t) as [[r|]|e] eqn:Ha;
          cbn [Py.bind] in Hs; inversion Hs; subst; clear Hs.
        * destruct (absorb_shape t _ _ _ _ Ha)
            as (pre & c & post & c' & -> & -> & Ht & Hi & _ & _).
          apply Forall_app in Hall as [Hpre Hpost].
          inversion Hpost as [|? ? [Hc1 Hc2] Hpost']; subst.
          apply Forall_app. split; [assumption|]. constructor; [|assumption].
          rewrite Ht, Hi, length_app. cbn. lia.
        * apply Forall_app. split; [assumption|]. constructor; [|constructor].
          cbn. lia.
      + unfold Layers.cluster_step in Hs.
        destruct (Layers.absorb cs0 idx price t) as [[r|]|e] eqn:Ha;
          cbn [Py.bind] in Hs; inversion Hs; subst; clear Hs.
        * destruct (absorb_shape t _ _ _ _ Ha)
            as (pre & c & post & c' & -> & -> & _ & Hi & _ & _).
          rewrite map_app in *. cbn [map] in *. rewrite Hi, concat_middle.
          now apply Permutation_app_tail.
        * rewrite map_app, concat_app. cbn.
          now apply Permutation_app_tail. }
  rewrite cluster_levels_loop in H.
  destruct (Hgen levels [] cs H (Forall_nil _) [] (Permutation_refl _))
    as [Hall Hperm].
  cbn [app] in Hperm. split; [assumption|]. split; [assumption|].
  rewrite touches_add_up.
  - unfold len. now rewrite (Permutation_length Hperm), length_map.
  - eapply Forall_impl; [|exact Hall]. now intros c [Hc _].
Qed.

Lemma cluster_levels_conserves_witness :
  exists clusters,
    Layers.cluster_levels (Layers.detect_swing_highs Scenario.highs 2) 0.1
    = Ok clusters
    /\ length clusters = 1%nat
    /\ Forall (fun c => Layers.cl_touches c
                        = Z.of_nat (length (Layers.cl_indices c))
                        /\ (1 <= Layers.cl_touches c)%Z) clusters
    /\ Permutation (concat (map Layers.cl_indices clusters))
                   (map fst (Layers.detect_swing_highs Scenario.highs 2))
    /\ fold_right Z.add 0%Z (map Layers.cl_touches clusters)
       = len (Layers.detect_swing_highs Scenario.highs 2).
Proof.
  eexists.
  assert (Hrun : forall r,
             r = Layers.cluster_levels
                   (Layers.detect_swing_highs Scenario.highs 2) 0.1 ->
             Layers.cluster_levels
               (Layers.detect_swing_highs Scenario.highs 2) 0.1 = r)
    by (intros r ->; reflexivity).
  specialize (Hrun _ ltac:(vm_compute; reflexivity)).
  exact (conj Hrun (conj eq_refl (cluster_levels_conserves _ _ _ Hrun))).
Defined.

(** ** layers.py: when clustering raises *)

Section ClusterErrors.
Import Layers.

Variable threshold_pct : Q.

Lemma cluster_step_zero_price (clusters : list Cluster) (idx : nat) (price : Q) :
  clusters <> [] -> price == 0 ->
  cluster_step threshold_pct clusters (idx, price) = Raise ZeroDivisionError.
Proof.
  intros Hne Hz. destruct clusters as [|c rest]; [congruence|].
  unfold cluster_step. cbn [absorb]. unfold near.
  now rewrite (truediv_zero _ _ Hz).
Qed.

Lemma cluster_step_defined (clusters : list Cluster) (idx : nat) (price : Q) :
  Forall touched clusters -> ~ price == 0 ->
  exists clusters',
    cluster_step threshold_pct clusters (idx, price) = Ok clusters'
    /\ clusters' <> [] /\ Forall touched clusters'.
Proof.
  intros Hall Hp.
  assert (Hok : exists clusters',
             cluster_step threshold_pct clusters (idx, price) = Ok clusters'
             /\ clusters' <> []).
  { unfold cluster_step.
    destruct (absorb_first_fit threshold_pct idx price clusters Hp Hall)
      as [(pre & c & post & -> & _ & _ & Habs) | [_ Habs]];
      rewrite Habs; cbn [Py.bind]; eexists; (split; [reflexivity|]).
    - intros H. now apply app_eq_nil in H as [_ H].
    - intros H. now apply app_eq_nil in H as [_ H]. }
  destruct Hok as (cs' & Hrun & Hne). exists cs'. repeat split; try assumption.
  exact (cluster_step_touched threshold_pct clusters cs' (idx, price) Hall Hrun).
Qed.

Lemma cluster_loop_errors (rest : list (nat * Q)) :
  forall clusters,
    clusters <> [] -> Forall touched clusters ->
    (Exists (fun level => snd level == 0) rest ->
     cluster_loop threshold_pct rest clusters = Raise ZeroDivisionError)
    /\ (Forall (fun level => ~ snd level == 0) rest ->
        exists clusters',
          cluster_loop threshold_pct rest clusters = Ok clusters').
Proof.
  induction rest as [|[idx price] rest IH]; intros cs Hne Hall.
  - split; [intros H; inversion H | intros _; now exists cs].
  - cbn [cluster_loop]. destruct (Qeq_dec price 0) as [Hz | Hp].
    + rewrite (cluster_step_zero_price cs idx price Hne Hz). cbn [Py.bind].
      split; [reflexivity|]. intros H. inversion H; subst. cbn in *. contradiction.
    + destruct (cluster_step_defined cs idx price Hall Hp)
        as (cs1 & Hrun & Hne1 & Hall1).
      rewrite Hrun. cbn [Py.bind]. destruct (IH cs1 Hne1 Hall1) as [Hex Hfa].
      split.
      * intros H. inversion H; subst; [cbn in *; contradiction | auto].
      * intros H. inversion H; subst. auto.
Qed.

End ClusterErrors.

(** X6.  [cluster_levels] fails exactly on a zero price after the first
    level: it raises [ZeroDivisionError] when some level but the first has
    price 0.0, and returns otherwise (the first level is never divided by). *)
Theorem cluster_levels_raises_iff :
  forall (first : nat * Q) (rest : list (nat * Q)) (threshold_pct : Q),
    (Exists (fun level => snd level == 0) rest ->
     Layers.cluster_levels (first :: rest) threshold_pct
     = Raise ZeroDivisionError)
    /\ (Forall (fun level => ~ snd level == 0) rest ->
        exists clusters,
          Layers.cluster_levels (first :: rest) threshold_pct = Ok clusters).
Proof.
  intros [idx price] rest t. cbn [Layers.cluster_levels Layers.cluster_loop].
  unfold Layers.cluster_step. cbn [Layers.absorb Py.bind app].
  apply cluster_loop_errors; [discriminate|].
  constructor; [unfold touched; cbn; lia | constructor].
Qed.

Lemma cluster_levels_raises_iff_witness :
  Layers.cluster_levels ((2%nat, 0) :: [(5%nat, 1); (9%nat, 0); (12%nat, 1)]) 0.1
  = Raise ZeroDivisionError
  /\ exists clusters,
       Layers.cluster_levels ((2%nat, 0) :: [(5%nat, 1); (9%nat, 1.0001)]) 0.1
       = Ok clusters.
Proof.
  split.
  - apply (cluster_levels_raises_iff (2%nat, 0)
             [(5%nat, 1); (9%nat, 0); (12%nat, 1)] 0.1).
    right. left. reflexivity.
  - apply (cluster_levels_raises_iff (2%nat, 0) [(5%nat, 1); (9%nat, 1.0001)] 0.1).
    repeat constructor; cbn; intros H; discriminate H.
Defined.

(** ** layers.py: which layers [find_layers] keeps, and in which order *)

Section LayerRanking.
Import Layers.

Lemma key_le_ranked (a b : Layer) : key_le a b = true <-> ranked a b.
Proof.
  unfold key_le, ranked, Py.leb.
  rewrite orb_true_iff, andb_true_iff, Z.ltb_lt, Z.eqb_eq, Qle_bool_iff.
  split; (intros [H | [H H']]; [left; lia | right; split; [lia | assumption]]).
Qed.

Lemma key_le_total (a b : Layer) : key_le a b = false -> ranked b a.
Proof.
  unfold key_le, ranked, Py.leb. intros H.
  apply orb_false_iff in H as [Hlt H]. apply Z.ltb_ge in Hlt.
  apply andb_false_iff in H as [H | H].
  - apply Z.eqb_neq in H. left. lia.
  - destruct (Z.eq_dec (touches a) (touches b)) as [Heq | Hne]; [|left; lia].
    right. split; [now symmetry|].
    destruct (Qlt_le_dec (distance_pct a) (distance_pct b)) as [Hlt' | Hle];
      [|assumption].
    apply Qlt_le_weak, Qle_bool_iff in Hlt'. congruence.
Qed.

Lemma ranked_trans (a b c : Layer) : ranked a b -> ranked b c -> ranked a c.
Proof.
  unfold ranked. intros [H1 | [H1 H1']] [H2 | [H2 H2']].
  - left. lia.
  - left. lia.
  - left. lia.
  - right. split; [congruence|]. now apply Qle_trans with (distance_pct b).
Qed.

Lemma insert_layer_sorted (x : Layer) (sorted : list Layer) :
  StronglySorted ranked sorted -> StronglySorted ranked (insert_layer x sorted).
Proof.
  induction 1 as [|y rest Hs IH Hy]; cbn [insert_layer].
  - repeat constructor.
  - destruct (key_le x y) eqn:Hk.
    + apply key_le_ranked in Hk. constructor; [now constructor|].
      constructor; [assumption|].
      rewrite Forall_forall in Hy |- *. intros z Hz.
      apply ranked_trans with y; auto.
    + apply key_le_total in Hk. constructor; [assumption|].
      rewrite Forall_forall in Hy |- *. intros z Hz.
      apply In_insert_layer in Hz as [-> | Hz]; auto.
Qed.

Lemma sort_layers_sorted (layers : list Layer) :
  StronglySorted ranked (sort_layers layers).
Proof.
  induction layers as [|x rest IH]; cbn; [constructor|].
  now apply insert_layer_sorted.
Qed.

Lemma insert_layer_perm (x : Layer) (sorted : list Layer) :
  Permutation (insert_layer x sorted) (x :: sorted).
Proof.
  induction sorted as [|y rest IH]; cbn [insert_layer]; [reflexivity|].
  destruct (key_le x y); [reflexivity|].
  rewrite IH. apply perm_swap.
Qed.

Lemma sort_layers_perm (layers : list Layer) :
  Permutation (sort_layers layers) layers.
Proof.
  induction layers as [|x rest IH]; cbn; [reflexivity|].
  rewrite insert_layer_perm. now constructor.
Qed.

Lemma firstn_sorted (n : nat) (layers : list Layer) :
  StronglySorted ranked layers -> StronglySorted ranked (firstn n layers).
Proof.
  intros H. revert n. induction H as [|y rest Hs IH Hy]; intros [|n]; cbn;
    try constructor; [apply IH|].
  rewrite Forall_forall in Hy |- *. intros z Hz. eauto using In_firstn_inv.
Qed.

Lemma slice_to_sorted (k : Z) (layers : list Layer) :
  StronglySorted ranked layers -> StronglySorted ranked (slice_to layers k).
Proof. unfold slice_to. destruct (k <? 0)%Z; apply firstn_sorted. Qed.

Lemma slice_to_length (k : Z) (layers : list Layer) :
  (0 <= k)%Z -> (len (slice_to layers k) <= k)%Z.
Proof.
  intros Hk. unfold slice_to, len. destruct (k <? 0)%Z eqn:E; [lia|].
  rewrite length_firstn. lia.
Qed.

(** The [k] first of a sorted list outrank what is cut off. *)
Lemma firstn_keeps_best (n : nat) (layers : list Layer) (l : Layer) :
  StronglySorted ranked layers -> In l layers ->
  In l (firstn n layers)
  \/ (length (firstn n layers) = n
      /\ forall r, In r (firstn n layers) -> ranked r l).
Proof.
  intros H. revert n. induction H as [|y rest Hs IH Hy]; intros n Hin.
  - destruct Hin.
  - destruct n as [|n]; [right; split; [reflexivity | intros r []]|].
    cbn [firstn]. destruct Hin as [-> | Hin]; [left; now left|].
    destruct (IH n Hin) as [Hk | [Hlen Hbest]]; [left; now right|].
    right. split; [cbn; now rewrite Hlen|].
    intros r [<- | Hr]; [|now apply Hbest].
    rewrite Forall_forall in Hy. now apply Hy.
Qed.

Lemma slice_sort_keeps_best (k : Z) (layers : list Layer) (l : Layer) :
  (0 <= k)%Z -> In l layers -> kept (slice_to (sort_layers layers) k) k l.
Proof.
  intros Hk Hin. unfold kept, slice_to, len.
  destruct (k <? 0)%Z eqn:E; [lia|].
  assert (Hs : In l (sort_layers layers))
    by (apply (Permutation_in l (Permutation_sym (sort_layers_perm layers)));
        assumption).
  destruct (firstn_keeps_best (Z.to_nat k) _ l (sort_layers_sorted layers) Hs)
    as [H | [Hlen Hbest]]; [now left|].
  right. split; [rewrite Hlen; lia | assumption].
Qed.

(** The two loops of [find_layers] build one layer per cluster on the right
    side of the price, in cluster order. *)
Lemma resistance_of_layers (clusters : list Cluster) (current_price : Q)
      (total_bars : Z) (volumes : option (list Q)) :
  forall layers,
    resistance_of clusters current_price total_bars volumes = Ok layers ->
    layers = map (layer_of Resistance current_price total_bars volumes)
                 (filter (fun c => Py.ltb current_price (cl_price c)) clusters).
Proof.
  induction clusters as [|c rest IH]; cbn [resistance_of filter]; intros layers H.
  - now inversion H.
  - destruct (Py.ltb current_price (cl_price c)); [|now apply IH].
    unfold truediv in H. destruct (Py.eqb current_price 0); [discriminate|].
    cbn [Py.bind] in H.
    destruct (resistance_of rest current_price total_bars volumes) as [tail|e];
      cbn [Py.bind] in H; [|discriminate].
    inversion H; subst. cbn [map]. now rewrite <- (IH tail eq_refl).
Qed.

Lemma support_of_layers (clusters : list Cluster) (current_price : Q)
      (total_bars : Z) (volumes : option (list Q)) :
  forall layers,
    support_of clusters current_price total_bars volumes = Ok layers ->
    layers = map (layer_of Support current_price total_bars volumes)
                 (filter (fun c => Py.ltb (cl_price c) current_price) clusters).
Proof.
  induction clusters as [|c rest IH]; cbn [support_of filter]; intros layers H.
  - now inversion H.
  - destruct (Py.ltb (cl_price c) current_price); [|now apply IH].
    unfold truediv in H. destruct (Py.eqb current_price 0); [discriminate|].
    cbn [Py.bind] in H.
    destruct (support_of rest current_price total_bars volumes) as [tail|e];
      cbn [Py.bind] in H; [|discriminate].
    inversion H; subst. cbn [map]. now rewrite <- (IH tail eq_refl).
Qed.

(** [find_layers] on a window of at least ten bars, stage by stage. *)
Lemma find_layers_stages (highs lows closes : list Q)
      (volumes : option (list Q)) (cluster_threshold : Q) (max_layers : Z)
      (rs ss : list Layer) :
  (10 <= len highs)%Z ->
  find_layers highs lows closes volumes cluster_threshold max_layers
  = Ok (rs, ss) ->
  exists current_price rc sc,
    last_item closes = Ok current_price
    /\ cluster_levels (detect_swing_highs highs 2) cluster_threshold = Ok rc
    /\ cluster_levels (detect_swing_lows lows 2) cluster_threshold = Ok sc
    /\ rs = slice_to
              (sort_layers
                 (map (layer_of Resistance current_price (len closes) volumes)
                      (filter (fun c => Py.ltb current_price (cl_price c)) rc)))
              (max_layers / 2)
    /\ ss = slice_to
              (sort_layers
                 (map (layer_of Support current_price (len closes) volumes)
                      (filter (fun c => Py.ltb (cl_price c) current_price) sc)))
              (max_layers / 2).
Proof.
  unfold find_layers. intros Hlen H.
  destruct (len highs <? 10)%Z eqn:E; [lia|].
  destruct (last_item closes) as [cp|e]; cbn [Py.bind] in H; [|discriminate].
  destruct (cluster_levels (detect_swing_highs highs 2) cluster_threshold)
    as [rc|e]; cbn [Py.bind] in H; [|discriminate].
  destruct (cluster_levels (detect_swing_lows lows 2) cluster_threshold)
    as [sc|e]; cbn [Py.bind] in H; [|discriminate].
  destruct (resistance_of rc cp (len closes) volumes)
    as [rl|e] eqn:Hr; cbn [Py.bind] in H; [|discriminate].
  destruct (support_of sc cp (len closes) volumes)
    as [sl|e] eqn:Hs; cbn [Py.bind] in H; [|discriminate].
  inversion H; subst.
  apply resistance_of_layers in Hr. apply support_of_layers in Hs. subst.
  exists cp, rc, sc. repeat split; reflexivity.
Qed.

Lemma find_layers_short (highs lows closes : list Q)
      (volumes : option (list Q)) (cluster_threshold : Q) (max_layers : Z) :
  (len highs < 10)%Z ->
  find_layers highs lows closes volumes cluster_threshold max_layers
  = Ok ([], []).
Proof.
  intros H. unfold find_layers.
  destruct (len highs <? 10)%Z eqn:E; [reflexivity | lia].
Qed.

End LayerRanking.

(** X7.  The layers [find_layers] returns are ordered on each side by touch
    count, most touched first, and among equally touched layers by distance,
    nearest first; with a non-negative [max_layers] each side holds at most
    [max_layers // 2] layers. *)
Theorem find_layers_ranked :
  forall (highs lows closes : list Q) (volumes : option (list Q))
         (cluster_threshold : Q) (max_layers : Z)
         (resistance_layers support_layers : list Layers.Layer),
    Layers.find_layers highs lows closes volumes cluster_threshold max_layers
    = Ok (resistance_layers, support_layers) ->
    StronglySorted ranked resistance_layers
    /\ StronglySorted ranked support_layers
    /\ ((0 <= max_layers)%Z ->
        (len resistance_layers <= max_layers / 2)%Z
        /\ (len support_layers <= max_layers / 2)%Z).
Proof.
  intros highs lows closes volumes t m rs ss H.
  destruct (Z_lt_ge_dec (len highs) 10) as [Hshort | Hlong].
  - rewrite (find_layers_short _ _ _ _ _ _ Hshort) in H. inversion H; subst.
    split; [constructor|]. split; [constructor|].
    intros Hm. assert (0 <= m / 2)%Z by (apply Z.div_pos; lia).
    split; cbn; assumption.
  - assert (Hlen : (10 <= len highs)%Z) by lia.
    destruct (find_layers_stages _ _ _ _ _ _ _ _ Hlen H)
      as (cp & rc & sc & _ & _ & _ & -> & ->).
    split; [apply slice_to_sorted, sort_layers_sorted|].
    split; [apply slice_to_sorted, sort_layers_sorted|].
    intros Hm. assert (0 <= m / 2)%Z by (apply Z.div_pos; lia).
    split; now apply slice_to_length.
Qed.

Lemma find_layers_ranked_witness :
  exists resistance_layers support_layers,
    Layers.find_layers (map Main.high Scenario.window)
                       (map Main.low Scenario.window)
                       (map Main.close Scenario.window)
                       (Some (map Main.volume Scenario.window)) 0.1 4
    = Ok (resistance_layers, support_layers)
    /\ length support_layers = 2%nat
    /\ StronglySorted ranked resistance_layers
    /\ StronglySorted ranked support_layers
    /\ ((0 <= 4)%Z ->
        (len resistance_layers <= 4 / 2)%Z /\ (len support_layers <= 4 / 2)%Z).
Proof.
  do 2 eexists.
  assert (Hrun : forall r,
             r = Layers.find_layers (map Main.high Scenario.window)
                                    (map Main.low Scenario.window)
                                    (map Main.close Scenario.window)
                                    (Some (map Main.volume Scenario.window)) 0.1 4 ->
             Layers.find_layers (map Main.high Scenario.window)
                                (map Main.low Scenario.window)
                                (map Main.close Scenario.window)
                                (Some (map Main.volume Scenario.window)) 0.1 4
             = r) by (intros r ->; reflexivity).
  specialize (Hrun _ ltac:(vm_compute; reflexivity)).
  refine (conj Hrun (conj _ (find_layers_ranked _ _ _ _ _ _ _ _ Hrun))).
  reflexivity.
Defined.

(** X8.  [find_layers] keeps the best candidates: with a non-negative
    [max_layers], the layer of every resistance cluster above the last close
    (of every support cluster below it) is either returned, or the
    [max_layers // 2] places of its side are taken by layers that have more
    touches, or as many touches and a distance no larger. *)
Theorem find_layers_keeps_best :
  forall (highs lows closes : list Q) (volumes : option (list Q))
         (cluster_threshold : Q) (max_layers : Z)
         (resistance_layers support_layers : list Layers.Layer)
         (current_price : Q)
         (resistance_clusters support_clusters : list Layers.Cluster),
    Layers.find_layers highs lows closes volumes cluster_threshold max_layers
    = Ok (resistance_layers, support_layers) ->
    (10 <= len highs)%Z ->
    (0 <= max_layers)%Z ->
    last_item closes = Ok current_price ->
    Layers.cluster_levels (Layers.detect_swing_highs highs 2) cluster_threshold
    = Ok resistance_clusters ->
    Layers.cluster_levels (Layers.detect_swing_lows lows 2) cluster_threshold
    = Ok support_clusters ->
    (forall c, In c resistance_clusters -> current_price < Layers.cl_price c ->
               kept resistance_layers (max_layers / 2)
                    (layer_of Layers.Resistance current_price (len closes)
                              volumes c))
    /\ (forall c, In c support_clusters -> Layers.cl_price c < current_price ->
                  kept support_layers (max_layers / 2)
                       (layer_of Layers.Support current_price (len closes)
                                 volumes c)).
Proof.
  intros highs lows closes volumes t m rs ss cp rc sc H Hlen Hm Hlast Hrc Hsc.
  destruct (find_layers_stages _ _ _ _ _ _ _ _ Hlen H)
    as (cp' & rc' & sc' & Hlast' & Hrc' & Hsc' & -> & ->).
  assert (cp' = cp) by congruence. assert (rc' = rc) by congruence.
  assert (sc' = sc) by congruence. subst.
  assert (0 <= m / 2)%Z by (apply Z.div_pos; lia).
  split; intros c Hc Hside; apply slice_sort_keeps_best; try assumption;
    apply in_map, filter_In; (split; [assumption|]);
    now apply ltb_true_iff.
Qed.

Lemma find_layers_keeps_best_witness :
  exists resistance_layers support_layers current_price
         resistance_clusters support_clusters,
    Layers.find_layers (map Main.high Scenario.window)
                       (map Main.low Scenario.window)
                       (map Main.close Scenario.window)
                       (Some (map Main.volume Scenario.window)) 0.1 2
    = Ok (resistance_layers, support_layers)
    /\ length support_clusters = 2%nat
    /\ length support_layers = 1%nat
    /\ (forall c, In c resistance_clusters -> current_price < Layers.cl_price c ->
                  kept resistance_layers (2 / 2)
                       (layer_of Layers.Resistance current_price
                                 (len (map Main.close Scenario.window))
                                 (Some (map Main.volume Scenario.window)) c))
    /\ (forall c, In c support_clusters -> Layers.cl_price c < current_price ->
                  kept support_layers (2 / 2)
                       (layer_of Layers.Support current_price
                                 (len (map Main.close Scenario.window))
                                 (Some (map Main.volume Scenario.window)) c)).
Proof.
  do 5 eexists.
  assert (Hrun : forall r,
             r = Layers.find_layers (map Main.high Scenario.window)
                                    (map Main.low Scenario.window)
                                    (map Main.close Scenario.window)
                                    (Some (map Main.volume Scenario.window)) 0.1 2 ->
             Layers.find_layers (map Main.high Scenario.window)
                                (map Main.low Scenario.window)
                                (map Main.close Scenario.window)
                                (Some (map Main.volume Scenario.window)) 0.1 2
             = r) by (intros r ->; reflexivity).
  specialize (Hrun _ ltac:(vm_compute; reflexivity)).
  assert (Hlast : forall r,
             r = last_item (map Main.close Scenario.window) ->
             last_item (map Main.close Scenario.window) = r)
    by (intros r ->; reflexivity).
  specialize (Hlast _ ltac:(vm_compute; reflexivity)).
  assert (Hrc : forall r,
             r = Layers.cluster_levels
                   (Layers.detect_swing_highs (map Main.high Scenario.window) 2)
                   0.1 ->
             Layers.cluster_levels
               (Layers.detect_swing_highs (map Main.high Scenario.window) 2) 0.1
             = r) by (intros r ->; reflexivity).
  specialize (Hrc _ ltac:(vm_compute; reflexivity)).
  assert (Hsc : forall r,
             r = Layers.cluster_levels
                   (Layers.detect_swing_lows (map Main.low Scenario.window) 2)
                   0.1 ->
             Layers.cluster_levels
               (Layers.detect_swing_lows (map Main.low Scenario.window) 2) 0.1
             = r) by (intros r ->; reflexivity).
  specialize (Hsc _ ltac:(vm_compute; reflexivity)).
  refine (conj Hrun (conj _ (conj _
            (find_layers_keeps_best _ _ _ _ _ _ _ _ _ _ _ Hrun
               ltac:(vm_compute; discriminate) ltac:(lia) Hlast Hrc Hsc))));
    reflexivity.
Defined.

(** ** layers.py: what a layer's strength says about it *)

Lemma strength_three (cluster : Layers.Cluster) (total_bars : Z)
      (volumes : option (list Q)) :
  Layers.calculate_layer_strength cluster total_bars volumes = 3%Z ->
  (2 <= Layers.cl_touches cluster)%Z
  /\ (exists idx, In idx (Layers.cl_indices cluster)
                  /\ (total_bars - 20 <= Z.of_nat idx)%Z)
  /\ Layers.volume_factor cluster volumes = true.
Proof.
  unfold Layers.calculate_layer_strength.
  destruct (2 <=? Layers.cl_touches cluster)%Z eqn:Ht;
    destruct (existsb _ (Layers.cl_indices cluster)) eqn:Hr;
    destruct (Layers.volume_factor cluster volumes); cbn; try lia.
  intros _. split; [now apply Z.leb_le|]. split; [|reflexivity].
  apply existsb_exists in Hr as (idx & Hin & Hle).
  exists idx. split; [assumption | now apply Z.leb_le].
Qed.

Lemma volume_factor_needs_volumes (cluster : Layers.Cluster)
      (volumes : option (list Q)) :
  Layers.volume_factor cluster volumes = true ->
  exists v vs, volumes = Some (v :: vs).
Proof.
  unfold Layers.volume_factor. destruct volumes as [[|v vs]|]; try discriminate.
  intros _. now exists v, vs.
Qed.

Lemma find_layers_members (highs lows closes : list Q)
      (volumes : option (list Q)) (cluster_threshold : Q) (max_layers : Z)
      (rs ss : list Layers.Layer) (l : Layers.Layer) :
  Layers.find_layers highs lows closes volumes cluster_threshold max_layers
  = Ok (rs, ss) ->
  In l (rs ++ ss) ->
  exists side current_price cluster,
    l = layer_of side current_price (len closes) volumes cluster
    /\ touched cluster.
Proof.
  intros H Hin.
  destruct (Z_lt_ge_dec (len highs) 10) as [Hshort | Hlong].
  { rewrite (find_layers_short _ _ _ _ _ _ Hshort) in H. inversion H; subst.
    destruct Hin. }
  assert (Hlen : (10 <= len highs)%Z) by lia.
  destruct (find_layers_stages _ _ _ _ _ _ _ _ Hlen H)
    as (cp & rc & sc & _ & Hrc & Hsc & -> & ->).
  apply cluster_levels_touched in Hrc, Hsc. rewrite Forall_forall in Hrc, Hsc.
  apply in_app_or in Hin as [Hin | Hin];
    apply In_slice_to, In_sort_layers, in_map_iff in Hin as (c & <- & Hc);
    apply filter_In in Hc as [Hc _].
  - exists Layers.Resistance, cp, c. split; [reflexivity | now apply Hrc].
  - exists Layers.Support, cp, c. split; [reflexivity | now apply Hsc].
Qed.

(** X9.  Every layer [find_layers] returns has at least one touch, and it
    scores the full strength 3 only if it has at least two touches and
    volume data was passed: without volumes (the default [None], or an empty
    list) no layer scores more than 2, and a layer touched once never scores
    3. *)
Theorem full_strength_needs_touches_and_volume :
  forall (highs lows closes : list Q) (volumes : option (list Q))
         (cluster_threshold : Q) (max_layers : Z)
         (resistance_layers support_layers : list Layers.Layer)
         (l : Layers.Layer),
    Layers.find_layers highs lows closes volumes cluster_threshold max_layers
    = Ok (resistance_layers, support_layers) ->
    In l (resistance_layers ++ support_layers) ->
    (1 <= Layers.touches l)%Z
    /\ (Layers.strength l = 3%Z ->
        (2 <= Layers.touches l)%Z /\ exists v vs, volumes = Some (v :: vs)).
Proof.
  intros highs lows closes volumes t m rs ss l H Hin.
  destruct (find_layers_members _ _ _ _ _ _ _ _ _ H Hin)
    as (side & cp & c & -> & Hc).
  split; [exact Hc|]. cbn. intros Hs.
  apply strength_three in Hs as (Ht & _ & Hv).
  split; [assumption | now apply volume_factor_needs_volumes in Hv].
Qed.

Lemma full_strength_needs_touches_and_volume_witness :
  exists resistance_layers support_layers l,
    Layers.find_layers (map Main.high Scenario.window)
                       (map Main.low Scenario.window)
                       (map Main.close Scenario.window)
                       None 0.1 4
    = Ok (resistance_layers, support_layers)
    /\ In l (resistance_layers ++ support_layers)
    /\ (1 <= Layers.touches l)%Z
    /\ (Layers.strength l = 3%Z ->
        (2 <= Layers.touches l)%Z
        /\ exists v vs, @None (list Q) = Some (v :: vs)).
Proof.
  do 3 eexists.
  assert (Hrun : forall r,
             r = Layers.find_layers (map Main.high Scenario.window)
                                    (map Main.low Scenario.window)
                                    (map Main.close Scenario.window)
                                    None 0.1 4 ->
             Layers.find_layers (map Main.high Scenario.window)
                                (map Main.low Scenario.window)
                                (map Main.close Scenario.window)
                                None 0.1 4
             = r) by (intros r ->; reflexivity).
  specialize (Hrun _ ltac:(vm_compute; reflexivity)).
  assert (Hin : forall (x : Layers.Layer) xs ys, In x ((x :: xs) ++ ys))
    by (intros; now left).
  refine (conj Hrun (conj (Hin _ _ _)
            (full_strength_needs_touches_and_volume _ _ _ _ _ _ _ _ _ Hrun
               (Hin _ _ _)))).
Defined.

(** ** utils.py: the smoothed columns keep the sign of their input *)

Section Smoothing.
Import Pandas.

(** A property of numbers closed under the weighted averages of the
    exponentially weighted mean. *)
Variable P : Q -> Prop.
Hypothesis P_average :
  forall a x y, 0 <= a -> P x -> P y -> P ((a * x + 1 * y) / (a + 1)).

Variable alpha : Q.
Hypothesis alpha_le_1 : alpha <= 1.

Lemma ewm_step_holds (st : ewm_state) (cur : cell) :
  holds P (weighted st) -> 0 <= old_wt st -> holds P cur ->
  holds P (weighted (ewm_step alpha st cur)) /\ 0 <= old_wt (ewm_step alpha st cur).
Proof.
  intros Hw Ho Hc. unfold ewm_step.
  assert (Hd : 0 <= old_wt st * (1 - alpha))
    by (apply Qmult_le_0_compat; [assumption | lra]).
  destruct (weighted st) as [w|], cur as [x|]; cbn in *.
  - split; [now apply P_average | lra].
  - split; assumption.
  - split; assumption.
  - split; [exact I | assumption].
Qed.

Lemma ewm_emit_holds (minp : Z) (st : ewm_state) :
  holds P (weighted st) -> holds P (ewm_emit minp st).
Proof. unfold ewm_emit. destruct (minp <=? nobs st)%Z; [trivial | intros _; exact I]. Qed.

Lemma ewm_rows_holds (minp : Z) (s : column) :
  forall st,
    holds P (weighted st) -> 0 <= old_wt st -> Forall (holds P) s ->
    Forall (holds P) (ewm_rows alpha minp st s).
Proof.
  induction s as [|cur rest IH]; intros st Hw Ho Hs; cbn [ewm_rows];
    [constructor|].
  inversion Hs; subst.
  destruct (ewm_step_holds st cur Hw Ho) as [Hw' Ho']; [assumption|].
  constructor; [now apply ewm_emit_holds | now apply IH].
Qed.

(** On a column without NaN the last smoothed cell is a number as soon as
    [min_periods] rows were seen. *)
Lemma ewm_rows_last (minp : Z) (s : column) :
  forall st w,
    weighted st = Some w -> P w -> 0 <= old_wt st ->
    Forall (fun c => exists x, c = Some x /\ P x) s ->
    (minp <= nobs st + len s)%Z ->
    exists v,
      last_item (ewm_emit minp st :: ewm_rows alpha minp st s) = Ok (Some v)
      /\ P v.
Proof.
  induction s as [|cur rest IH]; intros st w Hw Hp Ho Hs Hn.
  - exists w. cbn in *. unfold ewm_emit.
    destruct (minp <=? nobs st)%Z eqn:E; [now rewrite Hw | lia].
  - inversion Hs as [|? ? (x & -> & Hx) Hrest]; subst.
    cbn [ewm_rows].
    assert (Hd : 0 <= old_wt st * (1 - alpha))
      by (apply Qmult_le_0_compat; [assumption | lra]).
    destruct (IH (ewm_step alpha st (Some x))
                 ((old_wt st * (1 - alpha) * w + 1 * x)
                  / (old_wt st * (1 - alpha) + 1)))
      as (v & Hv & Hpv).
    + unfold ewm_step. now rewrite Hw.
    + now apply P_average.
    + unfold ewm_step. rewrite Hw. cbn. lra.
    + assumption.
    + unfold ewm_step. rewrite Hw. cbn [nobs]. unfold len in *.
      cbn [length] in Hn. lia.
    + exists v. split; [|assumption]. rewrite <- Hv.
      unfold last_item. cbn [rev].
      destruct (rev (ewm_rows alpha minp (ewm_step alpha st (Some x)) rest)
                ++ [ewm_emit minp (ewm_step alpha st (Some x))])
        as [|y ys] eqn:E; [now destruct (rev _) in E|].
      reflexivity.
Qed.

End Smoothing.

Section Columns.
Import Pandas.

Lemma ewm_mean_alpha (alpha : Q) (min_periods : Z) (s out : column) :
  ewm_mean alpha min_periods s = Ok out -> 0 < alpha /\ alpha <= 1.
Proof.
  unfold ewm_mean.
  destruct (Py.leb alpha 0) eqn:E1; [discriminate|].
  destruct (Py.ltb 1 alpha) eqn:E2; [discriminate|]. intros _.
  apply leb_false_iff in E1. apply ltb_false_iff in E2. split; lra.
Qed.

Lemma ewm_mean_holds (P : Q -> Prop) (alpha : Q) (min_periods : Z)
      (s out : column) :
  (forall a x y, 0 <= a -> P x -> P y -> P ((a * x + 1 * y) / (a + 1))) ->
  ewm_mean alpha min_periods s = Ok out ->
  Forall (holds P) s -> Forall (holds P) out.
Proof.
  intros HP H Hs. destruct (ewm_mean_alpha _ _ _ _ H) as [Ha1 Ha2].
  unfold ewm_mean in H. destruct (Py.leb alpha 0 || Py.ltb 1 alpha)%bool;
    [discriminate|].
  destruct s as [|x0 rest]; inversion H; subst; [constructor|].
  inversion Hs; subst. constructor.
  - now apply ewm_emit_holds.
  - apply ewm_rows_holds; cbn; try assumption. lra.
Qed.

Lemma nonneg_average (a x y : Q) :
  0 <= a -> 0 <= x -> 0 <= y -> 0 <= (a * x + 1 * y) / (a + 1).
Proof.
  intros Ha Hx Hy. apply Qle_shift_div_l; [lra|].
  pose proof (Qmult_le_0_compat _ _ Ha Hx). lra.
Qed.

Lemma Forall_map2 {A B C : Type} (f : A -> B -> C) (PA : A -> Prop)
      (PC : C -> Prop) (xs : list A) (ys : list B) :
  (forall x y, PA x -> PC (f x y)) -> Forall PA xs -> Forall PC (map2 f xs ys).
Proof.
  intros Hf Hxs. revert ys. induction Hxs as [|x xs Hx _ IH]; intros [|y ys];
    cbn; constructor; auto.
Qed.

Lemma Forall_map2_both {A B C : Type} (f : A -> B -> C) (PA : A -> Prop)
      (PB : B -> Prop) (PC : C -> Prop) (xs : list A) (ys : list B) :
  (forall x y, PA x -> PB y -> PC (f x y)) ->
  Forall PA xs -> Forall PB ys -> Forall PC (map2 f xs ys).
Proof.
  intros Hf Hxs. revert ys. induction Hxs as [|x xs Hx _ IH]; intros [|y ys] Hys;
    cbn; constructor; inversion Hys; subst; auto.
Qed.

Lemma length_map2 {A B C : Type} (f : A -> B -> C) (xs : list A) (ys : list B) :
  length xs = length ys -> length (map2 f xs ys) = length xs.
Proof.
  revert ys. induction xs as [|x xs IH]; intros [|y ys]; cbn; try congruence.
  intros H. f_equal. apply IH. congruence.
Qed.

Lemma length_shift1 (s : column) : length (shift1 s) = length s.
Proof.
  destruct s as [|c s]; [reflexivity|]. unfold shift1. cbn [length].
  rewrite removelast_firstn_len, length_firstn. cbn [length]. lia.
Qed.

Lemma max_cell_number (a b : cell) :
  number (Qle 0) a -> number (Qle 0) (max_cell a b).
Proof.
  intros (x & -> & Hx). destruct b as [y|]; cbn; [|now exists x].
  destruct (Py.ltb x y) eqn:E; [|now exists x].
  apply ltb_true_iff in E. exists y. split; [reflexivity | lra].
Qed.

Lemma spread_number (highs lows : list Q) :
  Forall2 Qle lows highs ->
  Forall (number (Qle 0)) (sub (of_list highs) (of_list lows)).
Proof.
  induction 1 as [|l h lows highs Hle _ IH]; cbn; constructor; [|exact IH].
  exists (h - l). split; [reflexivity | lra].
Qed.

(** With [low <= high] on every bar the true range is a non-negative number
    on every row. *)
Lemma true_range_number (highs lows closes : list Q) :
  Forall2 Qle lows highs ->
  Forall (number (Qle 0))
         (Utils.true_range (of_list highs) (of_list lows) (of_list closes)).
Proof.
  intros H. unfold Utils.true_range, max_axis1.
  apply Forall_map2 with (PA := number (Qle 0)); [apply max_cell_number|].
  apply Forall_map2 with (PA := number (Qle 0)); [apply max_cell_number|].
  now apply spread_number.
Qed.

Lemma length_true_range (highs lows closes : list Q) :
  length highs = length lows -> length lows = length closes ->
  length (Utils.true_range (of_list highs) (of_list lows) (of_list closes))
  = length highs.
Proof.
  intros H1 H2. unfold Utils.true_range, max_axis1, sub, abs, of_list.
  repeat (rewrite ?length_map2, ?length_map, ?length_shift1;
          try congruence).
Qed.

Lemma number_holds (P : Q -> Prop) (s : column) :
  Forall (number P) s -> Forall (holds P) s.
Proof.
  apply Forall_impl. intros c (x & -> & Hx). exact Hx.
Qed.

Lemma data_frame_inv (highs lows closes : list Q) (high low close : column) :
  data_frame highs lows closes = Ok (high, low, close) ->
  high = of_list highs /\ low = of_list lows /\ close = of_list closes
  /\ length highs = length lows /\ length lows = length closes.
Proof.
  unfold data_frame.
  destruct (length highs =? length lows)%nat eqn:E1; [|discriminate].
  destruct (length lows =? length closes)%nat eqn:E2; [|discriminate].
  cbn. intros H; inversion H; subst.
  apply Nat.eqb_eq in E1, E2. repeat split; assumption.
Qed.

Lemma period_alpha (period : Z) :
  (1 <= period)%Z ->
  truediv 1 (inject_Z period) = Ok (1 / inject_Z period)
  /\ 0 < 1 / inject_Z period /\ 1 / inject_Z period <= 1.
Proof.
  intros Hp.
  assert (H1 : 1 <= inject_Z period)
    by (change 1 with (inject_Z 1); rewrite <- Zle_Qle; lia).
  split; [apply truediv_ok; lra|]. split.
  - apply Qlt_shift_div_l; lra.
  - apply Qle_shift_div_r; lra.
Qed.

(** The directional-movement columns hold non-negative numbers. *)
Lemma directional_movement_nonneg (move other : column) :
  Forall (holds (Qle 0))
         (where_ (band (gt move other) (gt_const move 0)) move 0).
Proof.
  unfold where_, band, gt, gt_const. revert other.
  induction move as [|m move IH]; intros [|o other]; cbn; try constructor.
  - destruct m as [x|], o as [y|]; cbn; try lra.
    destruct (Py.ltb y x); cbn; [|lra].
    destruct (Py.ltb 0 x) eqn:E; cbn; [|lra].
    apply ltb_true_iff in E. lra.
  - apply IH.
Qed.

Lemma directional_index_nonneg (smoothed atr : column) :
  Forall (holds (Qle 0)) smoothed -> Forall (holds (Qle 0)) atr ->
  Forall (holds (Qle 0)) (div (scale 100 smoothed) atr).
Proof.
  intros Hs Ha. unfold div, scale.
  apply Forall_map2_both with (PA := holds (Qle 0)) (PB := holds (Qle 0));
    [| |assumption].
  - intros [x|] [y|] Hx Hy; cbn in *; try exact I.
    destruct (Py.eqb y 0) eqn:E; cbn; [exact I|].
    apply eqb_false_iff in E.
    apply Qle_shift_div_l; lra.
  - apply Forall_map. revert Hs. apply Forall_impl.
    intros [x|] Hx; cbn in *; [lra | exact I].
Qed.

Lemma dx_cell_nonneg (a b : Q) :
  0 <= a -> 0 <= b ->
  holds (Qle 0)
        (div_cell (Some (100 * Qabs (a - b)))
                  (if Py.eqb (a + b) 0 then Some 1 else Some (a + b))).
Proof.
  intros Ha Hb.
  assert (Hn : 0 <= Qabs (a - b)) by apply Qabs_nonneg.
  destruct (Py.eqb (a + b) 0) eqn:E; unfold div_cell.
  - change (Py.eqb 1 0) with false. cbn [holds].
    apply Qle_shift_div_l; lra.
  - rewrite E. apply eqb_false_iff in E. cbn [holds].
    apply Qle_shift_div_l; lra.
Qed.

(** The directional index [dx] is NaN or not negative. *)
Lemma dx_nonneg (plus_di minus_di : column) :
  Forall (holds (Qle 0)) plus_di -> Forall (holds (Qle 0)) minus_di ->
  Forall (holds (Qle 0))
         (div (scale 100 (abs (sub plus_di minus_di)))
              (replace_zero_one (add plus_di minus_di))).
Proof.
  unfold div, scale, abs, sub, add, replace_zero_one.
  intros Hp. revert minus_di.
  induction Hp as [|p ps Hp _ IH]; intros [|m ms] Hm; cbn [map2 map];
    try constructor; inversion Hm; subst; [|now apply IH].
  destruct p as [a|], m as [b|]; cbn [lift2 option_map]; try exact I.
  now apply dx_cell_nonneg.
Qed.

Lemma last_item_In {A : Type} (xs : list A) (x : A) :
  last_item xs = Ok x -> In x xs.
Proof.
  unfold last_item. destruct (rev xs) as [|y ys] eqn:E; intros H; inversion H.
  subst. apply in_rev. rewrite E. now left.
Qed.

End Columns.

(** X10.  On a window of at least [period + 1] bars whose three columns have
    one length and whose bars have [low <= high], [calculate_atr] returns a
    number, never NaN, and that number is not negative. *)
Theorem calculate_atr_nonneg :
  forall (highs lows closes : list Q) (period : Z),
    (1 <= period)%Z ->
    (period + 1 <= len highs)%Z ->
    length lows = length closes ->
    Forall2 Qle lows highs ->
    exists atr,
      Utils.calculate_atr highs lows closes period = Ok (Some atr) /\ 0 <= atr.
Proof.
  intros highs lows closes period Hp Hn Hlc Hbars.
  assert (Hhl : length highs = length lows)
    by (symmetry; now apply Forall2_length in Hbars).
  unfold Utils.calculate_atr.
  destruct (len highs <? period + 1)%Z eqn:E; [lia|].
  unfold Pandas.data_frame.
  rewrite (proj2 (Nat.eqb_eq _ _) Hhl), (proj2 (Nat.eqb_eq _ _) Hlc).
  cbn [andb Py.bind].
  destruct (period_alpha period Hp) as (-> & Ha1 & Ha2). cbn [Py.bind].
  pose proof (true_range_number highs lows closes Hbars) as Htr.
  pose proof (length_true_range highs lows closes Hhl Hlc) as Hlen.
  unfold Pandas.ewm_mean.
  rewrite (proj2 (leb_false_iff _ _) Ha1), (proj2 (ltb_false_iff _ _) Ha2).
  cbn [orb Py.bind].
  destruct (Utils.true_range _ _ _) as [|x0 rest]; [cbn in Hlen; unfold len in Hn; lia|].
  inversion Htr as [|? ? (w & -> & Hw) Hrest]; subst.
  apply (ewm_rows_last (Qle 0) nonneg_average _ Ha2 _ rest _ w).
  - reflexivity.
  - exact Hw.
  - cbn. lra.
  - exact Hrest.
  - cbn [Pandas.nobs Pandas.is_observation]. unfold len in *.
    cbn [length] in Hlen. lia.
Qed.

Lemma calculate_atr_nonneg_witness :
  exists atr,
    Utils.calculate_atr [10; 12; 11; 13] [9; 10; 10; 11] [9.5; 11; 10.5; 12] 2
    = Ok (Some atr)
    /\ 0 <= atr.
Proof.
  apply (calculate_atr_nonneg [10; 12; 11; 13] [9; 10; 10; 11]
                              [9.5; 11; 10.5; 12] 2).
  - lia.
  - cbn. lia.
  - reflexivity.
  - repeat constructor; discriminate.
Defined.

(** X11.  Whenever [calculate_adx] returns a number on bars with
    [low <= high], that number is not negative, for every period (the
    sentinel 0.0 of a short window included): the directional movements, the
    smoothed true range and the directional index it averages are never
    negative. *)
Theorem calculate_adx_nonneg :
  forall (highs lows closes : list Q) (period : Z) (adx : Q),
    Forall2 Qle lows highs ->
    Utils.calculate_adx highs lows closes period = Ok (Some adx) ->
    0 <= adx.
Proof.
  intros highs lows closes period adx Hbars. unfold Utils.calculate_adx.
  destruct (len highs <? period * 2)%Z.
  { intros H; inversion H; subst. discriminate. }
  destruct (Pandas.data_frame highs lows closes) as [[[high low] close]|e] eqn:Hdf;
    cbn [Py.bind]; [|discriminate].
  apply data_frame_inv in Hdf as (-> & -> & -> & _ & _).
  destruct (truediv 1 (inject_Z period)) as [alpha|e]; cbn [Py.bind];
    [|discriminate].
  destruct (Pandas.ewm_mean alpha period (Utils.true_range _ _ _))
    as [atr|e] eqn:Hatr; cbn [Py.bind]; [|discriminate].
  destruct (Pandas.ewm_mean alpha period (Pandas.where_ _ (Pandas.diff _) 0))
    as [plus_s|e] eqn:Hplus; cbn [Py.bind]; [|discriminate].
  destruct (Pandas.ewm_mean alpha period (Pandas.where_ _ (Pandas.neg _) 0))
    as [minus_s|e] eqn:Hminus; cbn [Py.bind]; [|discriminate].
  destruct (Pandas.ewm_mean alpha period (Pandas.div _ _))
    as [col|e] eqn:Hadx; cbn [Py.bind]; [|discriminate].
  intros Hlast. apply last_item_In in Hlast.
  apply (ewm_mean_holds (Qle 0) _ _ _ _ nonneg_average) in Hatr;
    [|apply number_holds, true_range_number; assumption].
  apply (ewm_mean_holds (Qle 0) _ _ _ _ nonneg_average) in Hplus;
    [|apply directional_movement_nonneg].
  apply (ewm_mean_holds (Qle 0) _ _ _ _ nonneg_average) in Hminus;
    [|apply directional_movement_nonneg].
  apply (ewm_mean_holds (Qle 0) _ _ _ _ nonneg_average) in Hadx.
  - rewrite Forall_forall in Hadx. exact (Hadx _ Hlast).
  - apply dx_nonneg; now apply directional_index_nonneg.
Qed.

Lemma calculate_adx_nonneg_witness :
  exists adx,
    Utils.calculate_adx [10; 12; 11; 13; 14; 13] [9; 10; 8; 11; 12; 10]
                        [9.5; 11; 10.5; 12; 13; 12.5] 2
    = Ok (Some adx)
    /\ 0 <= adx.
Proof.
  eexists.
  assert (Hrun : forall r,
             r = Utils.calculate_adx [10; 12; 11; 13; 14; 13]
                                     [9; 10; 8; 11; 12; 10]
                                     [9.5; 11; 10.5; 12; 13; 12.5] 2 ->
             Utils.calculate_adx [10; 12; 11; 13; 14; 13] [9; 10; 8; 11; 12; 10]
                                 [9.5; 11; 10.5; 12; 13; 12.5] 2
             = r) by (intros r ->; reflexivity).
  specialize (Hrun _ ltac:(vm_compute; reflexivity)).
  refine (conj Hrun (calculate_adx_nonneg _ _ _ _ _ _ Hrun)).
  repeat constructor; discriminate.
Defined.

(** ** main.py: the rate-limit counters *)

Lemma can_call_api_value (now : Clock.datetime) (time_now : Q) (w : world) :
  can_call_api now time_now w
  = (Ok (negb (MAX_CALLS_PER_DAY
               <=? daily_calls (after_day_test now (bot w)))%Z
         && Py.leb COOLDOWN_SECONDS (time_now - last_api_call (bot w)))%bool,
     {| bot := after_day_test now (bot w);
        trace := trace w ++ reset_events now (bot w) |}).
Proof.
  unfold can_call_api, after_day_test, reset_events, bindM, get, modify, emit, ret.
  destruct w as [[lac dc dx lrd uc] tr]. cbn.
  destruct (Clock.day now =? lrd)%Z; cbn.
  - rewrite app_nil_r. destruct (MAX_CALLS_PER_DAY <=? dc)%Z; reflexivity.
  - reflexivity.
Qed.

(** Symbolic execution of the bot's monad down to the calls of its
    collaborators. *)
Ltac run_bot :=
  cbv beta iota zeta
      delta [bindM lift emit get modify log_api_call log_trade_signal
             send_borderline_alert send_high_confidence_alert ret bot trace
             fst snd daily_x_searches daily_calls last_api_call last_reset_day
             _update_count set_daily_x_searches set_daily_calls
             set_last_api_call set_update_count].

Ltac run_bot_in H :=
  cbv beta iota zeta
      delta [bindM lift emit get modify log_api_call log_trade_signal
             send_borderline_alert send_high_confidence_alert ret bot trace
             fst snd daily_x_searches daily_calls last_api_call last_reset_day
             _update_count set_daily_x_searches set_daily_calls
             set_last_api_call set_update_count] in H.

Ltac branch_bot :=
  repeat (run_bot;
          try match goal with
              | |- context [match ?x with Ok _ => _ | Raise _ => _ end] =>
                  destruct x eqn:?
              | |- context [if ?b then _ else _] => destruct b eqn:?
              end).

(** The decision stage touches one attribute only: it may charge one
    sentiment search, and only below the daily limit. *)
Lemma decide_frame (c : cycle) (current_price : Q) (result : Grok.technical)
      (w : world) :
  exists searches,
    bot (snd (decide c current_price result w))
    = set_daily_x_searches searches (bot w)
    /\ (searches = daily_x_searches (bot w)
        \/ ((daily_x_searches (bot w) < MAX_X_SEARCHES_PER_DAY)%Z
            /\ searches = (daily_x_searches (bot w) + 1)%Z)).
Proof.
  destruct w as [[lac dc dx lrd uc] tr]. unfold decide.
  branch_bot;
    try (exists dx; split; [reflexivity | left; reflexivity]);
    exists (dx + 1)%Z; (split; [reflexivity | right; split; [lia | reflexivity]]).
Qed.

(** The stage behind the gate charges the technical call before anything
    can fail. *)
Lemma analyse_frame (c : cycle) (current_price : Q) (near_layer : Layers.Layer)
      (atr adx : Pandas.cell) (market_status : status) (volume_ratio : Q)
      (w : world) :
  exists searches,
    bot (snd (analyse c current_price near_layer atr adx market_status
                      volume_ratio w))
    = set_daily_x_searches searches
        (set_daily_calls (daily_calls (bot w) + 1)
                         (set_last_api_call (time_at_call c) (bot w)))
    /\ (searches = daily_x_searches (bot w)
        \/ ((daily_x_searches (bot w) < MAX_X_SEARCHES_PER_DAY)%Z
            /\ searches = (daily_x_searches (bot w) + 1)%Z)).
Proof.
  destruct w as [[lac dc dx lrd uc] tr].
  remember (analyse c current_price near_layer atr adx market_status
                    volume_ratio _) as r eqn:Hr.
  unfold analyse in Hr. run_bot_in Hr.
  destruct (get_candles_summary (candles c)) as [summary|e]; run_bot_in Hr;
    subst r.
  - match goal with
    | |- context [decide ?c ?p ?r ?w] =>
        destruct (decide_frame c p r w) as (searches & -> & Hs)
    end.
    exists searches. split; [reflexivity | exact Hs].
  - exists dx. split; [reflexivity | now left].
Qed.

Lemma after_day_test_budget (now : Clock.datetime) (self : PepeScalpingBot) :
  within_budget self -> within_budget (after_day_test now self).
Proof.
  unfold after_day_test, within_budget.
  destruct (Clock.day now =? last_reset_day self)%Z; [trivial|].
  intros _. cbn. unfold MAX_X_SEARCHES_PER_DAY, MAX_CALLS_PER_DAY. lia.
Qed.

Lemma on_candle_budget (c : cycle) (w : world) :
  within_budget (bot w) -> within_budget (bot (snd (on_candle c w))).
Proof.
  intros Hw. unfold on_candle.
  destruct (len (candles c) <? 20)%Z; [exact Hw|].
  unfold bindM at 1, modify at 1.
  set (w1 := {| bot := set_update_count (_update_count (bot w) + 1) (bot w);
                trace := trace w |}).
  assert (H1 : within_budget (bot w1)) by exact Hw.
  clearbody w1. clear Hw w.
  unfold bindM at 1, lift at 1.
  destruct (survey (candles c)) as [found|e]; [|exact H1].
  destruct found as [[[[[current_price atr] adx] market_status] volume_ratio] near].
  destruct near as [near_layer|]; [|exact H1].
  unfold bindM at 1. rewrite can_call_api_value.
  pose proof (after_day_test_budget (utcnow c) _ H1) as H2.
  set (w2 := {| bot := after_day_test (utcnow c) (bot w1);
                trace := trace w1 ++ reset_events (utcnow c) (bot w1) |}).
  change (after_day_test (utcnow c) (bot w1)) with (bot w2) in H2 |- *.
  destruct (MAX_CALLS_PER_DAY <=? daily_calls (bot w2))%Z eqn:Hlimit;
    cbn [negb andb]; [exact H2|].
  destruct (Py.leb COOLDOWN_SECONDS _); cbn [negb]; [|exact H2].
  destruct (analyse_frame c current_price near_layer atr adx market_status
                          volume_ratio w2) as (searches & -> & Hs).
  apply Z.leb_gt in Hlimit. revert H2 Hs Hlimit. clearbody w2.
  destruct w2 as [[lac dc dx lrd uc] tr]. unfold within_budget. cbn. lia.
Qed.

Lemma stream_budget (updates : list cycle) :
  forall w,
    within_budget (bot w) -> within_budget (bot (stream_candles updates w)).
Proof.
  induction updates as [|c rest IH]; intros w Hw; cbn [stream_candles];
    [exact Hw|].
  destruct (candles c); [now apply IH|].
  apply IH. now apply on_candle_budget.
Qed.

(** X12.  However long the stream of candle updates and whatever the oracles
    answer, the bot started by [__init__] never has more than
    [MAX_CALLS_PER_DAY] technical calls or [MAX_X_SEARCHES_PER_DAY] sentiment
    searches on its daily counters, and never more searches than calls. *)
Theorem budget_never_exceeded :
  forall (now : Clock.datetime) (updates : list cycle),
    let self := bot (stream_candles updates {| bot := init now; trace := [] |}) in
    (0 <= daily_x_searches self <= MAX_X_SEARCHES_PER_DAY)%Z
    /\ (daily_x_searches self <= daily_calls self <= MAX_CALLS_PER_DAY)%Z.
Proof.
  intros now updates. apply (stream_budget updates).
  unfold within_budget. cbn. unfold MAX_X_SEARCHES_PER_DAY, MAX_CALLS_PER_DAY. lia.
Qed.

(** ** main.py: a candle update that asks the technical oracle *)

(** The stage behind the gate, run on a state. *)
Lemma analyse_run (c : cycle) (current_price : Q) (near_layer : Layers.Layer)
      (atr adx : Pandas.cell) (market_status : status) (volume_ratio : Q)
      (w : world) :
  let self' := set_daily_calls (daily_calls (bot w) + 1)
                 (set_last_api_call (time_at_call c) (bot w)) in
  let usage := ApiUsageLogged "technical" 0.00028 (daily_calls self')
                              (daily_x_searches self') in
  analyse c current_price near_layer atr adx market_status volume_ratio w
  = match get_candles_summary (candles c) with
    | Ok summary =>
        let request := technical_request_of current_price near_layer atr adx
                         market_status volume_ratio summary in
        decide c current_price (technical_oracle c request)
               {| bot := self';
                  trace := trace w ++ [usage; TechnicalOracleCalled request] |}
    | Raise e => (Raise e, {| bot := self'; trace := trace w ++ [usage] |})
    end.
Proof.
  destruct w as [[lac dc dx lrd uc] tr]. unfold analyse, technical_request_of.
  run_bot. destruct (get_candles_summary (candles c)) as [summary|e]; run_bot.
  - now rewrite <- app_assoc.
  - reflexivity.
Qed.

Lemma not_in_reset_events (now : Clock.datetime) (self : PepeScalpingBot)
      (request : technical_request) :
  ~ In (TechnicalOracleCalled request) (reset_events now self).
Proof.
  unfold reset_events. destruct (Clock.day now =? last_reset_day self)%Z;
    cbn; intuition discriminate.
Qed.

Lemma after_day_test_counted (now : Clock.datetime) (v : Z)
      (self : PepeScalpingBot) :
  daily_calls (after_day_test now (set_update_count v self))
  = daily_calls (after_day_test now self)
  /\ daily_x_searches (after_day_test now (set_update_count v self))
     = daily_x_searches (after_day_test now self)
  /\ last_api_call (after_day_test now (set_update_count v self))
     = last_api_call self.
Proof.
  unfold after_day_test. cbn [last_reset_day set_update_count].
  destruct (Clock.day now =? last_reset_day self)%Z; repeat split.
Qed.

Lemma survey_price (cs : list Candle) (current_price : Q)
      (atr adx : Pandas.cell) (market_status : status) (volume_ratio : Q)
      (near : option Layers.Layer) :
  survey cs = Ok (current_price, atr, adx, market_status, volume_ratio, near) ->
  last_item (map close cs) = Ok current_price.
Proof.
  unfold survey, get_ohlcv_lists. intros H.
  destruct (last_item (map close cs)) as [cp|e]; cbn [Py.bind] in H;
    [|discriminate].
  destruct (Utils.calculate_atr _ _ _ _) as [a|e]; cbn [Py.bind] in H;
    [|discriminate].
  destruct (Utils.calculate_adx _ _ _ _) as [d|e]; cbn [Py.bind] in H;
    [|discriminate].
  destruct (volume_ratio_of _) as [vr|e]; cbn [Py.bind] in H; [|discriminate].
  destruct (Layers.find_layers _ _ _ _ _ _) as [[rs ss]|e];
    cbn [Py.bind] in H; [|discriminate].
  now inversion H.
Qed.

(** A candle update that asks the technical oracle passed the gate, charged
    the call and hands the reply to the decision stage. *)
Lemma on_candle_gate (c : cycle) (self : PepeScalpingBot)
      (request : technical_request) :
  In (TechnicalOracleCalled request) (events_of c self) ->
  exists current_price,
    ~ current_price == 0
    /\ last_item (map close (candles c)) = Ok current_price
    /\ (20 <= len (candles c))%Z
    /\ (daily_calls (after_day_test (utcnow c) self) < MAX_CALLS_PER_DAY)%Z
    /\ COOLDOWN_SECONDS <= time_at_gate c - last_api_call self
    /\ on_candle c {| bot := self; trace := [] |}
       = decide c current_price (technical_oracle c request)
                {| bot := charged c self;
                   trace :=
                     reset_events (utcnow c) self
                     ++ [ApiUsageLogged "technical" 0.00028
                                        (daily_calls (charged c self))
                                        (daily_x_searches (charged c self));
                         TechnicalOracleCalled request] |}.
Proof.
  unfold events_of, on_candle. intros Hin.
  destruct (len (candles c) <? 20)%Z eqn:Hlen; [destruct Hin|].
  apply Z.ltb_ge in Hlen.
  unfold bindM at 1, modify at 1 in Hin. unfold bindM at 1, modify at 1.
  cbn [bot trace] in Hin |- *.
  unfold bindM at 1, lift at 1 in Hin. unfold bindM at 1, lift at 1.
  destruct (survey (candles c)) as [found|e] eqn:Hsurvey; [|destruct Hin].
  destruct found as [[[[[current_price atr] adx] market_status] volume_ratio] near].
  destruct near as [near_layer|]; [|destruct Hin].
  pose proof (survey_price _ _ _ _ _ _ _ Hsurvey) as Hclose.
  apply survey_price_nonzero in Hsurvey.
  unfold bindM at 1 in Hin. unfold bindM at 1.
  rewrite can_call_api_value in Hin |- *. cbn [bot trace app] in Hin |- *.
  destruct (after_day_test_counted (utcnow c) (_update_count self + 1) self)
    as (Hcalls & _ & Hlast).
  change (reset_events (utcnow c)
            (set_update_count (_update_count self + 1) self))
    with (reset_events (utcnow c) self) in Hin |- *.
  change (last_api_call (set_update_count (_update_count self + 1) self))
    with (last_api_call self) in Hin |- *.
  rewrite Hcalls in Hin |- *.
  destruct (MAX_CALLS_PER_DAY <=? daily_calls (after_day_test (utcnow c) self))%Z
    eqn:Hlimit; cbn [negb andb] in Hin |- *.
  { cbn in Hin. now apply not_in_reset_events in Hin. }
  apply Z.leb_gt in Hlimit.
  destruct (Py.leb COOLDOWN_SECONDS (time_at_gate c - last_api_call self))
    eqn:Hcool; cbn [negb] in Hin |- *.
  2:{ cbn in Hin. now apply not_in_reset_events in Hin. }
  apply leb_true_iff in Hcool.
  rewrite analyse_run in Hin |- *. cbv zeta in Hin |- *. cbn [bot trace] in Hin |- *.
  destruct (get_candles_summary (candles c)) as [summary|e].
  2:{ cbn [snd trace] in Hin. apply in_app_or in Hin as [Hin | [Hin | []]];
      [now apply not_in_reset_events in Hin | discriminate]. }
  set (rq := technical_request_of current_price near_layer atr adx market_status
                                  volume_ratio summary) in *.
  assert (Hreq : request = rq).
  { match type of Hin with
    | In _ (trace (snd (decide ?c ?p ?r ?w))) =>
        destruct (decide_calm c p r w) as (evs & Ht & Hcalm & _)
    end.
    rewrite Ht in Hin. cbn [trace] in Hin.
    apply in_app_or in Hin as [Hin | Hin].
    - apply in_app_or in Hin as [Hin | [Hin | [Hin | []]]].
      + now apply not_in_reset_events in Hin.
      + discriminate.
      + now inversion Hin.
    - rewrite forallb_forall in Hcalm. specialize (Hcalm _ Hin). discriminate. }
  subst request. exists current_price.
  repeat (split; [assumption|]). reflexivity.
Qed.

(** ** main.py: the decision stage, branch by branch *)

Lemma decide_low (c : cycle) (current_price : Q) (result : Grok.technical)
      (w : world) :
  (Grok.confidence result < MIN_CONFIDENCE)%Z ->
  decide c current_price result w = (Ok tt, w).
Proof.
  intros H. unfold decide. apply Z.ltb_lt in H. now rewrite H.
Qed.

Lemma decide_high (c : cycle) (current_price : Q) (result : Grok.technical)
      (w : world) :
  ~ current_price == 0 ->
  (HIGH_CONFIDENCE <= Grok.confidence result)%Z ->
  exists size,
    Utils.calculate_position_size ACCOUNT_BALANCE MAX_RISK_PERCENT
                                  current_price (Grok.sl result) LEVERAGE
    = Ok size
    /\ decide c current_price result w
       = (Ok tt,
          {| bot := bot w;
             trace :=
               trace w
               ++ [PositionSizeComputed current_price (Grok.sl result) size;
                   TradeSignalLogged (Grok.direction result) current_price
                                     (Grok.tp result) (Grok.sl result)
                                     (Grok.confidence result);
                   HighConfidenceAlert (Grok.direction result) current_price
                                       (Grok.tp result) (Grok.sl result) size
                                       (Grok.confidence result)] |}).
Proof.
  intros Hp Hhigh. destruct w as [self tr].
  destruct (size_defined ACCOUNT_BALANCE MAX_RISK_PERCENT current_price
                         (Grok.sl result) LEVERAGE Hp) as [size Hsize].
  destruct (alert_percentages_defined current_price (Grok.tp result)
                                      (Grok.sl result) Hp) as [pc Hpc].
  exists size. split; [exact Hsize|]. unfold decide.
  assert (Hmin : (Grok.confidence result <? MIN_CONFIDENCE)%Z = false)
    by (apply Z.ltb_ge; unfold MIN_CONFIDENCE, HIGH_CONFIDENCE in *; lia).
  apply Z.leb_le in Hhigh. rewrite Hmin.
  unfold bindM at 1, lift at 1. rewrite Hsize. run_bot. rewrite Hhigh. run_bot.
  rewrite Hpc. run_bot. now rewrite <- !app_assoc.
Qed.

Lemma decide_exhausted (c : cycle) (current_price : Q) (result : Grok.technical)
      (w : world) :
  ~ current_price == 0 ->
  (MIN_CONFIDENCE <= Grok.confidence result < HIGH_CONFIDENCE)%Z ->
  (MAX_X_SEARCHES_PER_DAY <= daily_x_searches (bot w))%Z ->
  exists size,
    decide c current_price result w
    = (Ok tt,
       {| bot := bot w;
          trace :=
            trace w
            ++ [PositionSizeComputed current_price (Grok.sl result) size] |}).
Proof.
  intros Hp [Hmin Hhigh] Hx. destruct w as [[lac dc dx lrd uc] tr].
  cbn [bot daily_x_searches trace] in *.
  destruct (size_defined ACCOUNT_BALANCE MAX_RISK_PERCENT current_price
                         (Grok.sl result) LEVERAGE Hp) as [size Hsize].
  exists size. unfold decide.
  apply Z.ltb_ge in Hmin. apply Z.leb_gt in Hhigh. apply Z.leb_le in Hx.
  rewrite Hmin. unfold bindM at 1, lift at 1. rewrite Hsize. run_bot.
  rewrite Hhigh. run_bot. rewrite Hx. reflexivity.
Qed.

Lemma calm_no_technical_call (evs : list event) :
  forallb calm evs = true -> filter is_technical_call evs = [].
Proof.
  induction evs as [|e evs IH]; cbn; [reflexivity|].
  intros H. apply andb_true_iff in H as [He H]. rewrite (IH H).
  unfold calm in He. destruct (is_technical_call e); [|reflexivity].
  now rewrite orb_true_r in He.
Qed.

Lemma reset_events_quiet (now : Clock.datetime) (self : PepeScalpingBot) :
  filter is_technical_call (reset_events now self) = []
  /\ filter is_sentiment_call (reset_events now self) = []
  /\ filter is_position_size (reset_events now self) = []
  /\ filter is_alert (reset_events now self) = [].
Proof.
  unfold reset_events. destruct (Clock.day now =? last_reset_day self)%Z;
    repeat split.
Qed.

Lemma charged_attributes (c : cycle) (self : PepeScalpingBot) :
  last_api_call (charged c self) = time_at_call c
  /\ daily_calls (charged c self)
     = (daily_calls (after_day_test (utcnow c) self) + 1)%Z
  /\ daily_x_searches (charged c self)
     = daily_x_searches (after_day_test (utcnow c) self).
Proof.
  unfold charged. cbv zeta.
  destruct (after_day_test_counted (utcnow c) (_update_count self + 1) self)
    as (H1 & H2 & _).
  cbn [last_api_call daily_calls daily_x_searches set_daily_calls
       set_last_api_call].
  now rewrite H1, H2.
Qed.

(** X13.  A candle update asks the technical oracle at most once, and only
    when the window holds at least 20 candles, the daily counter (after the
    day test) is below [MAX_CALLS_PER_DAY] and at least [COOLDOWN_SECONDS]
    have passed since the stored time of the last call; the update then
    stores the time of the call and charges it, whatever the reply and
    whatever fails afterwards. *)
Theorem oracle_call_respects_limits :
  forall (c : cycle) (self : PepeScalpingBot) (request : technical_request),
    In (TechnicalOracleCalled request) (events_of c self) ->
    let self' := bot (snd (on_candle c {| bot := self; trace := [] |})) in
    (20 <= len (candles c))%Z
    /\ COOLDOWN_SECONDS <= time_at_gate c - last_api_call self
    /\ (daily_calls (after_day_test (utcnow c) self) < MAX_CALLS_PER_DAY)%Z
    /\ count is_technical_call (events_of c self) = 1%nat
    /\ last_api_call self' = time_at_call c
    /\ daily_calls self'
       = (daily_calls (after_day_test (utcnow c) self) + 1)%Z.
Proof.
  intros c self request Hin.
  destruct (on_candle_gate c self request Hin)
    as (cp & _ & _ & Hlen & Hlimit & Hcool & Hrun).
  unfold events_of. rewrite Hrun. clear Hrun Hin. cbv zeta.
  repeat (split; [assumption|]).
  match goal with
  | |- context [decide ?c ?p ?r ?w] =>
      destruct (decide_calm c p r w) as (evs & -> & Hcalm & _);
      destruct (decide_frame c p r w) as (searches & -> & _)
  end.
  destruct (charged_attributes c self) as (Hl & Hc & _).
  split; [|split; [exact Hl | exact Hc]].
  cbn [trace]. unfold count. rewrite !filter_app.
  rewrite (calm_no_technical_call evs Hcalm).
  destruct (reset_events_quiet (utcnow c) self) as (-> & _). reflexivity.
Qed.

Lemma oracle_call_respects_limits_witness :
  exists request,
    In (TechnicalOracleCalled request) (events_of (update jan7 1000) (init jan5))
    /\ (20 <= len (candles (update jan7 1000)))%Z
    /\ COOLDOWN_SECONDS
       <= time_at_gate (update jan7 1000) - last_api_call (init jan5)
    /\ (daily_calls (after_day_test (utcnow (update jan7 1000)) (init jan5))
        < MAX_CALLS_PER_DAY)%Z
    /\ count is_technical_call (events_of (update jan7 1000) (init jan5)) = 1%nat
    /\ last_api_call
         (bot (snd (on_candle (update jan7 1000)
                              {| bot := init jan5; trace := [] |})))
       = time_at_call (update jan7 1000)
    /\ daily_calls
         (bot (snd (on_candle (update jan7 1000)
                              {| bot := init jan5; trace := [] |})))
       = (daily_calls (after_day_test (utcnow (update jan7 1000)) (init jan5))
          + 1)%Z.
Proof.
  assert (Hcall : exists request,
             In (TechnicalOracleCalled request)
                (events_of (update jan7 1000) (init jan5))).
  { eexists. vm_compute. right. right. left. reflexivity. }
  destruct Hcall as (request & Hin).
  exists request.
  exact (conj Hin (oracle_call_respects_limits (update jan7 1000) (init jan5)
                                               request Hin)).
Defined.

(** ** main.py: what a candle update does with the oracle's confidence *)

Lemma decide_confirmed (c : cycle) (current_price : Q) (result : Grok.technical)
      (w : world) :
  ~ current_price == 0 ->
  (MIN_CONFIDENCE <= Grok.confidence result < HIGH_CONFIDENCE)%Z ->
  (daily_x_searches (bot w) < MAX_X_SEARCHES_PER_DAY)%Z ->
  let request := sentiment_request_of current_price result in
  let reply := sentiment_oracle c request in
  exists size,
    Utils.calculate_position_size ACCOUNT_BALANCE MAX_RISK_PERCENT
                                  current_price (Grok.sl result) LEVERAGE
    = Ok size
    /\ decide c current_price result w
       = (Ok tt,
          {| bot := set_daily_x_searches (daily_x_searches (bot w) + 1) (bot w);
             trace :=
               trace w
               ++ [PositionSizeComputed current_price (Grok.sl result) size;
                   ApiUsageLogged "x_search" 0.005 (daily_calls (bot w))
                                  (daily_x_searches (bot w) + 1);
                   SentimentOracleCalled request]
               ++ (if take_trade reply
                   then [TradeSignalLogged (Grok.direction result) current_price
                                           (Grok.tp result) (Grok.sl result)
                                           (Grok.confidence result);
                         BorderlineAlert (Grok.direction result) current_price
                                         (Grok.tp result) (Grok.sl result) size
                                         (Grok.confidence result) reply]
                   else []) |}).
Proof.
  intros Hp [Hmin Hhigh] Hx request reply.
  destruct w as [[lac dc dx lrd uc] tr].
  cbv beta iota delta [bot trace daily_x_searches daily_calls] in *.
  destruct (size_defined ACCOUNT_BALANCE MAX_RISK_PERCENT current_price
                         (Grok.sl result) LEVERAGE Hp) as [size Hsize].
  destruct (alert_percentages_defined current_price (Grok.tp result)
                                      (Grok.sl result) Hp) as [pc Hpc].
  exists size. split; [exact Hsize|]. unfold decide.
  apply Z.ltb_ge in Hmin. rewrite Hmin.
  assert (Hh : (HIGH_CONFIDENCE <=? Grok.confidence result)%Z = false)
    by (apply Z.leb_gt; exact Hhigh).
  assert (Hb : (MAX_X_SEARCHES_PER_DAY <=? dx)%Z = false)
    by (apply Z.leb_gt; exact Hx).
  unfold bindM at 1, lift at 1. rewrite Hsize. run_bot.
  rewrite Hh. run_bot. rewrite Hb. run_bot.
  change {| sq_direction := Grok.direction result;
            sq_confidence := Grok.confidence result;
            sq_price := current_price;
            sq_tp := Grok.tp result;
            sq_sl := Grok.sl result |} with request.
  change (sentiment_oracle c request) with reply.
  destruct (take_trade reply); run_bot.
  - rewrite Hpc. run_bot. now rewrite <- !app_assoc.
  - now rewrite <- !app_assoc.
Qed.

(** X14.  When the technical oracle's confidence is at least
    [HIGH_CONFIDENCE], the candle update sends exactly one alert, the
    high-confidence one, at the last close and with the size the position
    sizer gives for the reply's stop-loss; it asks no sentiment and charges no
    search.  The reply's direction plays no part: a SKIP is alerted too. *)
Theorem high_confidence_cycle :
  forall (c : cycle) (self : PepeScalpingBot) (request : technical_request),
    In (TechnicalOracleCalled request) (events_of c self) ->
    (HIGH_CONFIDENCE <= Grok.confidence (technical_oracle c request))%Z ->
    let result := technical_oracle c request in
    exists current_price size,
      last_item (map close (candles c)) = Ok current_price
      /\ Utils.calculate_position_size ACCOUNT_BALANCE MAX_RISK_PERCENT
                                       current_price (Grok.sl result) LEVERAGE
         = Ok size
      /\ filter is_alert (events_of c self)
         = [HighConfidenceAlert (Grok.direction result) current_price
                                (Grok.tp result) (Grok.sl result) size
                                (Grok.confidence result)]
      /\ count is_sentiment_call (events_of c self) = 0%nat
      /\ daily_x_searches (bot (snd (on_candle c {| bot := self; trace := [] |})))
         = daily_x_searches (after_day_test (utcnow c) self).
Proof.
  intros c self request Hin Hhigh result.
  destruct (on_candle_gate c self request Hin)
    as (cp & Hp & Hclose & _ & _ & _ & Hrun).
  unfold events_of. rewrite Hrun. clear Hrun Hin.
  match goal with
  | |- context [decide ?c ?p ?r ?w] =>
      destruct (decide_high c p r w Hp Hhigh) as (size & Hsize & ->)
  end.
  exists cp, size. cbn [snd bot trace].
  destruct (charged_attributes c self) as (_ & _ & Hx).
  destruct (reset_events_quiet (utcnow c) self) as (_ & Hs & _ & Ha).
  repeat split; try assumption.
  - rewrite !filter_app, Ha. reflexivity.
  - unfold count. rewrite !filter_app, Hs. reflexivity.
Qed.

Lemma high_confidence_cycle_witness :
  exists request current_price size,
    In (TechnicalOracleCalled request)
       (events_of (Cycles.cycle_with bracketless_reply rejection jan7 1000)
                  (init jan5))
    /\ Grok.confidence
         (technical_oracle (Cycles.cycle_with bracketless_reply rejection
                                              jan7 1000) request) = 85%Z
    /\ last_item (map close (candles (Cycles.cycle_with bracketless_reply
                                                        rejection jan7 1000)))
       = Ok current_price
    /\ Utils.calculate_position_size
         ACCOUNT_BALANCE MAX_RISK_PERCENT current_price
         (Grok.sl (technical_oracle
                     (Cycles.cycle_with bracketless_reply rejection jan7 1000)
                     request)) LEVERAGE
       = Ok size
    /\ filter is_alert
         (events_of (Cycles.cycle_with bracketless_reply rejection jan7 1000)
                    (init jan5))
       = [HighConfidenceAlert
            (Grok.direction
               (technical_oracle
                  (Cycles.cycle_with bracketless_reply rejection jan7 1000)
                  request))
            current_price
            (Grok.tp
               (technical_oracle
                  (Cycles.cycle_with bracketless_reply rejection jan7 1000)
                  request))
            (Grok.sl
               (technical_oracle
                  (Cycles.cycle_with bracketless_reply rejection jan7 1000)
                  request))
            size
            (Grok.confidence
               (technical_oracle
                  (Cycles.cycle_with bracketless_reply rejection jan7 1000)
                  request))]
    /\ count is_sentiment_call
         (events_of (Cycles.cycle_with bracketless_reply rejection jan7 1000)
                    (init jan5)) = 0%nat
    /\ daily_x_searches
         (bot (snd (on_candle
                      (Cycles.cycle_with bracketless_reply rejection jan7 1000)
                      {| bot := init jan5; trace := [] |})))
       = daily_x_searches
           (after_day_test
              (utcnow (Cycles.cycle_with bracketless_reply rejection jan7 1000))
              (init jan5)).
Proof.
  assert (Hcall : exists request,
             In (TechnicalOracleCalled request)
                (events_of (Cycles.cycle_with bracketless_reply rejection
                                              jan7 1000) (init jan5))
             /\ Grok.confidence
                  (technical_oracle
                     (Cycles.cycle_with bracketless_reply rejection jan7 1000)
                     request) = 85%Z).
  { eexists. split.
    - vm_compute. right. right. left. reflexivity.
    - vm_compute. reflexivity. }
  destruct Hcall as (request & Hin & Hconf).
  assert (Hhigh : (HIGH_CONFIDENCE
                   <= Grok.confidence
                        (technical_oracle
                           (Cycles.cycle_with bracketless_reply rejection
                                              jan7 1000) request))%Z)
    by (rewrite Hconf; discriminate).
  destruct (high_confidence_cycle _ (init jan5) request Hin Hhigh)
    as (cp & size & H).
  exists request, cp, size. exact (conj Hin (conj Hconf H)).
Defined.

(** X15.  When the technical oracle's confidence is below [MIN_CONFIDENCE],
    the candle update stops there: no position size is computed, no
    sentiment is asked and no alert goes out.  The technical call stays
    charged on the daily counter. *)
Theorem low_confidence_cycle :
  forall (c : cycle) (self : PepeScalpingBot) (request : technical_request),
    In (TechnicalOracleCalled request) (events_of c self) ->
    (Grok.confidence (technical_oracle c request) < MIN_CONFIDENCE)%Z ->
    count is_position_size (events_of c self) = 0%nat
    /\ count is_sentiment_call (events_of c self) = 0%nat
    /\ count is_alert (events_of c self) = 0%nat
    /\ daily_calls (bot (snd (on_candle c {| bot := self; trace := [] |})))
       = (daily_calls (after_day_test (utcnow c) self) + 1)%Z
    /\ daily_x_searches (bot (snd (on_candle c {| bot := self; trace := [] |})))
       = daily_x_searches (after_day_test (utcnow c) self).
Proof.
  intros c self request Hin Hlow.
  destruct (on_candle_gate c self request Hin)
    as (cp & _ & _ & _ & _ & _ & Hrun).
  unfold events_of. rewrite Hrun. clear Hrun Hin.
  rewrite (decide_low _ _ _ _ Hlow). cbn [snd bot trace].
  destruct (charged_attributes c self) as (_ & Hc & Hx).
  destruct (reset_events_quiet (utcnow c) self) as (_ & Hs & Hp & Ha).
  unfold count. rewrite !filter_app, Hs, Hp, Ha.
  repeat split; assumption.
Qed.

Lemma low_confidence_cycle_witness :
  exists request,
    In (TechnicalOracleCalled request)
       (events_of (Cycles.cycle_with Cycles.hesitant_reply rejection jan7 1000)
                  (init jan5))
    /\ Grok.confidence
         (technical_oracle
            (Cycles.cycle_with Cycles.hesitant_reply rejection jan7 1000)
            request) = 40%Z
    /\ count is_position_size
         (events_of (Cycles.cycle_with Cycles.hesitant_reply rejection
                                       jan7 1000) (init jan5)) = 0%nat
    /\ count is_sentiment_call
         (events_of (Cycles.cycle_with Cycles.hesitant_reply rejection
                                       jan7 1000) (init jan5)) = 0%nat
    /\ count is_alert
         (events_of (Cycles.cycle_with Cycles.hesitant_reply rejection
                                       jan7 1000) (init jan5)) = 0%nat
    /\ daily_calls
         (bot (snd (on_candle
                      (Cycles.cycle_with Cycles.hesitant_reply rejection
                                         jan7 1000)
                      {| bot := init jan5; trace := [] |})))
       = (daily_calls
            (after_day_test
               (utcnow (Cycles.cycle_with Cycles.hesitant_reply rejection
                                          jan7 1000))
               (init jan5)) + 1)%Z
    /\ daily_x_searches
         (bot (snd (on_candle
                      (Cycles.cycle_with Cycles.hesitant_reply rejection
                                         jan7 1000)
                      {| bot := init jan5; trace := [] |})))
       = daily_x_searches
           (after_day_test
              (utcnow (Cycles.cycle_with Cycles.hesitant_reply rejection
                                         jan7 1000))
              (init jan5)).
Proof.
  assert (Hcall : exists request,
             In (TechnicalOracleCalled request)
                (events_of (Cycles.cycle_with Cycles.hesitant_reply rejection
                                              jan7 1000) (init jan5))
             /\ Grok.confidence
                  (technical_oracle
                     (Cycles.cycle_with Cycles.hesitant_reply rejection
                                        jan7 1000) request) = 40%Z).
  { eexists. split.
    - vm_compute. right. right. left. reflexivity.
    - vm_compute. reflexivity. }
  destruct Hcall as (request & Hin & Hconf).
  assert (Hlow : (Grok.confidence
                    (technical_oracle
                       (Cycles.cycle_with Cycles.hesitant_reply rejection
                                          jan7 1000) request)
                  < MIN_CONFIDENCE)%Z)
    by (rewrite Hconf; reflexivity).
  exists request.
  exact (conj Hin (conj Hconf (low_confidence_cycle _ (init jan5) request
                                                    Hin Hlow))).
Defined.

(** X16.  A borderline reply (confidence in [60,80)) met with an exhausted
    search budget (the counter, after the day test, at
    [MAX_X_SEARCHES_PER_DAY] or above) is dropped: the sentiment oracle is
    not asked, no alert goes out and the search counter stays as it was; the
    position size has been computed all the same. *)
Theorem exhausted_search_budget :
  forall (c : cycle) (self : PepeScalpingBot) (request : technical_request),
    In (TechnicalOracleCalled request) (events_of c self) ->
    (MIN_CONFIDENCE <= Grok.confidence (technical_oracle c request)
     < HIGH_CONFIDENCE)%Z ->
    (MAX_X_SEARCHES_PER_DAY
     <= daily_x_searches (after_day_test (utcnow c) self))%Z ->
    count is_sentiment_call (events_of c self) = 0%nat
    /\ count is_alert (events_of c self) = 0%nat
    /\ count is_position_size (events_of c self) = 1%nat
    /\ daily_x_searches (bot (snd (on_candle c {| bot := self; trace := [] |})))
       = daily_x_searches (after_day_test (utcnow c) self).
Proof.
  intros c self request Hin Hband Hx.
  destruct (on_candle_gate c self request Hin)
    as (cp & Hp & _ & _ & _ & _ & Hrun).
  unfold events_of. rewrite Hrun. clear Hrun Hin.
  destruct (charged_attributes c self) as (_ & _ & Hxc).
  match goal with
  | |- context [decide ?c ?p ?r ?w] =>
      destruct (decide_exhausted c p r w Hp Hband) as (size & ->);
        [cbn [bot]; rewrite Hxc; exact Hx|]
  end.
  cbn [snd bot trace].
  destruct (reset_events_quiet (utcnow c) self) as (_ & Hs & Hps & Ha).
  unfold count. rewrite !filter_app, Hs, Hps, Ha.
  repeat split; assumption.
Qed.

Lemma exhausted_search_budget_witness :
  exists request,
    In (TechnicalOracleCalled request)
       (events_of (update jan7 1000) (Cycles.searched_out jan7))
    /\ Grok.confidence (technical_oracle (update jan7 1000) request) = 65%Z
    /\ daily_x_searches
         (after_day_test (utcnow (update jan7 1000)) (Cycles.searched_out jan7))
       = 100%Z
    /\ count is_sentiment_call
         (events_of (update jan7 1000) (Cycles.searched_out jan7)) = 0%nat
    /\ count is_alert
         (events_of (update jan7 1000) (Cycles.searched_out jan7)) = 0%nat
    /\ count is_position_size
         (events_of (update jan7 1000) (Cycles.searched_out jan7)) = 1%nat
    /\ daily_x_searches
         (bot (snd (on_candle (update jan7 1000)
                              {| bot := Cycles.searched_out jan7;
                                 trace := [] |})))
       = daily_x_searches
           (after_day_test (utcnow (update jan7 1000))
                           (Cycles.searched_out jan7)).
Proof.
  assert (Hcall : exists request,
             In (TechnicalOracleCalled request)
                (events_of (update jan7 1000) (Cycles.searched_out jan7))
             /\ Grok.confidence (technical_oracle (update jan7 1000) request)
                = 65%Z).
  { eexists. split.
    - vm_compute. right. left. reflexivity.
    - vm_compute. reflexivity. }
  destruct Hcall as (request & Hin & Hconf).
  assert (Hband : (MIN_CONFIDENCE
                   <= Grok.confidence (technical_oracle (update jan7 1000) request)
                   < HIGH_CONFIDENCE)%Z)
    by (rewrite Hconf; split; [discriminate | reflexivity]).
  assert (Hx : (MAX_X_SEARCHES_PER_DAY
                <= daily_x_searches
                     (after_day_test (utcnow (update jan7 1000))
                                     (Cycles.searched_out jan7)))%Z)
    by discriminate.
  exists request.
  exact (conj Hin (conj Hconf (conj eq_refl
           (exhausted_search_budget _ (Cycles.searched_out jan7) request
                                    Hin Hband Hx)))).
Defined.

(** X17.  A borderline reply (confidence in [60,80)) with a free search
    budget charges exactly one sentiment search; when the sentiment oracle
    answers [take_trade], the candle update sends exactly one alert, the
    borderline one, at the last close, with the size the position sizer
    gives for the reply's stop-loss and with the sentiment reply it got. *)
Theorem confirmed_borderline_cycle :
  forall (c : cycle) (self : PepeScalpingBot) (request : technical_request),
    In (TechnicalOracleCalled request) (events_of c self) ->
    (MIN_CONFIDENCE <= Grok.confidence (technical_oracle c request)
     < HIGH_CONFIDENCE)%Z ->
    (daily_x_searches (after_day_test (utcnow c) self)
     < MAX_X_SEARCHES_PER_DAY)%Z ->
    let result := technical_oracle c request in
    exists current_price size,
      let reply := sentiment_oracle c (sentiment_request_of current_price result) in
      last_item (map close (candles c)) = Ok current_price
      /\ Utils.calculate_position_size ACCOUNT_BALANCE MAX_RISK_PERCENT
                                       current_price (Grok.sl result) LEVERAGE
         = Ok size
      /\ daily_x_searches
           (bot (snd (on_candle c {| bot := self; trace := [] |})))
         = (daily_x_searches (after_day_test (utcnow c) self) + 1)%Z
      /\ (take_trade reply = true ->
          filter is_alert (events_of c self)
          = [BorderlineAlert (Grok.direction result) current_price
                             (Grok.tp result) (Grok.sl result) size
                             (Grok.confidence result) reply]).
Proof.
  intros c self request Hin Hband Hx result.
  destruct (on_candle_gate c self request Hin)
    as (cp & Hp & Hclose & _ & _ & _ & Hrun).
  unfold events_of. rewrite Hrun. clear Hrun Hin.
  destruct (charged_attributes c self) as (_ & _ & Hxc).
  match goal with
  | |- context [decide ?c ?p ?r ?w] =>
      destruct (decide_confirmed c p r w Hp Hband) as (size & Hsize & ->);
        [cbn [bot]; rewrite Hxc; exact Hx|]
  end.
  exists cp, size. cbv zeta. cbn [snd bot trace].
  split; [exact Hclose|]. split; [exact Hsize|].
  split; [cbn [daily_x_searches set_daily_x_searches]; now rewrite Hxc|].
  intros Htake. fold result. rewrite Htake.
  destruct (reset_events_quiet (utcnow c) self) as (_ & _ & _ & Ha).
  rewrite !filter_app, Ha. reflexivity.
Qed.

Lemma confirmed_borderline_cycle_witness :
  exists request current_price size,
    In (TechnicalOracleCalled request)
       (events_of (Cycles.cycle_with borderline_reply Cycles.approval jan7 1000)
                  (init jan5))
    /\ Grok.confidence
         (technical_oracle
            (Cycles.cycle_with borderline_reply Cycles.approval jan7 1000)
            request) = 65%Z
    /\ take_trade Cycles.approval = true
    /\ let reply :=
         sentiment_oracle
           (Cycles.cycle_with borderline_reply Cycles.approval jan7 1000)
           (sentiment_request_of current_price
              (technical_oracle
                 (Cycles.cycle_with borderline_reply Cycles.approval jan7 1000)
                 request)) in
       last_item (map close
                      (candles (Cycles.cycle_with borderline_reply
                                                  Cycles.approval jan7 1000)))
       = Ok current_price
       /\ Utils.calculate_position_size
            ACCOUNT_BALANCE MAX_RISK_PERCENT current_price
            (Grok.sl (technical_oracle
                        (Cycles.cycle_with borderline_reply Cycles.approval
                                           jan7 1000) request)) LEVERAGE
          = Ok size
       /\ daily_x_searches
            (bot (snd (on_candle
                         (Cycles.cycle_with borderline_reply Cycles.approval
                                            jan7 1000)
                         {| bot := init jan5; trace := [] |})))
          = (daily_x_searches
               (after_day_test
                  (utcnow (Cycles.cycle_with borderline_reply Cycles.approval
                                             jan7 1000))
                  (init jan5)) + 1)%Z
       /\ (take_trade reply = true ->
           filter is_alert
             (events_of (Cycles.cycle_with borderline_reply Cycles.approval
                                           jan7 1000) (init jan5))
           = [BorderlineAlert
                (Grok.direction
                   (technical_oracle
                      (Cycles.cycle_with borderline_reply Cycles.approval
                                         jan7 1000) request))
                current_price
                (Grok.tp
                   (technical_oracle
                      (Cycles.cycle_with borderline_reply Cycles.approval
                                         jan7 1000) request))
                (Grok.sl
                   (technical_oracle
                      (Cycles.cycle_with borderline_reply Cycles.approval
                                         jan7 1000) request))
                size
                (Grok.confidence
                   (technical_oracle
                      (Cycles.cycle_with borderline_reply Cycles.approval
                                         jan7 1000) request))
                reply]).
Proof.
  assert (Hcall : exists request,
             In (TechnicalOracleCalled request)
                (events_of (Cycles.cycle_with borderline_reply Cycles.approval
                                              jan7 1000) (init jan5))
             /\ Grok.confidence
                  (technical_oracle
                     (Cycles.cycle_with borderline_reply Cycles.approval
                                        jan7 1000) request) = 65%Z).
  { eexists. split.
    - vm_compute. right. right. left. reflexivity.
    - vm_compute. reflexivity. }
  destruct Hcall as (request & Hin & Hconf).
  assert (Hband : (MIN_CONFIDENCE
                   <= Grok.confidence
                        (technical_oracle
                           (Cycles.cycle_with borderline_reply Cycles.approval
                                              jan7 1000) request)
                   < HIGH_CONFIDENCE)%Z)
    by (rewrite Hconf; split; [discriminate | reflexivity]).
  assert (Hx : (daily_x_searches
                  (after_day_test
                     (utcnow (Cycles.cycle_with borderline_reply Cycles.approval
                                                jan7 1000))
                     (init jan5))
                < MAX_X_SEARCHES_PER_DAY)%Z) by reflexivity.
  destruct (confirmed_borderline_cycle _ (init jan5) request Hin Hband Hx)
    as (cp & size & H).
  exists request, cp, size.
  exact (conj Hin (conj Hconf (conj eq_refl H))).
Defined.

(** ** grok.py: the numbers a reply can yield *)

Lemma int_of_digits_nonneg (s : Text.chars) : (0 <= Text.int_of_digits s)%Z.
Proof.
  unfold Text.int_of_digits.
  assert (H : forall acc, (0 <= acc)%Z ->
                          (0 <= fold_left (fun acc c =>
                                             (10 * acc + Text.digit_value c)%Z)
                                          s acc)%Z).
  { induction s as [|c s IH]; intros acc Hacc; cbn [fold_left]; [exact Hacc|].
    apply IH. unfold Text.digit_value. lia. }
  apply H. lia.
Qed.

Lemma float_of_run_nonneg (s : Text.chars) (v : Q) :
  Text.float_of_run s = Ok v -> 0 <= v.
Proof.
  unfold Text.float_of_run.
  destruct (Text.split "." s) as [|whole [|frac [|more rest]]]; try discriminate.
  - destruct whole; [discriminate|]. intros H; inversion H; subst.
    change 0 with (inject_Z 0). rewrite <- Zle_Qle. apply int_of_digits_nonneg.
  - destruct (whole ++ frac) eqn:E; [discriminate|]. intros H; inversion H; subst.
    apply Qle_shift_div_l.
    + change 0 with (inject_Z 0). rewrite <- Zlt_Qlt.
      apply Z.pow_pos_nonneg; lia.
    + rewrite Qmult_0_l. change 0 with (inject_Z 0). rewrite <- Zle_Qle.
      apply int_of_digits_nonneg.
Qed.

Lemma parse_line_nonneg (result result' : Grok.technical) (line : Text.chars) :
  Grok.parse_line result line = Ok result' ->
  (0 <= Grok.confidence result)%Z /\ 0 <= Grok.tp result /\ 0 <= Grok.sl result ->
  (0 <= Grok.confidence result')%Z /\ 0 <= Grok.tp result'
  /\ 0 <= Grok.sl result'.
Proof.
  unfold Grok.parse_line. intros H (Hc & Ht & Hs).
  repeat match type of H with
         | (if ?b then _ else _) = _ => destruct b
         | Py.bind ?c _ = _ => destruct c eqn:?; cbn [Py.bind] in H
         | match ?x with Some _ => _ | None => _ end = _ => destruct x eqn:?
         end;
    try discriminate; inversion H; subst; cbn; repeat split;
    try assumption;
    eauto using int_of_digits_nonneg, float_of_run_nonneg.
Qed.

Lemma parse_lines_nonneg (lines : list Text.chars) :
  forall result,
    (0 <= Grok.confidence result)%Z /\ 0 <= Grok.tp result
    /\ 0 <= Grok.sl result ->
    (0 <= Grok.confidence (fst (Grok.parse_lines lines result)))%Z
    /\ 0 <= Grok.tp (fst (Grok.parse_lines lines result))
    /\ 0 <= Grok.sl (fst (Grok.parse_lines lines result)).
Proof.
  induction lines as [|line rest IH]; intros result H; cbn [Grok.parse_lines];
    [exact H|].
  destruct (Grok.parse_line result line) as [result'|e] eqn:E; [|exact H].
  apply IH. exact (parse_line_nonneg _ _ _ E H).
Qed.

(** X18.  Whatever the technical oracle replies, and also when the call
    fails, [analyze_technical] returns a confidence that is not negative;
    and the take-profit and stop-loss it returns are not negative either
    when the direction is SKIP or the ATR lies between 0 and the price: a
    sign in the reply is never read, and only the default bracket
    [price -+ atr] can go below zero. *)
Theorem reply_numbers_nonneg :
  forall (completion : string + string) (price atr : Q),
    let result := Grok.analyze_technical completion price atr in
    (0 <= Grok.confidence result)%Z
    /\ (Grok.direction result = Grok.SKIP \/ (0 <= atr /\ atr <= price) ->
        0 <= Grok.tp result /\ 0 <= Grok.sl result).
Proof.
  intros [content | message] price atr; cbn [Grok.analyze_technical]; cbv zeta.
  2:{ cbn. split; [lia | intros _; split; apply Qle_refl]. }
  unfold Grok._parse_technical_response.
  pose proof (parse_lines_nonneg
                (Text.split "010" (Text.strip (Text.lit content)))
                Grok.initial_result) as H.
  destruct (Grok.parse_lines _ Grok.initial_result) as [result [e|]];
    cbn [fst] in H;
    (destruct H as (Hc & Ht & Hs);
     [cbn; repeat split; try lia; apply Qle_refl|]).
  - split; [exact Hc | intros _; now split].
  - unfold Grok.default_bracket.
    destruct (Py.eqb (Grok.tp result) 0); cbn [andb];
      [|split; [exact Hc | intros _; now split]].
    destruct (Grok.direction result) eqn:Hd; cbn [negb];
      try (split; [exact Hc | intros _; now split]); cbn;
      (split; [exact Hc|]); rewrite ?Hd;
      (intros [Hskip | [Ha Hp]]; [discriminate | split; lra]).
Qed.

(** ** grok.py: the sentiment reply *)

Section SentimentReply.
Import Text Sentiment.

Lemma startswith_In (prefix : chars) :
  forall (s : chars) (c : ascii),
    startswith s prefix = true -> In c prefix -> In c s.
Proof.
  induction prefix as [|p prefix IH]; intros s c Hs Hin; [destruct Hin|].
  destruct s as [|c' s]; [discriminate|]. cbn [startswith] in Hs.
  apply andb_true_iff in Hs as [Hp Hs]. apply Ascii.eqb_eq in Hp. subst c'.
  destruct Hin as [-> | Hin]; [now left | right; now apply IH].
Qed.

Lemma contains_In (needle : chars) (c : ascii) :
  In c needle -> forall s, contains s needle = true -> In c s.
Proof.
  intros Hin. induction s as [|c' s IH]; cbn [contains]; intros H.
  - destruct needle; [destruct Hin | discriminate].
  - apply orb_true_iff in H as [H | H].
    + exact (startswith_In needle (c' :: s) c H Hin).
    + right. now apply IH.
Qed.

Lemma split_acc_nonempty (sep : ascii) (s cur : chars) :
  split_acc sep s cur <> [].
Proof.
  revert cur. induction s as [|c s IH]; intros cur; cbn [split_acc];
    [discriminate|].
  destruct (Ascii.eqb c sep); [discriminate | apply IH].
Qed.

Lemma item1_split (sep : ascii) (s : chars) :
  In sep s -> exists field, item1 (split sep s) = Ok field.
Proof.
  unfold split. generalize (@nil ascii) as cur.
  induction s as [|c s IH]; intros cur Hin; [destruct Hin|].
  cbn [split_acc]. destruct (Ascii.eqb c sep) eqn:E.
  - pose proof (split_acc_nonempty sep s []) as Hne.
    destruct (split_acc sep s []) as [|field rest]; [congruence|].
    now exists field.
  - apply IH. destruct Hin as [-> | Hin]; [|assumption].
    now rewrite Ascii.eqb_refl in E.
Qed.

Lemma after_first_defined (sep : ascii) (s : chars) :
  In sep s -> exists rest, after_first sep s = Ok rest.
Proof.
  induction s as [|c s IH]; intros Hin; [destruct Hin|].
  cbn [after_first]. destruct (Ascii.eqb c sep) eqn:E; [now exists s|].
  apply IH. destruct Hin as [-> | Hin]; [|assumption].
  now rewrite Ascii.eqb_refl in E.
Qed.

Lemma lstrip_nil (s : chars) (c : ascii) :
  lstrip s = [] -> In c s -> is_space c = true.
Proof.
  induction s as [|c' s IH]; intros H Hin; [destruct Hin|].
  cbn [lstrip] in H. destruct (is_space c') eqn:E; [|discriminate].
  destruct Hin as [<- | Hin]; [exact E | now apply IH].
Qed.

Lemma first_word_defined (s : chars) (c : ascii) :
  In c s -> is_space c = false -> exists word, first_word s = Ok word.
Proof.
  intros Hin Hc. unfold first_word.
  destruct (lstrip s) as [|c' t] eqn:E; [|eexists; reflexivity].
  rewrite (lstrip_nil s c E Hin) in Hc. discriminate.
Qed.

Lemma colon_in_label (line : chars) (label : string) :
  startswith line (lit label) = true -> In ":"%char (lit label) ->
  In ":"%char line.
Proof. intros H Hin. exact (startswith_In _ _ _ H Hin). Qed.

(** No line makes the body of the loop raise. *)
Lemma parse_line_defined (result : Main.sentiment_reply) (line : chars) :
  exists result', parse_line result line = Ok result'.
Proof.
  unfold parse_line. cbv zeta.
  destruct (startswith (strip line) (lit "TAKE_TRADE:")); [eexists; reflexivity|].
  destruct (startswith (strip line) (lit "SENTIMENT:")) eqn:Hs.
  { destruct (item1_split ":" (strip line)) as [field ->].
    - apply (colon_in_label _ _ Hs). cbn. tauto.
    - cbn [Py.bind]. destruct (known_sentiment _); eexists; reflexivity. }
  destruct (startswith (strip line) (lit "BUZZ_SCORE:")).
  { destruct (search is_digit (strip line)); eexists; reflexivity. }
  destruct (startswith (strip line) (lit "BTC_STATUS:")) eqn:Hb.
  { destruct (item1_split ":" (strip line)) as [field ->].
    - apply (colon_in_label _ _ Hb). cbn. tauto.
    - cbn [Py.bind].
      destruct (contains (upper (strip field)) (lit "UP")) eqn:Hup;
        [|destruct (contains (upper (strip field)) (lit "DOWN")) eqn:Hdown;
          [|destruct (contains (upper (strip field)) (lit "FLAT")) eqn:Hflat]];
        cbn [orb]; try (eexists; reflexivity).
      + destruct (first_word_defined (upper (strip field)) "U") as [word ->];
          [|reflexivity|eexists; reflexivity].
        apply (contains_In (lit "UP")); [cbn; tauto | exact Hup].
      + destruct (first_word_defined (upper (strip field)) "D") as [word ->];
          [|reflexivity|eexists; reflexivity].
        apply (contains_In (lit "DOWN")); [cbn; tauto | exact Hdown].
      + destruct (first_word_defined (upper (strip field)) "F") as [word ->];
          [|reflexivity|eexists; reflexivity].
        apply (contains_In (lit "FLAT")); [cbn; tauto | exact Hflat]. }
  destruct (startswith (strip line) (lit "WHALE_ALERT:")); [eexists; reflexivity|].
  destruct (startswith (strip line) (lit "REASON:")) eqn:Hr;
    [|eexists; reflexivity].
  destruct (after_first_defined ":" (strip line)) as [rest ->].
  - apply (colon_in_label _ _ Hr). cbn. tauto.
  - eexists; reflexivity.
Qed.

Lemma known_sentiment_inv (s : chars) :
  known_sentiment s = true ->
  string_of_list_ascii s = "BULLISH"%string
  \/ string_of_list_ascii s = "BEARISH"%string
  \/ string_of_list_ascii s = "NEUTRAL"%string.
Proof.
  unfold known_sentiment, Text.eqb. intros H.
  apply orb_true_iff in H as [H | H]; [apply orb_true_iff in H as [H | H]|];
    apply String.eqb_eq in H; rewrite H; cbn; tauto.
Qed.

(** What a line can do to the fields the bot acts on. *)
Lemma parse_line_fields (result result' : Main.sentiment_reply) (line : chars) :
  parse_line result line = Ok result' ->
  (Main.take_trade result' = true ->
   Main.take_trade result = true
   \/ (startswith (strip line) (lit "TAKE_TRADE:") = true
       /\ contains (upper (strip line)) (lit "YES") = true))
  /\ (Main.sentiment result' = Main.sentiment result
      \/ Main.sentiment result' = "BULLISH"%string
      \/ Main.sentiment result' = "BEARISH"%string
      \/ Main.sentiment result' = "NEUTRAL"%string)
  /\ (Main.buzz_score result' = Main.buzz_score result
      \/ (0 <= Main.buzz_score result')%Z).
Proof.
  unfold parse_line. cbv zeta. intros H.
  destruct (startswith (strip line) (lit "TAKE_TRADE:")) eqn:Ht.
  { inversion H; subst. cbn. split; [intros Hy; right; now split|].
    split; now left. }
  destruct (startswith (strip line) (lit "SENTIMENT:")).
  { destruct (item1 _) as [field|e]; cbn [Py.bind] in H; [|discriminate].
    destruct (known_sentiment _) eqn:Hk; inversion H; subst; cbn.
    - split; [intros Hy; now left|]. split; [|now left].
      right. now apply known_sentiment_inv.
    - split; [intros Hy; now left|]. split; now left. }
  destruct (startswith (strip line) (lit "BUZZ_SCORE:")).
  { destruct (search is_digit (strip line)); inversion H; subst; cbn.
    - split; [intros Hy; now left|]. split; [now left|].
      right. apply int_of_digits_nonneg.
    - split; [intros Hy; now left|]. split; now left. }
  destruct (startswith (strip line) (lit "BTC_STATUS:")).
  { destruct (item1 _) as [field|e]; cbn [Py.bind] in H; [|discriminate].
    destruct (_ || _ || _)%bool.
    - destruct (first_word _) as [word|e]; cbn [Py.bind] in H; [|discriminate].
      inversion H; subst; cbn.
      split; [intros Hy; now left|]. split; now left.
    - inversion H; subst. split; [intros Hy; now left|]. split; now left. }
  destruct (startswith (strip line) (lit "WHALE_ALERT:")).
  { inversion H; subst; cbn. split; [intros Hy; now left|]. split; now left. }
  destruct (startswith (strip line) (lit "REASON:")).
  { destruct (after_first _ _) as [rest|e]; cbn [Py.bind] in H; [|discriminate].
    inversion H; subst; cbn. split; [intros Hy; now left|]. split; now left. }
  inversion H; subst. split; [intros Hy; now left|]. split; now left.
Qed.

Lemma parse_lines_fields (lines : list chars) :
  forall result,
    let result' := fst (parse_lines lines result) in
    (Main.take_trade result' = true ->
     Main.take_trade result = true
     \/ exists line,
          In line lines
          /\ startswith (strip line) (lit "TAKE_TRADE:") = true
          /\ contains (upper (strip line)) (lit "YES") = true)
    /\ (Main.sentiment result' = Main.sentiment result
        \/ Main.sentiment result' = "BULLISH"%string
        \/ Main.sentiment result' = "BEARISH"%string
        \/ Main.sentiment result' = "NEUTRAL"%string)
    /\ (Main.buzz_score result' = Main.buzz_score result
        \/ (0 <= Main.buzz_score result')%Z).
Proof.
  induction lines as [|line rest IH]; intros result; cbv zeta;
    cbn [parse_lines].
  - cbn [fst]. split; [intros H; now left|]. split; now left.
  - destruct (parse_line result line) as [r1|e] eqn:E.
    2:{ cbn [fst]. split; [intros H; now left|]. split; now left. }
    destruct (parse_line_fields _ _ _ E) as (Ht & Hs & Hb).
    destruct (IH r1) as (Ht' & Hs' & Hb'). split; [|split].
    + intros Hy. destruct (Ht' Hy) as [Hr1 | (l & Hin & Hl)].
      * destruct (Ht Hr1) as [Hr | Hl]; [now left|].
        right. exists line. split; [now left | exact Hl].
      * right. exists l. split; [now right | exact Hl].
    + destruct Hs' as [Heq | Hk]; [rewrite Heq; exact Hs | now right].
    + destruct Hb' as [Heq | Hk]; [rewrite Heq; exact Hb | now right].
Qed.

End SentimentReply.

(** X19.  [analyze_with_sentiment] answers [take_trade] only on an explicit
    yes: some line of the oracle's reply, once stripped, starts with
    [TAKE_TRADE:] and contains YES in whatever case.  A failed call, a reply
    without such a line, or one whose [TAKE_TRADE:] lines have no YES all
    give [take_trade = False]. *)
Theorem take_trade_needs_yes :
  forall (completion : string + string),
    Main.take_trade (Sentiment.analyze_with_sentiment completion) = true ->
    exists content line,
      completion = inl content
      /\ In line (Sentiment.lines_of content)
      /\ Text.startswith (Text.strip line) (Text.lit "TAKE_TRADE:") = true
      /\ Sentiment.contains (Text.upper (Text.strip line)) (Text.lit "YES")
         = true.
Proof.
  intros [content | message]; cbn [Sentiment.analyze_with_sentiment];
    [|discriminate].
  unfold Sentiment._parse_sentiment_response. intros H.
  destruct (parse_lines_fields (Sentiment.lines_of content)
                               Sentiment.initial_result) as (Ht & _ & _).
  destruct (Ht H) as [Hinit | (line & Hin & Hl)]; [discriminate|].
  exists content, line. split; [reflexivity | split; [exact Hin | exact Hl]].
Qed.

Lemma take_trade_needs_yes_witness :
  Main.take_trade
    (Sentiment.analyze_with_sentiment
       (inl ("SENTIMENT: bullish" ++ nl ++ "take_trade: maybe" ++ nl
             ++ "  TAKE_TRADE: Yes, on the bounce"))%string) = true
  /\ exists content line,
       inl ("SENTIMENT: bullish" ++ nl ++ "take_trade: maybe" ++ nl
            ++ "  TAKE_TRADE: Yes, on the bounce")%string
       = @inl string string content
       /\ In line (Sentiment.lines_of content)
       /\ Text.startswith (Text.strip line) (Text.lit "TAKE_TRADE:") = true
       /\ Sentiment.contains (Text.upper (Text.strip line)) (Text.lit "YES")
          = true.
Proof.
  assert (H : Main.take_trade
                (Sentiment.analyze_with_sentiment
                   (inl ("SENTIMENT: bullish" ++ nl ++ "take_trade: maybe" ++ nl
                         ++ "  TAKE_TRADE: Yes, on the bounce"))%string) = true)
    by (vm_compute; reflexivity).
  exact (conj H (take_trade_needs_yes _ H)).
Defined.

(** X20.  Whatever the sentiment oracle replies, and also when the call
    fails, the reply [analyze_with_sentiment] returns has a sentiment that is
    one of BULLISH, BEARISH and NEUTRAL and a buzz score that is not
    negative. *)
Theorem sentiment_reply_well_formed :
  forall (completion : string + string),
    let reply := Sentiment.analyze_with_sentiment completion in
    (Main.sentiment reply = "BULLISH"%string
     \/ Main.sentiment reply = "BEARISH"%string
     \/ Main.sentiment reply = "NEUTRAL"%string)
    /\ (0 <= Main.buzz_score reply)%Z.
Proof.
  intros [content | message]; cbn [Sentiment.analyze_with_sentiment]; cbv zeta.
  2:{ cbn. split; [tauto | lia]. }
  unfold Sentiment._parse_sentiment_response.
  destruct (parse_lines_fields (Sentiment.lines_of content)
                               Sentiment.initial_result) as (_ & Hs & Hb).
  split.
  - destruct Hs as [-> | Hs]; [cbn; tauto | exact Hs].
  - destruct Hb as [-> | Hb]; [cbn; lia | exact Hb].
Qed.

(** X21.  On a reply of at most 4300 characters (so that no run of digits
    is beyond what [int] converts) the loop of [_parse_sentiment_response]
    never raises: every indexing it does is behind a test that guarantees
    the element, so the [except] branch is never taken and every line of the
    reply is read, whatever the values the dictionary starts with. *)
Theorem sentiment_parse_never_raises :
  forall (response : string) (result : Main.sentiment_reply),
    (String.length response <= 4300)%nat ->
    snd (Sentiment.parse_lines (Sentiment.lines_of response) result) = None.
Proof.
  intros response result _. revert result.
  generalize (Sentiment.lines_of response) as lines.
  induction lines as [|line rest IH]; intros result;
    cbn [Sentiment.parse_lines]; [reflexivity|].
  destruct (parse_line_defined result line) as [result' ->]. apply IH.
Qed.

Lemma sentiment_parse_never_raises_witness :
  (String.length ("BUZZ_SCORE:" ++ nl ++ "SENTIMENT:" ++ nl ++ "BTC_STATUS: UP"
                  ++ nl ++ "REASON")%string <= 4300)%nat
  /\ snd (Sentiment.parse_lines
            (Sentiment.lines_of
               ("BUZZ_SCORE:" ++ nl ++ "SENTIMENT:" ++ nl ++ "BTC_STATUS: UP"
                ++ nl ++ "REASON")%string)
            Sentiment.initial_result) = None.
Proof.
  assert (H : (String.length
                 ("BUZZ_SCORE:" ++ nl ++ "SENTIMENT:" ++ nl ++ "BTC_STATUS: UP"
                  ++ nl ++ "REASON")%string <= 4300)%nat)
    by (vm_compute; lia).
  exact (conj H (sentiment_parse_never_raises _ Sentiment.initial_result H)).
Defined.

(** ** websocket.py: the candle summary sent to the oracle *)

Lemma summary_lines_inv (recent : list Candle) (lines : list (Candle * Q)) :
  summary_lines recent = Ok lines ->
  map fst lines = recent /\ Forall (fun k => ~ open k == 0) recent.
Proof.
  revert lines. induction recent as [|k rest IH]; intros lines H;
    cbn [summary_lines] in H.
  - inversion H; subst. split; [reflexivity | constructor].
  - destruct (truediv (close k - open k) (open k)) as [d|e] eqn:Hd;
      cbn [Py.bind] in H; [|discriminate].
    destruct (summary_lines rest) as [tail|e]; cbn [Py.bind] in H;
      [|discriminate].
    inversion H; subst. destruct (IH tail eq_refl) as [Hm Hf].
    apply truediv_inv in Hd as [Hnz _].
    split; [cbn; now rewrite Hm | now constructor].
Qed.

Lemma summary_lines_raise (recent : list Candle) (e : exn) :
  summary_lines recent = Raise e ->
  e = ZeroDivisionError /\ Exists (fun k => open k == 0) recent.
Proof.
  induction recent as [|k rest IH]; intros H; cbn [summary_lines] in H;
    [discriminate|].
  unfold truediv in H. destruct (Py.eqb (open k) 0) eqn:Hz; cbn [Py.bind] in H.
  - inversion H; subst. split; [reflexivity|]. left. now apply eqb_true_iff.
  - destruct (summary_lines rest) as [tail|e']; cbn [Py.bind] in H;
      [discriminate|].
    inversion H; subst. destruct (IH eq_refl) as [-> Hex].
    split; [reflexivity | now right].
Qed.

Lemma length_last10 {A : Type} (xs : list A) :
  length (last10 xs) = Nat.min 10 (length xs).
Proof. unfold last10. rewrite length_skipn. lia. Qed.

(** X22.  [get_candles_summary] on a non-empty window has one line per
    candle of the last ten (of all, when there are fewer), in order; it
    raises [ZeroDivisionError] exactly when one of those candles has an open
    of 0.0, and candles before the last ten are never looked at. *)
Theorem summary_of_last_ten :
  forall (cs : list Candle),
    cs <> [] ->
    (Exists (fun k => open k == 0) (last10 cs) <->
     get_candles_summary cs = Raise ZeroDivisionError)
    /\ (Forall (fun k => ~ open k == 0) (last10 cs) <->
        exists lines,
          get_candles_summary cs = Ok lines
          /\ map fst lines = last10 cs
          /\ (1 <= length lines <= 10)%nat).
Proof.
  intros cs Hne. unfold get_candles_summary.
  assert (Hlen : (1 <= length (last10 cs) <= 10)%nat).
  { rewrite length_last10. destruct cs; [congruence | cbn [length]; lia]. }
  destruct (summary_lines (last10 cs)) as [lines|e] eqn:E.
  - destruct (summary_lines_inv _ _ E) as [Hm Hf]. split.
    + split; [|discriminate]. intros Hex. exfalso.
      apply Exists_exists in Hex as (k & Hin & Hz).
      rewrite Forall_forall in Hf. exact (Hf k Hin Hz).
    + split; [|intros _; exact Hf]. intros _. exists lines.
      split; [reflexivity|]. split; [exact Hm|].
      rewrite <- (length_map fst), Hm. exact Hlen.
  - destruct (summary_lines_raise _ _ E) as [-> Hex]. split.
    + split; [reflexivity | intros _; exact Hex].
    + split; [|intros (lines & H & _); discriminate]. intros Hf. exfalso.
      apply Exists_exists in Hex as (k & Hin & Hz).
      rewrite Forall_forall in Hf. exact (Hf k Hin Hz).
Qed.

Lemma summary_of_last_ten_witness :
  Scenario.window <> []
  /\ (Exists (fun k => open k == 0) (last10 Scenario.window) <->
      get_candles_summary Scenario.window = Raise ZeroDivisionError)
  /\ (Forall (fun k => ~ open k == 0) (last10 Scenario.window) <->
      exists lines,
        get_candles_summary Scenario.window = Ok lines
        /\ map fst lines = last10 Scenario.window
        /\ (1 <= length lines <= 10)%nat).
Proof.
  assert (H : Scenario.window <> []) by discriminate.
  exact (conj H (summary_of_last_ten Scenario.window H)).
Defined.

(** ** main.py: what the technical oracle is asked *)

Lemma survey_layer (cs : list Candle) (current_price : Q)
      (atr adx : Pandas.cell) (market_status : status) (volume_ratio : Q)
      (near_layer : Layers.Layer) :
  survey cs
  = Ok (current_price, atr, adx, market_status, volume_ratio, Some near_layer) ->
  Layers.distance_pct near_layer <= LAYER_THRESHOLD_PCT
  /\ well_built current_price near_layer
  /\ (1 <= Layers.touches near_layer)%Z
  /\ market_status = (if Utils.is_ranging adx 25 then RANGE else TREND).
Proof.
  unfold survey, get_ohlcv_lists. intros H.
  destruct (last_item (map close cs)) as [cp|e] eqn:Hlast; cbn [Py.bind] in H;
    [|discriminate].
  destruct (Utils.calculate_atr _ _ _ _) as [a|e]; cbn [Py.bind] in H;
    [|discriminate].
  destruct (Utils.calculate_adx _ _ _ _) as [d|e]; cbn [Py.bind] in H;
    [|discriminate].
  destruct (volume_ratio_of _) as [vr|e]; cbn [Py.bind] in H; [|discriminate].
  destruct (Layers.find_layers _ _ _ _ _ _) as [[rs ss]|e] eqn:Hl;
    cbn [Py.bind] in H; [|discriminate].
  inversion H; subst. clear H.
  match goal with
  | Hn : Layers.find_nearest_layer ?p ?r ?s ?t = Some _ |- _ =>
      pose proof (find_nearest_layer_best t p r s) as Hbest;
      rewrite Hn in Hbest; apply find_nearest_layer_In in Hn as Hin
  end.
  destruct Hbest as (pre & post & _ & Hd & _).
  destruct (find_layers_built _ _ _ _ _ _ _ _ _ Hl Hlast) as [Hr Hs].
  destruct (find_layers_members _ _ _ _ _ _ _ _ _ Hl Hin)
    as (side & cp & cl & Heq & Htouched).
  split; [exact Hd|]. split; [|split; [|reflexivity]].
  - apply in_app_or in Hin as [Hin | Hin]; [apply (Hr _ Hin) | apply (Hs _ Hin)].
  - rewrite Heq. exact Htouched.
Qed.

(** A candle update that asks the technical oracle asks it what the
    indicator stage and the summary gave. *)
Lemma on_candle_request (c : cycle) (self : PepeScalpingBot)
      (request : technical_request) :
  In (TechnicalOracleCalled request) (events_of c self) ->
  exists current_price atr adx market_status volume_ratio near_layer summary,
    (20 <= len (candles c))%Z
    /\ survey (candles c)
       = Ok (current_price, atr, adx, market_status, volume_ratio,
             Some near_layer)
    /\ get_candles_summary (candles c) = Ok summary
    /\ request = technical_request_of current_price near_layer atr adx
                                      market_status volume_ratio summary.
Proof.
  unfold events_of, on_candle. intros Hin.
  destruct (len (candles c) <? 20)%Z eqn:Hlen; [destruct Hin|].
  apply Z.ltb_ge in Hlen.
  unfold bindM at 1, modify at 1 in Hin. cbn [bot trace] in Hin.
  unfold bindM at 1, lift at 1 in Hin.
  destruct (survey (candles c)) as [found|e] eqn:Hsurvey; [|destruct Hin].
  destruct found as [[[[[current_price atr] adx] market_status] volume_ratio] near].
  destruct near as [near_layer|]; [|destruct Hin].
  unfold bindM at 1 in Hin.
  rewrite can_call_api_value in Hin. cbn [bot trace app] in Hin.
  destruct (negb _ && _)%bool; cbn [negb] in Hin.
  2:{ cbn in Hin. now apply not_in_reset_events in Hin. }
  rewrite analyse_run in Hin. cbv zeta in Hin. cbn [bot trace] in Hin.
  destruct (get_candles_summary (candles c)) as [summary|e].
  2:{ cbn [snd trace] in Hin. apply in_app_or in Hin as [Hin | [Hin | []]];
      [now apply not_in_reset_events in Hin | discriminate]. }
  exists current_price, atr, adx, market_status, volume_ratio, near_layer, summary.
  split; [exact Hlen|]. split; [reflexivity|]. split; [reflexivity|].
  match type of Hin with
  | In _ (trace (snd (decide ?c ?p ?r ?w))) =>
      destruct (decide_calm c p r w) as (evs & Ht & Hcalm & _)
  end.
  rewrite Ht in Hin. cbn [trace] in Hin.
  apply in_app_or in Hin as [Hin | Hin].
  - apply in_app_or in Hin as [Hin | [Hin | [Hin | []]]].
    + now apply not_in_reset_events in Hin.
    + discriminate.
    + now inversion Hin.
  - rewrite forallb_forall in Hcalm. specialize (Hcalm _ Hin). discriminate.
Qed.

(** X23.  Whenever a candle update asks the technical oracle, the request
    is well formed: the price is the last close and is not zero; the layer
    is within [LAYER_THRESHOLD_PCT] of it, lies on the side its type says,
    has a strength in [1,3] and at least one touch; the summary has exactly
    ten lines, those of the last ten candles; and the market status is RANGE
    exactly when the ADX is a number below 25. *)
Theorem oracle_request_well_formed :
  forall (c : cycle) (self : PepeScalpingBot) (request : technical_request),
    In (TechnicalOracleCalled request) (events_of c self) ->
    last_item (map close (candles c)) = Ok (rq_price request)
    /\ ~ rq_price request == 0
    /\ rq_layer_distance request <= LAYER_THRESHOLD_PCT
    /\ match rq_layer_type request with
       | Layers.Resistance => rq_price request < rq_layer_price request
       | Layers.Support => rq_layer_price request < rq_price request
       end
    /\ (1 <= rq_layer_strength request <= 3)%Z
    /\ (1 <= rq_layer_touches request)%Z
    /\ map fst (rq_ohlcv_summary request) = last10 (candles c)
    /\ length (rq_ohlcv_summary request) = 10%nat
    /\ (rq_market_status request = RANGE <->
        exists adx, rq_adx_value request = Some adx /\ adx < 25).
Proof.
  intros c self request Hin.
  destruct (on_candle_request c self request Hin)
    as (cp & atr & adx & ms & vr & nl & summary & Hlen & Hsurvey & Hsum & ->).
  pose proof (survey_price _ _ _ _ _ _ _ Hsurvey) as Hclose.
  destruct (survey_layer _ _ _ _ _ _ _ Hsurvey)
    as (Hd & (Hstr & Hnz & Hside) & Ht & Hms).
  unfold get_candles_summary in Hsum.
  destruct (summary_lines_inv _ _ Hsum) as [Hm _].
  cbn [technical_request_of rq_price rq_layer_distance rq_layer_type
       rq_layer_price rq_layer_strength rq_layer_touches rq_ohlcv_summary
       rq_market_status rq_adx_value].
  split; [exact Hclose|]. split; [exact Hnz|]. split; [exact Hd|].
  split; [destruct (Layers.layer_type nl); apply Hside|].
  split; [exact Hstr|]. split; [exact Ht|]. split; [exact Hm|]. split.
  - rewrite <- (length_map fst), Hm, length_last10.
    unfold len in Hlen. lia.
  - rewrite Hms. unfold Utils.is_ranging. destruct adx as [a|].
    + destruct (Py.ltb a 25) eqn:E.
      * split; [intros _|reflexivity]. exists a.
        split; [reflexivity | now apply ltb_true_iff].
      * split; [discriminate|]. intros (a' & Ha & Hlt). inversion Ha; subst.
        apply ltb_true_iff in Hlt. congruence.
    + split; [discriminate | intros (a' & Ha & _); discriminate].
Qed.

Lemma oracle_request_well_formed_witness :
  exists request,
    In (TechnicalOracleCalled request) (events_of (update jan7 1000) (init jan5))
    /\ last_item (map close (candles (update jan7 1000))) = Ok (rq_price request)
    /\ ~ rq_price request == 0
    /\ rq_layer_distance request <= LAYER_THRESHOLD_PCT
    /\ match rq_layer_type request with
       | Layers.Resistance => rq_price request < rq_layer_price request
       | Layers.Support => rq_layer_price request < rq_price request
       end
    /\ (1 <= rq_layer_strength request <= 3)%Z
    /\ (1 <= rq_layer_touches request)%Z
    /\ map fst (rq_ohlcv_summary request) = last10 (candles (update jan7 1000))
    /\ length (rq_ohlcv_summary request) = 10%nat
    /\ (rq_market_status request = RANGE <->
        exists adx, rq_adx_value request = Some adx /\ adx < 25).
Proof.
  assert (Hcall : exists request,
             In (TechnicalOracleCalled request)
                (events_of (update jan7 1000) (init jan5))).
  { eexists. vm_compute. right. right. left. reflexivity. }
  destruct Hcall as (request & Hin).
  exists request.
  exact (conj Hin (oracle_request_well_formed (update jan7 1000) (init jan5)
                                              request Hin)).
Defined.

(** ** utils.py: the rounding of the position size *)

Lemma round_half_even_nonneg (x : Q) :
  0 <= x -> (0 <= Py.round_half_even x)%Z.
Proof.
  intros Hx. unfold Py.round_half_even.
  assert (Hf : (0 <= Qfloor x)%Z).
  { change 0%Z with (Qfloor 0). now apply Qfloor_resp_le. }
  destruct (Qcompare _ _); [destruct (Z.even _)| |]; lia.
Qed.

(** [round(x, 2)] keeps the sign of [x]. *)
Lemma round_nonneg (x : Q) : 0 <= x -> 0 <= Py.round x 2.
Proof.
  intros Hx. unfold Py.round. change (inject_Z (10 ^ Z.of_nat 2)) with 100.
  apply Qle_shift_div_l; [reflexivity|]. rewrite Qmult_0_l.
  change 0 with (inject_Z 0). rewrite <- Zle_Qle.
  apply round_half_even_nonneg. lra.
Qed.

Lemma round_comp (x y : Q) (ndigits : nat) :
  x == y -> Py.round x ndigits = Py.round y ndigits.
Proof.
  intros H. unfold Py.round, Py.round_half_even.
  set (scale := inject_Z (10 ^ Z.of_nat ndigits)).
  assert (Hs : x * scale == y * scale) by now rewrite H.
  rewrite (Qfloor_comp _ _ Hs).
  assert (Hc : Qcompare (x * scale - inject_Z (Qfloor (y * scale))) (1 # 2)
               = Qcompare (y * scale - inject_Z (Qfloor (y * scale))) (1 # 2))
    by (apply Qcompare_comp; [now rewrite Hs | reflexivity]).
  now rewrite Hc.
Qed.

Lemma abs_diff_nonzero (entry stop_loss : Q) :
  ~ entry == stop_loss -> ~ Qabs (entry - stop_loss) == 0.
Proof.
  intros Hs H. apply Hs. pose proof (Qle_Qabs (entry - stop_loss)) as H1.
  pose proof (Qle_Qabs (- (entry - stop_loss))) as H2.
  rewrite Qabs_opp in H2. lra.
Qed.

(** The sizer's last line, with the two percent conversions cancelled. *)
Lemma size_rounded (account_balance risk_percent entry stop_loss : Q)
      (leverage : Z) :
  ~ entry == 0 -> ~ entry == stop_loss ->
  exists size,
    Utils.calculate_position_size account_balance risk_percent entry
                                  stop_loss leverage = Ok size
    /\ size == Py.round (account_balance * (risk_percent / 100)
                         / (Qabs (entry - stop_loss) / entry)) 2.
Proof.
  intros He Hs.
  rewrite (size_away_from_stop account_balance risk_percent entry stop_loss
                               leverage He Hs).
  eexists. split; [reflexivity|].
  pose proof (abs_diff_nonzero entry stop_loss Hs) as Ha.
  assert (Hq : account_balance * (risk_percent / 100)
               / (Qabs (entry - stop_loss) / entry * 100 / 100)
               == account_balance * (risk_percent / 100)
                  / (Qabs (entry - stop_loss) / entry))
    by (field; split; assumption).
  now rewrite (round_comp _ _ 2 Hq).
Qed.

Lemma relative_stop_positive (entry stop_loss : Q) :
  0 < entry -> ~ entry == stop_loss -> 0 < Qabs (entry - stop_loss) / entry.
Proof.
  intros Hpos Hs. apply Qlt_shift_div_l; [exact Hpos|]. rewrite Qmult_0_l.
  pose proof (Qabs_nonneg (entry - stop_loss)).
  pose proof (abs_diff_nonzero entry stop_loss Hs). lra.
Qed.

(** ** backtest.py: the outcome of a simulated trade *)

Section TradeOutcome.
Import Backtest.

Variable trade : BacktestTrade.
Hypothesis fresh_trade : result trade = None.
Hypothesis entry_nonzero : ~ entry_price trade == 0.

Lemma hit_closed (i : nat) (r : outcome) :
  r <> OPEN ->
  hit trade i (match r with WIN => tp trade | _ => sl trade end) r
      (booked_move trade r)
  = (closed trade i r, None).
Proof.
  intros Hr. unfold hit, closed. cbn [entry_price set_exit].
  now rewrite (truediv_ok _ _ entry_nonzero).
Qed.

(** The loop stops at the first bar that reaches a level, the take-profit
    being tested first. *)
Lemma scan_bars_first (bars : list Candle) :
  forall i,
    (scan_bars trade i bars = (trade, None)
     /\ forall k bar, nth_error bars k = Some bar ->
                      ~ reaches_tp trade bar /\ ~ reaches_sl trade bar)
    \/ (exists k bar r,
           nth_error bars k = Some bar
           /\ (forall k' bar', (k' < k)%nat -> nth_error bars k' = Some bar' ->
                               ~ reaches_tp trade bar' /\ ~ reaches_sl trade bar')
           /\ scan_bars trade i bars = (closed trade (i + k) r, None)
           /\ ((reaches_tp trade bar /\ r = WIN)
               \/ (~ reaches_tp trade bar /\ reaches_sl trade bar /\ r = LOSS))).
Proof.
  induction bars as [|bar rest IH]; intros i.
  - left. split; [reflexivity|]. intros [|k] b H; discriminate.
  - assert (Hstep :
              forall (to_tp to_sl : bool),
                (to_tp = true <-> reaches_tp trade bar) ->
                (to_sl = true <-> reaches_sl trade bar) ->
                (if to_tp then hit trade i (tp trade) WIN (booked_move trade WIN)
                 else if to_sl
                      then hit trade i (sl trade) LOSS (booked_move trade LOSS)
                      else scan_bars trade (S i) rest)
                = scan_bars trade i (bar :: rest) ->
                (scan_bars trade i (bar :: rest) = (trade, None)
                 /\ forall k b, nth_error (bar :: rest) k = Some b ->
                                ~ reaches_tp trade b /\ ~ reaches_sl trade b)
                \/ (exists k b r,
                       nth_error (bar :: rest) k = Some b
                       /\ (forall k' b', (k' < k)%nat ->
                                         nth_error (bar :: rest) k' = Some b' ->
                                         ~ reaches_tp trade b'
                                         /\ ~ reaches_sl trade b')
                       /\ scan_bars trade i (bar :: rest)
                          = (closed trade (i + k) r, None)
                       /\ ((reaches_tp trade b /\ r = WIN)
                           \/ (~ reaches_tp trade b /\ reaches_sl trade b
                               /\ r = LOSS)))).
    { intros to_tp to_sl Htp Hsl Heq. rewrite <- Heq. clear Heq.
      destruct to_tp.
      - right. exists 0%nat, bar, WIN. rewrite Nat.add_0_r.
        split; [reflexivity|]. split; [intros k' b' Hk; lia|].
        split; [apply (hit_closed i WIN); discriminate|].
        left. split; [now apply Htp | reflexivity].
      - assert (Hntp : ~ reaches_tp trade bar)
          by (intros H; apply Htp in H; discriminate).
        destruct to_sl.
        + right. exists 0%nat, bar, LOSS. rewrite Nat.add_0_r.
          split; [reflexivity|]. split; [intros k' b' Hk; lia|].
          split; [apply (hit_closed i LOSS); discriminate|].
          right. split; [exact Hntp|]. split; [now apply Hsl | reflexivity].
        + assert (Hnsl : ~ reaches_sl trade bar)
            by (intros H; apply Hsl in H; discriminate).
          destruct (IH (S i)) as [[Hrun Hnone] | (k & b & r & Hk & Hbefore & Hrun & Hr)].
          * left. split; [exact Hrun|]. intros [|k] b Hb.
            -- inversion Hb; subst. now split.
            -- exact (Hnone k b Hb).
          * right. exists (S k), b, r. split; [exact Hk|]. split.
            -- intros [|k'] b' Hlt Hb'.
               ++ inversion Hb'; subst. now split.
               ++ apply (Hbefore k' b'); [lia | exact Hb'].
            -- split; [|exact Hr].
               rewrite Hrun. now rewrite Nat.add_succ_r. }
    destruct (direction trade) eqn:Hd.
    + apply (Hstep (Py.leb (tp trade) (high bar)) (Py.leb (low bar) (sl trade))).
      * unfold reaches_tp. rewrite Hd. apply leb_true_iff.
      * unfold reaches_sl. rewrite Hd. apply leb_true_iff.
      * cbn [scan_bars]. unfold booked_move. now rewrite Hd.
    + apply (Hstep (Py.leb (low bar) (tp trade)) (Py.leb (sl trade) (high bar))).
      * unfold reaches_tp. rewrite Hd. apply leb_true_iff.
      * unfold reaches_sl. rewrite Hd. apply leb_true_iff.
      * cbn [scan_bars]. unfold booked_move. now rewrite Hd.
    + apply (Hstep (Py.leb (low bar) (tp trade)) (Py.leb (sl trade) (high bar))).
      * unfold reaches_tp. rewrite Hd. apply leb_true_iff.
      * unfold reaches_sl. rewrite Hd. apply leb_true_iff.
      * cbn [scan_bars]. unfold booked_move. now rewrite Hd.
Qed.

(** [check_trade_outcome] on a fresh trade with a non-zero entry: the
    trade stays open, or it is closed at the first bar after the entry that
    reaches a level and the position sizer prices the move. *)
Lemma check_trade_outcome_cases (candles : list Candle) :
  (check_trade_outcome trade candles = (set_result trade OPEN, None)
   /\ untouched_until trade candles (length candles))
  \/ (exists i bar r size,
         (entry_idx trade < i)%nat
         /\ nth_error candles i = Some bar
         /\ untouched_until trade candles i
         /\ ((reaches_tp trade bar /\ r = WIN)
             \/ (~ reaches_tp trade bar /\ reaches_sl trade bar /\ r = LOSS))
         /\ Utils.calculate_position_size ACCOUNT_BALANCE MAX_RISK_PERCENT
                                          (entry_price trade) (sl trade) LEVERAGE
            = Ok size
         /\ check_trade_outcome trade candles
            = (set_pnl_usd (closed trade i r)
                 (size * (booked_move trade r / entry_price trade * 100 / 100)
                  * inject_Z LEVERAGE),
               None)).
Proof.
  unfold check_trade_outcome.
  destruct (scan_bars_first (skipn (S (entry_idx trade)) candles)
                            (S (entry_idx trade)))
    as [[Hrun Hnone] | (k & bar & r & Hk & Hbefore & Hrun & Hr)]; rewrite Hrun.
  - left. rewrite fresh_trade. cbn [result set_result].
    split; [reflexivity|]. intros j bar [Hlo Hhi] Hj.
    apply (Hnone (j - S (entry_idx trade))%nat bar).
    rewrite nth_error_skipn. now replace (S (entry_idx trade) + (j - S (entry_idx trade)))%nat with j by lia.
  - right. rewrite nth_error_skipn in Hk.
    destruct (size_defined ACCOUNT_BALANCE MAX_RISK_PERCENT (entry_price trade)
                           (sl trade) LEVERAGE entry_nonzero) as [size Hsize].
    exists (S (entry_idx trade) + k)%nat, bar, r, size.
    split; [lia|]. split; [exact Hk|]. split.
    { intros j b [Hlo Hhi] Hj.
      apply (Hbefore (j - S (entry_idx trade))%nat b); [lia|].
      rewrite nth_error_skipn.
      now replace (S (entry_idx trade) + (j - S (entry_idx trade)))%nat
        with j by lia. }
    split; [exact Hr|]. split; [exact Hsize|].
    assert (Hres : result (closed trade (S (entry_idx trade) + k) r) = Some r)
      by reflexivity.
    rewrite Hres.
    assert (Hclosed : r <> OPEN)
      by (destruct Hr as [[_ ->] | (_ & _ & ->)]; discriminate).
    change (entry_price (closed trade (S (entry_idx trade) + k) r))
      with (entry_price trade).
    change (sl (closed trade (S (entry_idx trade) + k) r)) with (sl trade).
    destruct r; [| |congruence]; rewrite Hsize; reflexivity.
Qed.

End TradeOutcome.

(** X24.  [check_trade_outcome] on a fresh trade with a non-zero entry price
    does not raise, and it closes the trade at the first bar after the
    entry bar that reaches one of its levels: a win at the take-profit if
    that bar reaches the take-profit (also when it reaches the stop-loss as
    well), a loss at the stop-loss otherwise.  When no later bar reaches a
    level the trade is OPEN and its exit and its profit are left as they
    were. *)
Theorem trade_exits_at_first_touch :
  forall (trade : Backtest.BacktestTrade) (candles : list Candle),
    Backtest.result trade = None ->
    ~ Backtest.entry_price trade == 0 ->
    exists trade',
      Backtest.check_trade_outcome trade candles = (trade', None)
      /\ ((Backtest.result trade' = Some Backtest.OPEN
           /\ Backtest.exit_idx trade' = Backtest.exit_idx trade
           /\ Backtest.exit_price trade' = Backtest.exit_price trade
           /\ Backtest.pnl_percent trade' = Backtest.pnl_percent trade
           /\ Backtest.pnl_usd trade' = Backtest.pnl_usd trade
           /\ untouched_until trade candles (length candles))
          \/ (exists i bar,
                (Backtest.entry_idx trade < i)%nat
                /\ nth_error candles i = Some bar
                /\ untouched_until trade candles i
                /\ Backtest.exit_idx trade' = Some i
                /\ ((reaches_tp trade bar
                     /\ Backtest.result trade' = Some Backtest.WIN
                     /\ Backtest.exit_price trade' = Some (Backtest.tp trade))
                    \/ (~ reaches_tp trade bar
                        /\ reaches_sl trade bar
                        /\ Backtest.result trade' = Some Backtest.LOSS
                        /\ Backtest.exit_price trade'
                           = Some (Backtest.sl trade))))).
Proof.
  intros trade candles Hfresh Hentry.
  destruct (check_trade_outcome_cases trade Hfresh Hentry candles)
    as [[Hrun Hnone] | (i & bar & r & size & Hi & Hbar & Hbefore & Hr & _ & Hrun)];
    rewrite Hrun; eexists; (split; [reflexivity|]).
  - left. do 5 (split; [reflexivity|]). exact Hnone.
  - right. exists i, bar. split; [exact Hi|]. split; [exact Hbar|].
    split; [exact Hbefore|]. split; [reflexivity|].
    destruct Hr as [[Htp ->] | (Hntp & Hsl & ->)]; [left | right].
    + split; [exact Htp|]. split; reflexivity.
    + split; [exact Hntp|]. split; [exact Hsl|]. split; reflexivity.
Qed.

Lemma trade_exits_at_first_touch_witness :
  exists trade',
    Backtest.check_trade_outcome
      (Backtest.new_trade 1 100 Grok.LONG 101 99 70 "bounce")
      Scenario.window
    = (trade', None)
    /\ Backtest.result trade' = Some Backtest.WIN
    /\ Backtest.exit_idx trade' = Some 2%nat
    /\ ((Backtest.result trade' = Some Backtest.OPEN
         /\ Backtest.exit_idx trade' = None
         /\ Backtest.exit_price trade' = None
         /\ Backtest.pnl_percent trade' = 0
         /\ Backtest.pnl_usd trade' = 0
         /\ untouched_until
              (Backtest.new_trade 1 100 Grok.LONG 101 99 70 "bounce")
              Scenario.window (length Scenario.window))
        \/ (exists i bar,
              (1 < i)%nat
              /\ nth_error Scenario.window i = Some bar
              /\ untouched_until
                   (Backtest.new_trade 1 100 Grok.LONG 101 99 70 "bounce")
                   Scenario.window i
              /\ Backtest.exit_idx trade' = Some i
              /\ ((reaches_tp
                     (Backtest.new_trade 1 100 Grok.LONG 101 99 70 "bounce") bar
                   /\ Backtest.result trade' = Some Backtest.WIN
                   /\ Backtest.exit_price trade' = Some 101)
                  \/ (~ reaches_tp
                          (Backtest.new_trade 1 100 Grok.LONG 101 99 70 "bounce")
                          bar
                      /\ reaches_sl
                           (Backtest.new_trade 1 100 Grok.LONG 101 99 70 "bounce")
                           bar
                      /\ Backtest.result trade' = Some Backtest.LOSS
                      /\ Backtest.exit_price trade' = Some 99)))).
Proof.
  destruct (trade_exits_at_first_touch
              (Backtest.new_trade 1 100 Grok.LONG 101 99 70 "bounce")
              Scenario.window eq_refl)
    as (trade' & Hrun & H); [intros H; discriminate H|].
  exists trade'. split; [exact Hrun|].
  assert (Hval : forall r,
             r = Backtest.check_trade_outcome
                   (Backtest.new_trade 1 100 Grok.LONG 101 99 70 "bounce")
                   Scenario.window ->
             Backtest.result (fst r) = Some Backtest.WIN
             /\ Backtest.exit_idx (fst r) = Some 2%nat)
    by (intros r ->; vm_compute; split; reflexivity).
  destruct (Hval _ (eq_sym Hrun)) as [Hw Hi].
  exact (conj Hw (conj Hi H)).
Defined.

(** X25.  The profit [check_trade_outcome] books on a fresh trade whose
    levels bracket a positive entry price (for a long, stop-loss below and
    take-profit above; the other way round otherwise) has the sign of the
    outcome: a win has a positive percentage and a profit in USD that is not
    negative; a loss has a negative percentage and a profit in USD that is
    not positive. *)
Theorem booked_profit :
  forall (trade : Backtest.BacktestTrade) (candles : list Candle),
    Backtest.result trade = None ->
    0 < Backtest.entry_price trade ->
    bracketed trade ->
    let trade' := fst (Backtest.check_trade_outcome trade candles) in
    (Backtest.result trade' = Some Backtest.WIN ->
     0 < Backtest.pnl_percent trade' /\ 0 <= Backtest.pnl_usd trade')
    /\ (Backtest.result trade' = Some Backtest.LOSS ->
        Backtest.pnl_percent trade' < 0 /\ Backtest.pnl_usd trade' <= 0).
Proof.
  intros trade candles Hfresh Hpos Hbr. cbv zeta.
  assert (Hentry : ~ Backtest.entry_price trade == 0) by lra.
  assert (Hstop : ~ Backtest.entry_price trade == Backtest.sl trade)
    by (unfold bracketed in Hbr; destruct (Backtest.direction trade); lra).
  unfold bracketed in Hbr.
  destruct (check_trade_outcome_cases trade Hfresh Hentry candles)
    as [[Hrun _] | (i & bar & r & size & _ & _ & _ & Hr & Hsize & Hrun)];
    rewrite Hrun; cbn [fst].
  { cbn. split; intros H; discriminate H. }
  destruct (size_rounded Backtest.ACCOUNT_BALANCE Backtest.MAX_RISK_PERCENT
                         (Backtest.entry_price trade) (Backtest.sl trade)
                         Backtest.LEVERAGE Hentry Hstop)
    as (size' & Hsize' & Hround).
  assert (size' = size) by congruence. subst size'.
  pose proof (relative_stop_positive _ _ Hpos Hstop) as Hq.
  set (e := Backtest.entry_price trade) in *.
  set (q := Qabs (e - Backtest.sl trade) / e) in *.
  cbn [Backtest.result Backtest.pnl_percent Backtest.pnl_usd closed
       Backtest.set_pnl_usd Backtest.set_pnl_percent Backtest.set_exit].
  fold e. change (inject_Z Backtest.LEVERAGE) with 10.
  change (Backtest.ACCOUNT_BALANCE * (Backtest.MAX_RISK_PERCENT / 100)) with
    (1000 * (0.2 / 100)) in *.
  assert (Hsz : 0 <= size).
  { rewrite Hround. apply round_nonneg.
    apply Qle_shift_div_l; [exact Hq|]. rewrite Qmult_0_l. discriminate. }
  assert (Hmove : forall m, m / e * 100 / 100 == m / e)
    by (intros m; field; exact Hentry).
  split; intros Hres; inversion Hres; subst r.
  - assert (Hm : 0 < booked_move trade Backtest.WIN).
    { unfold booked_move. fold e.
      destruct (Backtest.direction trade); lra. }
    assert (Hme : 0 < booked_move trade Backtest.WIN / e)
      by (apply Qlt_shift_div_l; lra).
    split.
    + apply Qmult_lt_0_compat; [exact Hme | reflexivity].
    + rewrite Hmove.
      apply Qmult_le_0_compat; [|discriminate].
      apply Qmult_le_0_compat; [exact Hsz | lra].
  - assert (Hm : booked_move trade Backtest.LOSS / e == - q).
    { unfold booked_move, q. fold e.
      destruct (Backtest.direction trade);
        [rewrite (Qabs_pos (e - Backtest.sl trade)) by lra
        |rewrite (Qabs_neg (e - Backtest.sl trade)) by lra
        |rewrite (Qabs_neg (e - Backtest.sl trade)) by lra];
        field; exact Hentry. }
    split.
    + rewrite Hm. lra.
    + rewrite Hmove, Hm.
      setoid_replace (size * - q * 10) with (- (10) * (size * q)) by ring.
      assert (Hsq : 0 <= size * q)
        by (apply Qmult_le_0_compat; [exact Hsz | lra]).
      lra.
Qed.

Lemma booked_profit_witness :
  Backtest.result
    (fst (Backtest.check_trade_outcome
            (Backtest.new_trade 1 100 Grok.SHORT 99 100.9 70 "fade")
            Scenario.window))
  = Some Backtest.LOSS
  /\ bracketed (Backtest.new_trade 1 100 Grok.SHORT 99 100.9 70 "fade")
  /\ Backtest.pnl_percent
       (fst (Backtest.check_trade_outcome
               (Backtest.new_trade 1 100 Grok.SHORT 99 100.9 70 "fade")
               Scenario.window)) < 0
  /\ Backtest.pnl_usd
       (fst (Backtest.check_trade_outcome
               (Backtest.new_trade 1 100 Grok.SHORT 99 100.9 70 "fade")
               Scenario.window)) <= 0.
Proof.
  assert (Hloss : Backtest.result
                    (fst (Backtest.check_trade_outcome
                            (Backtest.new_trade 1 100 Grok.SHORT 99 100.9 70
                                                "fade")
                            Scenario.window))
                  = Some Backtest.LOSS) by (vm_compute; reflexivity).
  assert (Hbr : bracketed (Backtest.new_trade 1 100 Grok.SHORT 99 100.9 70 "fade"))
    by (split; reflexivity).
  destruct (booked_profit
              (Backtest.new_trade 1 100 Grok.SHORT 99 100.9 70 "fade")
              Scenario.window eq_refl eq_refl Hbr) as [_ H].
  exact (conj Hloss (conj Hbr (H Hloss))).
Defined.
